(** * Prerender contents life cycle and the Mac login-database shim

    A shallow embedding of
    - chrome/browser/prerender/prerender_contents.cc
    - chrome/browser/password_manager/login_database_mac.cc

    Methods of [PrerenderContents] are computations in a small monad that
    threads the object itself, the state of the cross-thread tracker and
    the sequence of calls made to the collaborators (manager, tracker,
    observers, render process hosts, history helper), and that stops at
    the first failed assertion.  Assertions are modelled as a build with
    DCHECKs enabled has them: a failed [DCHECK], [CHECK] or a reached
    [NOTREACHED] ends the run. *)

From stdpp Require Import base numbers list strings gmap.

Open Scope Z_scope.

(* ===================================================================== *)
(** ** Enumerations and plain data                                         *)
(* ===================================================================== *)

(** Modelled from the spec: prerender_final_status.h is not among the
    sources.  The enumerators are the ones prerender_contents.cc names;
    the spec describes the type as one fixed enumerated set of reasons
    whose last member is the "unset/max sentinel".  They are numbered in
    declaration order, as a C enum is; the code relies only on
    [FINAL_STATUS_USED] being the least and [FINAL_STATUS_MAX] the
    greatest. *)
Inductive FinalStatus : Set :=
  | FINAL_STATUS_USED
  | FINAL_STATUS_TIMED_OUT
  | FINAL_STATUS_PROFILE_DESTROYED
  | FINAL_STATUS_APP_TERMINATING
  | FINAL_STATUS_JAVASCRIPT_ALERT
  | FINAL_STATUS_HTTPS
  | FINAL_STATUS_DOWNLOAD
  | FINAL_STATUS_MEMORY_LIMIT_EXCEEDED
  | FINAL_STATUS_JS_OUT_OF_MEMORY
  | FINAL_STATUS_RENDERER_CRASHED
  | FINAL_STATUS_UNSUPPORTED_SCHEME
  | FINAL_STATUS_WINDOW_PRINT
  | FINAL_STATUS_RECENTLY_VISITED
  | FINAL_STATUS_CANCELLED
  | FINAL_STATUS_OPEN_URL
  | FINAL_STATUS_REGISTER_PROTOCOL_HANDLER
  | FINAL_STATUS_NEW_NAVIGATION_ENTRY
  | FINAL_STATUS_MAX.

#[global] Instance FinalStatus_eq_dec : EqDecision FinalStatus.
Proof. solve_decision. Defined.

(** The integer value of an enumerator. *)
Definition FinalStatus_value (s : FinalStatus) : Z :=
  match s with
  | FINAL_STATUS_USED => 0
  | FINAL_STATUS_TIMED_OUT => 1
  | FINAL_STATUS_PROFILE_DESTROYED => 2
  | FINAL_STATUS_APP_TERMINATING => 3
  | FINAL_STATUS_JAVASCRIPT_ALERT => 4
  | FINAL_STATUS_HTTPS => 5
  | FINAL_STATUS_DOWNLOAD => 6
  | FINAL_STATUS_MEMORY_LIMIT_EXCEEDED => 7
  | FINAL_STATUS_JS_OUT_OF_MEMORY => 8
  | FINAL_STATUS_RENDERER_CRASHED => 9
  | FINAL_STATUS_UNSUPPORTED_SCHEME => 10
  | FINAL_STATUS_WINDOW_PRINT => 11
  | FINAL_STATUS_RECENTLY_VISITED => 12
  | FINAL_STATUS_CANCELLED => 13
  | FINAL_STATUS_OPEN_URL => 14
  | FINAL_STATUS_REGISTER_PROTOCOL_HANDLER => 15
  | FINAL_STATUS_NEW_NAVIGATION_ENTRY => 16
  | FINAL_STATUS_MAX => 17
  end.

(** Modelled from the spec: the match-complete sub-status of
    prerender_contents.h (not among the sources), with the three values
    the spec lists and prerender_contents.cc names. *)
Inductive MatchCompleteStatus : Set :=
  | MATCH_COMPLETE_DEFAULT
  | MATCH_COMPLETE_REPLACEMENT
  | MATCH_COMPLETE_REPLACEMENT_PENDING.

#[global] Instance MatchCompleteStatus_eq_dec : EqDecision MatchCompleteStatus.
Proof. solve_decision. Defined.

(** Modelled from the spec: the origin classification of
    prerender_origin.h (not among the sources): omnibox, instant,
    local-predictor, other, and the [ORIGIN_MAX] bound the destructor
    mentions. *)
Inductive Origin : Set :=
  | ORIGIN_OMNIBOX
  | ORIGIN_INSTANT
  | ORIGIN_LOCAL_PREDICTOR
  | ORIGIN_OTHER
  | ORIGIN_MAX.

#[global] Instance Origin_eq_dec : EqDecision Origin.
Proof. solve_decision. Defined.

(** Modelled from the spec: [GURL] (url/gurl.h, not among the sources) as
    a parsed URL: its canonical scheme and what follows "scheme:".
    [operator==] is equality of the whole URL. *)
Record GURL : Set := mkGURL { gurl_scheme : string; gurl_rest : string }.

#[global] Instance GURL_eq_dec : EqDecision GURL.
Proof. solve_decision. Defined.

Definition SchemeIs (url : GURL) (lower_ascii_scheme : string) : bool :=
  bool_decide (gurl_scheme url = lower_ascii_scheme).

(** content::kHttpScheme and content::kHttpsScheme. *)
Definition kHttpScheme : string := "http".
Definition kHttpsScheme : string := "https".

(** content::Referrer, history::HistoryAddPageArgs, an observer and a
    target tab are opaque to this file: each is carried around and handed
    to a collaborator, never inspected. *)
Definition Referrer : Set := string.
Definition HistoryAddPageArgs : Set := GURL.
Definition Observer : Set := nat.
Definition TabId : Set := nat.
Definition HostId : Set := nat.

(** A [SessionStorageNamespace] as far as this file looks at it: its id. *)
Record SessionStorageNamespace : Set :=
  mkNamespace { ns_id : Z }.

(** The hidden [WebContents] as far as this file looks at it: the number
    of entries its navigation controller holds. *)
Record WebContents : Set :=
  mkWebContents { GetEntryCount : Z }.

(** Frame-navigate parameters of a commit: the redirect chain. *)
Record FrameNavigateParams : Set :=
  mkFrameNavigateParams { redirects : list GURL }.

(* ===================================================================== *)
(** ** The object                                                          *)
(* ===================================================================== *)

(** The data members of [PrerenderContents] that the modelled methods
    read or write, under the names the class gives them. *)
Record PrerenderContents : Set := mkPrerenderContents {
  prerendering_has_started_ : bool;
  session_storage_namespace_id_ : Z;
  prerender_url_ : GURL;
  referrer_ : Referrer;
  has_stopped_loading_ : bool;
  has_finished_loading_ : bool;
  final_status_ : FinalStatus;
  match_complete_status_ : MatchCompleteStatus;
  prerendering_has_been_cancelled_ : bool;
  child_id_ : Z;
  route_id_ : Z;
  origin_ : Origin;
  experiment_id_ : Z;
  creator_child_id_ : Z;
  cookie_status_ : Z;
  load_start_time_ : Z;
  alias_urls_ : list GURL;
  add_page_vector_ : list HistoryAddPageArgs;
  observer_list_ : list Observer;
  prerender_contents_ : option WebContents
}.

(** The constructor's member initialisers; the members it does not list
    are default-constructed (a null time, empty vectors, a null
    scoped_ptr). *)
Definition PrerenderContents_new
    (url : GURL) (referrer : Referrer) (origin : Origin) (experiment_id : Z)
    : PrerenderContents :=
  {| prerendering_has_started_ := false;
     session_storage_namespace_id_ := -1;
     prerender_url_ := url;
     referrer_ := referrer;
     has_stopped_loading_ := false;
     has_finished_loading_ := false;
     final_status_ := FINAL_STATUS_MAX;
     match_complete_status_ := MATCH_COMPLETE_DEFAULT;
     prerendering_has_been_cancelled_ := false;
     child_id_ := -1;
     route_id_ := -1;
     origin_ := origin;
     experiment_id_ := experiment_id;
     creator_child_id_ := -1;
     cookie_status_ := 0;
     load_start_time_ := 0;
     alias_urls_ := [];
     add_page_vector_ := [];
     observer_list_ := [];
     prerender_contents_ := None |}.

(** Member assignments. *)
Definition set_final_status_ (v : FinalStatus) (p : PrerenderContents) :=
  {| prerendering_has_started_ := prerendering_has_started_ p;
     session_storage_namespace_id_ := session_storage_namespace_id_ p;
     prerender_url_ := prerender_url_ p;
     referrer_ := referrer_ p;
     has_stopped_loading_ := has_stopped_loading_ p;
     has_finished_loading_ := has_finished_loading_ p;
     final_status_ := v;
     match_complete_status_ := match_complete_status_ p;
     prerendering_has_been_cancelled_ := prerendering_has_been_cancelled_ p;
     child_id_ := child_id_ p;
     route_id_ := route_id_ p;
     origin_ := origin_ p;
     experiment_id_ := experiment_id_ p;
     creator_child_id_ := creator_child_id_ p;
     cookie_status_ := cookie_status_ p;
     load_start_time_ := load_start_time_ p;
     alias_urls_ := alias_urls_ p;
     add_page_vector_ := add_page_vector_ p;
     observer_list_ := observer_list_ p;
     prerender_contents_ := prerender_contents_ p |}.

Definition set_match_complete_status_ (v : MatchCompleteStatus) (p : PrerenderContents) :=
  {| prerendering_has_started_ := prerendering_has_started_ p;
     session_storage_namespace_id_ := session_storage_namespace_id_ p;
     prerender_url_ := prerender_url_ p;
     referrer_ := referrer_ p;
     has_stopped_loading_ := has_stopped_loading_ p;
     has_finished_loading_ := has_finished_loading_ p;
     final_status_ := final_status_ p;
     match_complete_status_ := v;
     prerendering_has_been_cancelled_ := prerendering_has_been_cancelled_ p;
     child_id_ := child_id_ p;
     route_id_ := route_id_ p;
     origin_ := origin_ p;
     experiment_id_ := experiment_id_ p;
     creator_child_id_ := creator_child_id_ p;
     cookie_status_ := cookie_status_ p;
     load_start_time_ := load_start_time_ p;
     alias_urls_ := alias_urls_ p;
     add_page_vector_ := add_page_vector_ p;
     observer_list_ := observer_list_ p;
     prerender_contents_ := prerender_contents_ p |}.

Definition set_prerendering_has_been_cancelled_ (v : bool) (p : PrerenderContents) :=
  {| prerendering_has_started_ := prerendering_has_started_ p;
     session_storage_namespace_id_ := session_storage_namespace_id_ p;
     prerender_url_ := prerender_url_ p;
     referrer_ := referrer_ p;
     has_stopped_loading_ := has_stopped_loading_ p;
     has_finished_loading_ := has_finished_loading_ p;
     final_status_ := final_status_ p;
     match_complete_status_ := match_complete_status_ p;
     prerendering_has_been_cancelled_ := v;
     child_id_ := child_id_ p;
     route_id_ := route_id_ p;
     origin_ := origin_ p;
     experiment_id_ := experiment_id_ p;
     creator_child_id_ := creator_child_id_ p;
     cookie_status_ := cookie_status_ p;
     load_start_time_ := load_start_time_ p;
     alias_urls_ := alias_urls_ p;
     add_page_vector_ := add_page_vector_ p;
     observer_list_ := observer_list_ p;
     prerender_contents_ := prerender_contents_ p |}.

Definition set_alias_urls_ (v : list GURL) (p : PrerenderContents) :=
  {| prerendering_has_started_ := prerendering_has_started_ p;
     session_storage_namespace_id_ := session_storage_namespace_id_ p;
     prerender_url_ := prerender_url_ p;
     referrer_ := referrer_ p;
     has_stopped_loading_ := has_stopped_loading_ p;
     has_finished_loading_ := has_finished_loading_ p;
     final_status_ := final_status_ p;
     match_complete_status_ := match_complete_status_ p;
     prerendering_has_been_cancelled_ := prerendering_has_been_cancelled_ p;
     child_id_ := child_id_ p;
     route_id_ := route_id_ p;
     origin_ := origin_ p;
     experiment_id_ := experiment_id_ p;
     creator_child_id_ := creator_child_id_ p;
     cookie_status_ := cookie_status_ p;
     load_start_time_ := load_start_time_ p;
     alias_urls_ := v;
     add_page_vector_ := add_page_vector_ p;
     observer_list_ := observer_list_ p;
     prerender_contents_ := prerender_contents_ p |}.

Definition set_add_page_vector_ (v : list HistoryAddPageArgs) (p : PrerenderContents) :=
  {| prerendering_has_started_ := prerendering_has_started_ p;
     session_storage_namespace_id_ := session_storage_namespace_id_ p;
     prerender_url_ := prerender_url_ p;
     referrer_ := referrer_ p;
     has_stopped_loading_ := has_stopped_loading_ p;
     has_finished_loading_ := has_finished_loading_ p;
     final_status_ := final_status_ p;
     match_complete_status_ := match_complete_status_ p;
     prerendering_has_been_cancelled_ := prerendering_has_been_cancelled_ p;
     child_id_ := child_id_ p;
     route_id_ := route_id_ p;
     origin_ := origin_ p;
     experiment_id_ := experiment_id_ p;
     creator_child_id_ := creator_child_id_ p;
     cookie_status_ := cookie_status_ p;
     load_start_time_ := load_start_time_ p;
     alias_urls_ := alias_urls_ p;
     add_page_vector_ := v;
     observer_list_ := observer_list_ p;
     prerender_contents_ := prerender_contents_ p |}.

Definition set_observer_list_ (v : list Observer) (p : PrerenderContents) :=
  {| prerendering_has_started_ := prerendering_has_started_ p;
     session_storage_namespace_id_ := session_storage_namespace_id_ p;
     prerender_url_ := prerender_url_ p;
     referrer_ := referrer_ p;
     has_stopped_loading_ := has_stopped_loading_ p;
     has_finished_loading_ := has_finished_loading_ p;
     final_status_ := final_status_ p;
     match_complete_status_ := match_complete_status_ p;
     prerendering_has_been_cancelled_ := prerendering_has_been_cancelled_ p;
     child_id_ := child_id_ p;
     route_id_ := route_id_ p;
     origin_ := origin_ p;
     experiment_id_ := experiment_id_ p;
     creator_child_id_ := creator_child_id_ p;
     cookie_status_ := cookie_status_ p;
     load_start_time_ := load_start_time_ p;
     alias_urls_ := alias_urls_ p;
     add_page_vector_ := add_page_vector_ p;
     observer_list_ := v;
     prerender_contents_ := prerender_contents_ p |}.

Definition set_loading_flags_ (stopped finished : bool) (p : PrerenderContents) :=
  {| prerendering_has_started_ := prerendering_has_started_ p;
     session_storage_namespace_id_ := session_storage_namespace_id_ p;
     prerender_url_ := prerender_url_ p;
     referrer_ := referrer_ p;
     has_stopped_loading_ := stopped;
     has_finished_loading_ := finished;
     final_status_ := final_status_ p;
     match_complete_status_ := match_complete_status_ p;
     prerendering_has_been_cancelled_ := prerendering_has_been_cancelled_ p;
     child_id_ := child_id_ p;
     route_id_ := route_id_ p;
     origin_ := origin_ p;
     experiment_id_ := experiment_id_ p;
     creator_child_id_ := creator_child_id_ p;
     cookie_status_ := cookie_status_ p;
     load_start_time_ := load_start_time_ p;
     alias_urls_ := alias_urls_ p;
     add_page_vector_ := add_page_vector_ p;
     observer_list_ := observer_list_ p;
     prerender_contents_ := prerender_contents_ p |}.

(** [load_start_time_] and [session_storage_namespace_id_], the two
    members a replacement copies from the original before it is
    initialised. *)
Definition set_clone_config_ (load_start_time ns : Z) (p : PrerenderContents) :=
  {| prerendering_has_started_ := prerendering_has_started_ p;
     session_storage_namespace_id_ := ns;
     prerender_url_ := prerender_url_ p;
     referrer_ := referrer_ p;
     has_stopped_loading_ := has_stopped_loading_ p;
     has_finished_loading_ := has_finished_loading_ p;
     final_status_ := final_status_ p;
     match_complete_status_ := match_complete_status_ p;
     prerendering_has_been_cancelled_ := prerendering_has_been_cancelled_ p;
     child_id_ := child_id_ p;
     route_id_ := route_id_ p;
     origin_ := origin_ p;
     experiment_id_ := experiment_id_ p;
     creator_child_id_ := creator_child_id_ p;
     cookie_status_ := cookie_status_ p;
     load_start_time_ := load_start_time;
     alias_urls_ := alias_urls_ p;
     add_page_vector_ := add_page_vector_ p;
     observer_list_ := observer_list_ p;
     prerender_contents_ := prerender_contents_ p |}.

(* ===================================================================== *)
(** ** Collaborators                                                       *)
(* ===================================================================== *)

(** What the methods consume from [PrerenderManager], its [Config] and
    [content::RenderProcessHost] (none of them among the sources): each
    is a value or a function the manager answers with.
    [MoveEntryToPendingDelete_status] is the match-complete status the
    manager leaves on the entry it is handed: the comment in [Destroy]
    says the call may turn the entry into a match-complete replacement,
    so [Destroy] reads the status again afterwards. *)
Record Env : Type := mkEnv {
  config_https_allowed : bool;
  HasRecentlyBeenNavigatedTo : Origin → GURL → bool;
  IsControlGroup : Z → bool;
  MoveEntryToPendingDelete_status :
    PrerenderContents → FinalStatus → MatchCompleteStatus;
  AllHosts : list HostId
}.

(** The two entry points of [PrerenderTracker] (prerender_tracker.cc is
    not among the sources) that [Destroy] goes through, as an interface
    over the tracker's state: [TryCancel child route status] answers
    whether the prerender is now cancelled and may write;
    [GetFinalStatus child route] answers the recorded status when the
    pair is known. *)
Class PrerenderTracker (T : Type) : Type := {
  TryCancel : Z → Z → FinalStatus → T → bool * T;
  GetFinalStatus : Z → Z → T → option FinalStatus
}.

(** Modelled from the spec: the tracker as "a synchronized map keyed by
    (processId, routeId) → finalStatus" whose [TryCancel] "attempts to
    atomically claim the cancellation by writing a final status if one is
    not already set" and whose answer tells whether a cancellation is
    what is now recorded.  A registered pair not yet cancelled holds the
    unset sentinel. *)
Definition TrackerMap_TryCancel (child route : Z) (requested : FinalStatus)
    (m : gmap (Z * Z) FinalStatus) : bool * gmap (Z * Z) FinalStatus :=
  match m !! (child, route) with
  | None => (false, m)
  | Some recorded =>
      if bool_decide (recorded = FINAL_STATUS_MAX)
      then (bool_decide (requested ≠ FINAL_STATUS_USED ∧ requested ≠ FINAL_STATUS_MAX),
            <[(child, route) := requested]> m)
      else (bool_decide (recorded ≠ FINAL_STATUS_USED), m)
  end.

Definition TrackerMap_GetFinalStatus (child route : Z)
    (m : gmap (Z * Z) FinalStatus) : option FinalStatus :=
  m !! (child, route).

#[global] Instance TrackerMap : PrerenderTracker (gmap (Z * Z) FinalStatus) :=
  {| TryCancel := TrackerMap_TryCancel;
     GetFinalStatus := TrackerMap_GetFinalStatus |}.

(** Calls that leave the object, in the order they are made. *)
Inductive Event : Type :=
  | Tracker_TryCancel (child route : Z) (requested : FinalStatus)
  | Tracker_GetFinalStatus (child route : Z)
  | Manager_AddToHistory
  | Manager_MoveEntryToPendingDelete (final_status : FinalStatus)
  | Observer_OnPrerenderStop (o : Observer)
  | Observer_OnPrerenderStopLoading (o : Observer)
  | Observer_OnPrerenderCreatedMatchCompleteReplacement (o : Observer)
  | Host_Send_OnPrerenderAddAlias (host : HostId) (url : GURL)
  | HistoryTabHelper_UpdateHistoryForNavigation
      (tab : TabId) (add_page_args : HistoryAddPageArgs).

(* ===================================================================== *)
(** ** The monad of method bodies                                          *)
(* ===================================================================== *)

(** How a run ends early. *)
Inductive Fatal : Set :=
  | DCHECK_failed (condition : string)
  | CHECK_failed (condition : string)
  | NOTREACHED_reached
  | undefined_behaviour (what : string).

Inductive Result (A : Type) : Type :=
  | Ok (a : A)
  | Crash (f : Fatal).
Arguments Ok {A} a.
Arguments Crash {A} f.

(** The object a method runs on, the tracker, and the calls made so far. *)
Record St (T : Type) : Type := mkSt {
  this : PrerenderContents;
  tracker : T;
  calls : list Event
}.
Arguments mkSt {T} this tracker calls.
Arguments this {T} s.
Arguments tracker {T} s.
Arguments calls {T} s.

(** [std::count_if]. *)
Fixpoint count_if {A} (pred : A → bool) (l : list A) : Z :=
  match l with
  | [] => 0
  | x :: l' => (if pred x then 1 else 0) + count_if pred l'
  end.

(** [PrerenderContents::Matches], a [const] method: it reads the object
    and calls no collaborator. *)
Definition Matches (p : PrerenderContents) (url : GURL)
    (session_storage_namespace : option SessionStorageNamespace) : bool :=
  if match session_storage_namespace with
     | Some ns => bool_decide (session_storage_namespace_id_ p ≠ ns_id ns)
     | None => false
     end
  then false
  else bool_decide (count_if (λ alias, bool_decide (alias = url)) (alias_urls_ p) ≠ 0).

Section Methods.

Context {T : Type} `{!PrerenderTracker T}.

Definition M (A : Type) : Type := St T → Result (A * St T).

#[global] Instance M_ret : MRet M := λ A a s, Ok (a, s).

#[global] Instance M_bind : MBind M := λ A B f m s,
  match m s with
  | Ok (a, s') => f a s'
  | Crash e => Crash e
  end.

Definition crash {A} (e : Fatal) : M A := λ _, Crash e.

Definition get_this : M PrerenderContents := λ s, Ok (this s, s).

Definition modify_this (f : PrerenderContents → PrerenderContents) : M unit :=
  λ s, Ok (tt, {| this := f (this s); tracker := tracker s; calls := calls s |}).

Definition call (e : Event) : M unit :=
  λ s, Ok (tt, {| this := this s; tracker := tracker s; calls := calls s ++ [e] |}).

Definition DCHECK (condition : string) (holds : bool) : M unit :=
  if holds then mret tt else crash (DCHECK_failed condition).

Definition CHECK (condition : string) (holds : bool) : M unit :=
  if holds then mret tt else crash (CHECK_failed condition).

Definition NOTREACHED {A} : M A := crash NOTREACHED_reached.

(** A loop over the elements of a container, in order. *)
Fixpoint for_each {A} (l : list A) (body : A → M unit) : M unit :=
  match l with
  | [] => mret tt
  | x :: l' => body x ;; for_each l' body
  end.

(** [for (size_t i = first; i < first + count; i++) body(i)], where the
    body answers whether the loop goes on ([false] is a [return] from
    inside it). *)
Fixpoint for_index (count : nat) (i : nat) (body : nat → M bool) : M unit :=
  match count with
  | O => mret tt
  | S count' =>
      go_on ← body i;
      if go_on : bool then for_index count' (S i) body else mret tt
  end.

(** The same loop told over the elements rather than the indices: used
    to state what an indexed loop over a whole vector does. *)
Fixpoint while_each {A} (l : list A) (body : A → M bool) : M unit :=
  match l with
  | [] => mret tt
  | x :: l' =>
      go_on ← body x;
      if go_on : bool then while_each l' body else mret tt
  end.

(** [v[i]] of a [std::vector]. *)
Definition at_index {A} (v : list A) (i : nat) : M A :=
  match v !! i with
  | Some x => mret x
  | None => crash (undefined_behaviour "vector index out of range")
  end.

(** [v.front()] of a [std::vector]. *)
Definition front {A} (v : list A) : M A :=
  match v with
  | x :: _ => mret x
  | [] => crash (undefined_behaviour "front() of an empty vector")
  end.

(** [p->...] through a [scoped_ptr]. *)
Definition deref {A} (p : option A) : M A :=
  match p with
  | Some x => mret x
  | None => crash (undefined_behaviour "null pointer dereference")
  end.

(** Run a method on another object: the tracker and the sequence of
    calls are shared, the object this method runs on is left as it is. *)
Definition on_object {A} (other : PrerenderContents) (m : M A)
    : M (A * PrerenderContents) :=
  λ s, match m {| this := other; tracker := tracker s; calls := calls s |} with
       | Ok (a, s') =>
           Ok ((a, this s'),
               {| this := this s; tracker := tracker s'; calls := calls s' |})
       | Crash e => Crash e
       end.

Definition tracker_TryCancel (child route : Z) (requested : FinalStatus) : M bool :=
  λ s, let '(is_cancelled, t') := TryCancel child route requested (tracker s) in
       Ok (is_cancelled,
           {| this := this s; tracker := t';
              calls := calls s ++ [Tracker_TryCancel child route requested] |}).

Definition tracker_GetFinalStatus (child route : Z) : M (option FinalStatus) :=
  λ s, Ok (GetFinalStatus child route (tracker s),
           {| this := this s; tracker := tracker s;
              calls := calls s ++ [Tracker_GetFinalStatus child route] |}).

Variable env : Env.

(* --------------------------------------------------------------------- *)
(** *** Final status and notifications                                     *)
(* --------------------------------------------------------------------- *)

(** [PrerenderContents::SetFinalStatus]. *)
Definition SetFinalStatus (final_status : FinalStatus) : M unit :=
  DCHECK "final_status >= FINAL_STATUS_USED && final_status < FINAL_STATUS_MAX"
    (bool_decide (FinalStatus_value final_status >= FinalStatus_value FINAL_STATUS_USED)
     && bool_decide (FinalStatus_value final_status < FinalStatus_value FINAL_STATUS_MAX)) ;;
  p ← get_this;
  DCHECK "final_status_ == FINAL_STATUS_MAX"
    (bool_decide (final_status_ p = FINAL_STATUS_MAX)) ;;
  modify_this (set_final_status_ final_status).

(** The inline setter [set_match_complete_status]. *)
Definition set_match_complete_status (status : MatchCompleteStatus) : M unit :=
  modify_this (set_match_complete_status_ status).

(** [PrerenderContents::AddObserver]. *)
Definition AddObserver (observer : Observer) : M unit :=
  p ← get_this;
  DCHECK "FINAL_STATUS_MAX == final_status_"
    (bool_decide (FINAL_STATUS_MAX = final_status_ p)) ;;
  modify_this (λ p, set_observer_list_ (observer_list_ p ++ [observer]) p).

(** [PrerenderContents::NotifyPrerenderStopLoading]. *)
Definition NotifyPrerenderStopLoading : M unit :=
  p ← get_this;
  for_each (observer_list_ p) (λ o, call (Observer_OnPrerenderStopLoading o)).

(** [PrerenderContents::NotifyPrerenderStop]. *)
Definition NotifyPrerenderStop : M unit :=
  p ← get_this;
  DCHECK "FINAL_STATUS_MAX != final_status_"
    (bool_decide (FINAL_STATUS_MAX ≠ final_status_ p)) ;;
  for_each (observer_list_ p) (λ o, call (Observer_OnPrerenderStop o)) ;;
  modify_this (set_observer_list_ []).

(** [PrerenderContents::NotifyPrerenderCreatedMatchCompleteReplacement]. *)
Definition NotifyPrerenderCreatedMatchCompleteReplacement
    (replacement : PrerenderContents) : M unit :=
  p ← get_this;
  for_each (observer_list_ p)
    (λ o, call (Observer_OnPrerenderCreatedMatchCompleteReplacement o)).

(* --------------------------------------------------------------------- *)
(** *** Cancellation                                                       *)
(* --------------------------------------------------------------------- *)

(** [prerender_manager_->MoveEntryToPendingDelete(this, final_status)].
    Of what the manager does with the entry, the model keeps the
    match-complete status it leaves, which is what [Destroy] reads next.
    When the manager makes the entry a match-complete replacement, the
    handle stops observing it (the comment in [Destroy]); this is not
    modelled, the observer list is taken to be as before the call. *)
Definition manager_MoveEntryToPendingDelete (final_status : FinalStatus) : M unit :=
  p ← get_this;
  call (Manager_MoveEntryToPendingDelete final_status) ;;
  modify_this
    (set_match_complete_status_ (MoveEntryToPendingDelete_status env p final_status)).

(** The block of [Destroy] guarded by
    [child_id_ != -1 && route_id_ != -1]; it answers the status that
    [final_status] holds after it. *)
Definition Destroy_through_tracker (child_id route_id : Z)
    (final_status : FinalStatus) : M FinalStatus :=
  is_cancelled ← tracker_TryCancel child_id route_id final_status;
  CHECK "is_cancelled" is_cancelled ;;
  reported ← tracker_GetFinalStatus child_id route_id;
  match reported with
  | Some status => mret status
  | None => NOTREACHED
  end.

(** [PrerenderContents::Destroy]. *)
Definition Destroy (final_status : FinalStatus) : M unit :=
  DCHECK "final_status != FINAL_STATUS_USED"
    (bool_decide (final_status ≠ FINAL_STATUS_USED)) ;;
  p ← get_this;
  if prerendering_has_been_cancelled_ p then mret tt
  else
    final_status ←
      (if bool_decide (child_id_ p ≠ -1) && bool_decide (route_id_ p ≠ -1)
       then Destroy_through_tracker (child_id_ p) (route_id_ p) final_status
       else mret final_status);
    SetFinalStatus final_status ;;
    modify_this (set_prerendering_has_been_cancelled_ true) ;;
    call Manager_AddToHistory ;;
    manager_MoveEntryToPendingDelete final_status ;;
    p ← get_this;
    if negb (IsControlGroup env (experiment_id_ p))
       && (prerendering_has_started_ p
           || bool_decide (match_complete_status_ p = MATCH_COMPLETE_REPLACEMENT))
    then NotifyPrerenderStop
    else mret tt.

(* --------------------------------------------------------------------- *)
(** *** Eligibility, aliases and matching                                  *)
(* --------------------------------------------------------------------- *)

(** [PrerenderContents::CheckURL]. *)
Definition CheckURL (url : GURL) : M bool :=
  let http := SchemeIs url kHttpScheme in
  let https := SchemeIs url kHttpsScheme in
  if negb http && negb https then
    p ← get_this;
    DCHECK "MATCH_COMPLETE_REPLACEMENT_PENDING != match_complete_status_"
      (bool_decide (MATCH_COMPLETE_REPLACEMENT_PENDING ≠ match_complete_status_ p)) ;;
    Destroy FINAL_STATUS_UNSUPPORTED_SCHEME ;;
    mret false
  else if https && negb (config_https_allowed env) then
    p ← get_this;
    DCHECK "MATCH_COMPLETE_REPLACEMENT_PENDING != match_complete_status_"
      (bool_decide (MATCH_COMPLETE_REPLACEMENT_PENDING ≠ match_complete_status_ p)) ;;
    Destroy FINAL_STATUS_HTTPS ;;
    mret false
  else
    p ← get_this;
    if bool_decide (match_complete_status_ p ≠ MATCH_COMPLETE_REPLACEMENT_PENDING)
       && HasRecentlyBeenNavigatedTo env (origin_ p) url
    then Destroy FINAL_STATUS_RECENTLY_VISITED ;; mret false
    else mret true.

(** [PrerenderContents::AddAliasURL]. *)
Definition AddAliasURL (url : GURL) : M bool :=
  ok ← CheckURL url;
  if negb ok then mret false
  else
    modify_this (λ p, set_alias_urls_ (alias_urls_ p ++ [url]) p) ;;
    for_each (AllHosts env) (λ host, call (Host_Send_OnPrerenderAddAlias host url)) ;;
    mret true.

(** [PrerenderContents::Init]. *)
Definition Init : M bool :=
  p ← get_this;
  AddAliasURL (prerender_url_ p).

(* --------------------------------------------------------------------- *)
(** *** Navigation observation                                             *)
(* --------------------------------------------------------------------- *)

(** [PrerenderContents::RenderProcessGone]. *)
Definition RenderProcessGone : M unit :=
  Destroy FINAL_STATUS_RENDERER_CRASHED.

(** [PrerenderContents::OnCancelPrerenderForPrinting]. *)
Definition OnCancelPrerenderForPrinting : M unit :=
  Destroy FINAL_STATUS_WINDOW_PRINT.

(** [PrerenderContents::DidStopLoading]. *)
Definition DidStopLoading : M unit :=
  modify_this (λ p, set_loading_flags_ true (has_finished_loading_ p) p) ;;
  NotifyPrerenderStopLoading.

(** [PrerenderContents::DidStartProvisionalLoadForFrame]. *)
Definition DidStartProvisionalLoadForFrame
    (is_main_frame : bool) (validated_url : GURL) : M unit :=
  if is_main_frame then
    ok ← CheckURL validated_url;
    if negb ok then mret tt
    else modify_this (set_loading_flags_ false false)
  else mret tt.

(** [PrerenderContents::DidFinishLoad]. *)
Definition DidFinishLoad (is_main_frame : bool) : M unit :=
  if is_main_frame
  then modify_this (λ p, set_loading_flags_ (has_stopped_loading_ p) true p)
  else mret tt.

(** [PrerenderContents::DidNavigateMainFrame]. *)
Definition DidNavigateMainFrame (params : FrameNavigateParams) : M unit :=
  p ← get_this;
  web_contents ← deref (prerender_contents_ p);
  if bool_decide (GetEntryCount web_contents > 1) then
    Destroy FINAL_STATUS_NEW_NAVIGATION_ENTRY
  else
    for_index (length (redirects params)) 0
      (λ i, url ← at_index (redirects params) i; AddAliasURL url).

(** [PrerenderContents::DidGetRedirectForResourceRequest];
    [is_main_frame_resource] is
    [details.resource_type == ResourceType::MAIN_FRAME]. *)
Definition DidGetRedirectForResourceRequest
    (is_main_frame_resource : bool) (new_url : GURL) : M unit :=
  if negb is_main_frame_resource then mret tt
  else CheckURL new_url ;; mret tt.

(* --------------------------------------------------------------------- *)
(** *** History                                                            *)
(* --------------------------------------------------------------------- *)

(** [PrerenderContents::DidNavigate]. *)
Definition DidNavigate (add_page_args : HistoryAddPageArgs) : M unit :=
  modify_this (λ p, set_add_page_vector_ (add_page_vector_ p ++ [add_page_args]) p).

(** [PrerenderContents::CommitHistory]; [tab] stands for the history tab
    helper of the target. *)
Definition CommitHistory (tab : TabId) : M unit :=
  p ← get_this;
  for_index (length (add_page_vector_ p)) 0
    (λ i, add_page_args ← at_index (add_page_vector_ p) i;
          call (HistoryTabHelper_UpdateHistoryForNavigation tab add_page_args) ;;
          mret true).

(* --------------------------------------------------------------------- *)
(** *** Match-complete replacement                                         *)
(* --------------------------------------------------------------------- *)

(** Modelled from the spec: [PrerenderManager::CreatePrerenderContents]
    ("CreatePrerenderRecord(url, referrer, origin, experimentTag) →
    PrerenderRecord"; prerender_manager.cc is not among the sources),
    through [PrerenderContentsFactoryImpl::CreatePrerenderContents] of
    this file, which is the constructor. *)
Definition manager_CreatePrerenderContents
    (url : GURL) (referrer : Referrer) (origin : Origin) (experiment_id : Z)
    : PrerenderContents :=
  PrerenderContents_new url referrer origin experiment_id.

(** [PrerenderContents::CreateMatchCompleteReplacement] up to and
    including its three assertions: the answer is [new_contents] as it is
    at that point. *)
Definition CreateMatchCompleteReplacement_initialised : M PrerenderContents :=
  p ← get_this;
  let new_contents :=
    manager_CreatePrerenderContents
      (prerender_url_ p) (referrer_ p) (origin_ p) (experiment_id_ p) in
  let new_contents :=
    set_clone_config_ (load_start_time_ p) (session_storage_namespace_id_ p)
      new_contents in
  '(did_init, new_contents) ←
    on_object new_contents
      (set_match_complete_status MATCH_COMPLETE_REPLACEMENT_PENDING ;; Init);
  DCHECK "did_init" did_init ;;
  first ← front (alias_urls_ p);
  new_first ← front (alias_urls_ new_contents);
  DCHECK "alias_urls_.front() == new_contents->alias_urls_.front()"
    (bool_decide (first = new_first)) ;;
  DCHECK "1u == new_contents->alias_urls_.size()"
    (bool_decide (1%nat = length (alias_urls_ new_contents))) ;;
  mret new_contents.

(** [PrerenderContents::CreateMatchCompleteReplacement]. *)
Definition CreateMatchCompleteReplacement : M PrerenderContents :=
  new_contents ← CreateMatchCompleteReplacement_initialised;
  p ← get_this;
  let new_contents := set_alias_urls_ (alias_urls_ p) new_contents in
  let new_contents :=
    set_match_complete_status_ MATCH_COMPLETE_REPLACEMENT new_contents in
  NotifyPrerenderCreatedMatchCompleteReplacement new_contents ;;
  mret new_contents.

End Methods.

(* ===================================================================== *)
(** ** The object seen from outside                                        *)
(* ===================================================================== *)

(** One call into the object by the manager, the hidden session's host or
    a test: the modelled methods as a single interface, so that
    properties of whole call sequences can be stated. *)
Inductive MethodCall : Type :=
  | Call_SetFinalStatus (final_status : FinalStatus)
  | Call_set_match_complete_status (status : MatchCompleteStatus)
  | Call_AddObserver (observer : Observer)
  | Call_Destroy (final_status : FinalStatus)
  | Call_CheckURL (url : GURL)
  | Call_AddAliasURL (url : GURL)
  | Call_Init
  | Call_RenderProcessGone
  | Call_OnCancelPrerenderForPrinting
  | Call_DidStopLoading
  | Call_DidStartProvisionalLoadForFrame (is_main_frame : bool) (validated_url : GURL)
  | Call_DidFinishLoad (is_main_frame : bool)
  | Call_DidNavigateMainFrame (params : FrameNavigateParams)
  | Call_DidGetRedirectForResourceRequest (is_main_frame_resource : bool) (new_url : GURL)
  | Call_DidNavigate (add_page_args : HistoryAddPageArgs)
  | Call_CommitHistory (tab : TabId)
  | Call_CreateMatchCompleteReplacement.

Section Interface.

Context {T : Type} `{!PrerenderTracker T}.
Variable env : Env.

Definition run_call (c : MethodCall) : M unit :=
  match c with
  | Call_SetFinalStatus final_status => SetFinalStatus final_status
  | Call_set_match_complete_status status => set_match_complete_status status
  | Call_AddObserver observer => AddObserver observer
  | Call_Destroy final_status => Destroy env final_status
  | Call_CheckURL url => CheckURL env url ;; mret tt
  | Call_AddAliasURL url => AddAliasURL env url ;; mret tt
  | Call_Init => Init env ;; mret tt
  | Call_RenderProcessGone => RenderProcessGone env
  | Call_OnCancelPrerenderForPrinting => OnCancelPrerenderForPrinting env
  | Call_DidStopLoading => DidStopLoading
  | Call_DidStartProvisionalLoadForFrame is_main_frame validated_url =>
      DidStartProvisionalLoadForFrame env is_main_frame validated_url
  | Call_DidFinishLoad is_main_frame => DidFinishLoad is_main_frame
  | Call_DidNavigateMainFrame params => DidNavigateMainFrame env params
  | Call_DidGetRedirectForResourceRequest is_main_frame_resource new_url =>
      DidGetRedirectForResourceRequest env is_main_frame_resource new_url
  | Call_DidNavigate add_page_args => DidNavigate add_page_args
  | Call_CommitHistory tab => CommitHistory tab
  | Call_CreateMatchCompleteReplacement =>
      CreateMatchCompleteReplacement env ;; mret tt
  end.

Definition run_calls (cs : list MethodCall) : M unit :=
  for_each cs run_call.

(** The condition under which [Destroy] goes through the tracker. *)
Definition pair_assigned (p : PrerenderContents) : bool :=
  bool_decide (child_id_ p ≠ -1) && bool_decide (route_id_ p ≠ -1).

(** The status a [Destroy final_status] call settles on for a record not
    yet cancelled: [final_status] itself while no pair is assigned,
    afterwards what the tracker reports once cancellation has been
    requested.  [None] is the tracker refusing the request or not
    knowing the pair, where [Destroy] stops at its [CHECK] or
    [NOTREACHED]. *)
Definition Destroy_status (final_status : FinalStatus) (s : St T)
    : option FinalStatus :=
  if pair_assigned (this s) then
    let '(is_cancelled, t') :=
      TryCancel (child_id_ (this s)) (route_id_ (this s)) final_status (tracker s) in
    if is_cancelled
    then GetFinalStatus (child_id_ (this s)) (route_id_ (this s)) t'
    else None
  else Some final_status.

(** What never goes back between a state and a later one: a final status
    that has been written, and the cancelled flag. *)
Definition stays_settled (s s' : St T) : Prop :=
  (final_status_ (this s) ≠ FINAL_STATUS_MAX →
   final_status_ (this s') = final_status_ (this s))
  ∧ (prerendering_has_been_cancelled_ (this s) = true →
     prerendering_has_been_cancelled_ (this s') = true).

(** The state in which [Destroy] leaves a record that was not yet
    cancelled, once it has settled on [status] after the calls
    [tracker_calls] that left the tracker in state [t']: used to state
    what [Destroy] does in one equation. *)
Definition Destroy_finished (status : FinalStatus) (tracker_calls : list Event)
    (t' : T) (s : St T) : St T :=
  let p1 :=
    set_prerendering_has_been_cancelled_ true (set_final_status_ status (this s)) in
  let p2 :=
    set_match_complete_status_ (MoveEntryToPendingDelete_status env p1 status) p1 in
  let notifies :=
    negb (IsControlGroup env (experiment_id_ p2))
    && (prerendering_has_started_ p2
        || bool_decide (match_complete_status_ p2 = MATCH_COMPLETE_REPLACEMENT)) in
  {| this := if notifies then set_observer_list_ [] p2 else p2;
     tracker := t';
     calls := (calls s ++ tracker_calls
               ++ [Manager_AddToHistory; Manager_MoveEntryToPendingDelete status])
              ++ (if notifies then map Observer_OnPrerenderStop (observer_list_ p2)
                  else []) |}.

(** [Destroy] from its [SetFinalStatus] on, as one step: the two
    assertions of [SetFinalStatus], then [Destroy_finished]. *)
Definition Destroy_settle (status : FinalStatus) (tracker_calls : list Event)
    (t' : T) (s : St T) : Result (unit * St T) :=
  if bool_decide (status ≠ FINAL_STATUS_MAX) then
    if bool_decide (final_status_ (this s) = FINAL_STATUS_MAX)
    then Ok (tt, Destroy_finished status tracker_calls t' s)
    else Crash (DCHECK_failed "final_status_ == FINAL_STATUS_MAX")
  else Crash (DCHECK_failed
    "final_status >= FINAL_STATUS_USED && final_status < FINAL_STATUS_MAX").

(** Every returning run of [m] leaves a written final status and a set
    cancelled flag as they were. *)
Definition keeps_settled {A} (m : M A) : Prop :=
  ∀ s a s', m s = Ok (a, s') → stays_settled s s'.

(** A URL that passes the scheme check and the https check of
    [CheckURL]. *)
Definition passes_scheme_checks (url : GURL) : Prop :=
  SchemeIs url kHttpScheme = true
  ∨ (SchemeIs url kHttpsScheme = true ∧ config_https_allowed env = true).

(** The replacement as it is at the assertions of
    [CreateMatchCompleteReplacement], made from the original [p]. *)
Definition replacement_at_assertions (p : PrerenderContents) : PrerenderContents :=
  set_alias_urls_ [prerender_url_ p]
    (set_match_complete_status_ MATCH_COMPLETE_REPLACEMENT_PENDING
       (set_clone_config_ (load_start_time_ p) (session_storage_namespace_id_ p)
          (manager_CreatePrerenderContents
             (prerender_url_ p) (referrer_ p) (origin_ p) (experiment_id_ p)))).

(** The spec's words for the redirect walk of a main-frame commit: "walk
    the redirect chain recorded with the commit and call AddAliasURL for
    each — any rejection aborts further processing for this event". *)
Fixpoint spec_walk_redirect_chain (chain : list GURL) : M unit :=
  match chain with
  | [] => mret tt
  | url :: chain' =>
      accepted ← AddAliasURL env url;
      if accepted : bool then spec_walk_redirect_chain chain' else mret tt
  end.

End Interface.

(** Whether an event is an "alias added" broadcast. *)
Definition is_add_alias (e : Event) : bool :=
  match e with
  | Host_Send_OnPrerenderAddAlias _ _ => true
  | _ => false
  end.

(* ===================================================================== *)
(** ** login_database_mac.cc                                               *)
(* ===================================================================== *)

Module LoginDatabase.

(** Modelled from the spec: [LoginDatabase::EncryptionResult] of
    login_database.h (not among the sources).  The spec calls the Mac
    shim a trivial no-op; the one result it returns is
    [ENCRYPTION_RESULT_SUCCESS], and the failure result stands for what
    other platforms may answer. *)
Inductive EncryptionResult : Set :=
  | ENCRYPTION_RESULT_SUCCESS
  | ENCRYPTION_RESULT_FAILURE.

(** [base::string16]: a sequence of 16-bit code units. *)
Definition string16 : Set := list Z.

(** [LoginDatabase::EncryptedString]: the result and what [*cipher_text]
    holds afterwards; the second argument is what it held before. *)
Definition EncryptedString (plain_text : string16) (cipher_text : string)
    : EncryptionResult * string :=
  (ENCRYPTION_RESULT_SUCCESS, EmptyString).

(** [LoginDatabase::DecryptedString]: the result and what [*plain_text]
    holds afterwards; the second argument is what it held before. *)
Definition DecryptedString (cipher_text : string) (plain_text : string16)
    : EncryptionResult * string16 :=
  (ENCRYPTION_RESULT_SUCCESS, []).

(** Encrypt [p], then decrypt what came out: the plaintext a caller gets
    back. *)
Definition round_trip (p : string16) (cipher_before : string)
    (plain_before : string16) : string16 :=
  (DecryptedString (EncryptedString p cipher_before).2 plain_before).2.

End LoginDatabase.

(* ===================================================================== *)
(** ** Concrete records, used to run the model                             *)
(* ===================================================================== *)

Module Sample.

Definition http_a : GURL := mkGURL "http" "//a.com/".
Definition https_a : GURL := mkGURL "https" "//a.com".
Definition https_a_redirected : GURL := mkGURL "https" "//a.com/redirected".
Definition ftp_x : GURL := mkGURL "ftp" "//x.com/a".
Definition http_visited : GURL := mkGURL "http" "//visited.example/".

(** A manager that allows https, has seen [http_visited] recently, has no
    control group, leaves the match-complete status alone, and two render
    process hosts. *)
Definition env : Env :=
  {| config_https_allowed := true;
     HasRecentlyBeenNavigatedTo := λ _ url, bool_decide (url = http_visited);
     IsControlGroup := λ _, false;
     MoveEntryToPendingDelete_status := λ p _, match_complete_status_ p;
     AllHosts := [1%nat; 2%nat] |}.

(** A record as the constructor and [Init] leave it. *)
Definition fresh (url : GURL) : PrerenderContents :=
  set_alias_urls_ [url] (PrerenderContents_new url "" ORIGIN_OMNIBOX 0).

(** A record as [StartPrerendering] leaves it: started, with a hidden
    session of [entries] navigation entries, the pair (7, 3), and the
    tracker (observer 0) and a handle (observer 1) observing. *)
Definition started (url : GURL) (entries : Z) : PrerenderContents :=
  {| prerendering_has_started_ := true;
     session_storage_namespace_id_ := 5;
     prerender_url_ := url;
     referrer_ := "";
     has_stopped_loading_ := false;
     has_finished_loading_ := false;
     final_status_ := FINAL_STATUS_MAX;
     match_complete_status_ := MATCH_COMPLETE_DEFAULT;
     prerendering_has_been_cancelled_ := false;
     child_id_ := 7;
     route_id_ := 3;
     origin_ := ORIGIN_OMNIBOX;
     experiment_id_ := 0;
     creator_child_id_ := 2;
     cookie_status_ := 0;
     load_start_time_ := 100;
     alias_urls_ := [url];
     add_page_vector_ := [];
     observer_list_ := [0%nat; 1%nat];
     prerender_contents_ := Some (mkWebContents entries) |}.

(** The tracker knowing the pair (7, 3) with no status yet, and the
    tracker in which another thread has already cancelled it. *)
Definition tracker_idle : gmap (Z * Z) FinalStatus :=
  {[ (7, 3) := FINAL_STATUS_MAX ]}.
Definition tracker_raced : gmap (Z * Z) FinalStatus :=
  {[ (7, 3) := FINAL_STATUS_CANCELLED ]}.

Definition state (p : PrerenderContents) (t : gmap (Z * Z) FinalStatus)
    : St (gmap (Z * Z) FinalStatus) :=
  mkSt p t [].

(** A fresh record before any call, a started one with the tracker idle,
    and a started one that another thread has cancelled in the tracker
    while the object does not know yet. *)
Definition fresh_state : St (gmap (Z * Z) FinalStatus) :=
  state (fresh http_a) ∅.
Definition started_idle (entries : Z) : St (gmap (Z * Z) FinalStatus) :=
  state (started http_a entries) tracker_idle.
Definition started_raced (entries : Z) : St (gmap (Z * Z) FinalStatus) :=
  state (started http_a entries) tracker_raced.

(** [started_idle entries] after [Destroy] with
    [FINAL_STATUS_JAVASCRIPT_ALERT]. *)
Definition after_alert (entries : Z) : St (gmap (Z * Z) FinalStatus) :=
  Destroy_finished env FINAL_STATUS_JAVASCRIPT_ALERT
    [Tracker_TryCancel 7 3 FINAL_STATUS_JAVASCRIPT_ALERT;
     Tracker_GetFinalStatus 7 3]
    (<[(7, 3) := FINAL_STATUS_JAVASCRIPT_ALERT]> tracker_idle)
    (started_idle entries).

(** A started record that has collected a second alias, and a fresh
    record marked as a replacement in the making. *)
Definition with_redirect : St (gmap (Z * Z) FinalStatus) :=
  state (set_alias_urls_ [https_a; https_a_redirected] (started https_a 1))
    tracker_idle.
Definition pending_state : St (gmap (Z * Z) FinalStatus) :=
  state (set_match_complete_status_ MATCH_COMPLETE_REPLACEMENT_PENDING
           (fresh http_a)) ∅.

End Sample.
(* ===================================================================== *)
(** ** The life of a record as a transition system                         *)
(* ===================================================================== *)

(** What [CheckURL] answers for [url] on the record [p], when it
    answers: none of its three rejecting conditions holds. *)
Definition CheckURL_verdict (env : Env) (p : PrerenderContents) (url : GURL) : bool :=
  let http := SchemeIs url kHttpScheme in
  let https := SchemeIs url kHttpsScheme in
  negb (negb http && negb https)
  && negb (https && negb (config_https_allowed env))
  && negb (bool_decide (match_complete_status_ p ≠ MATCH_COMPLETE_REPLACEMENT_PENDING)
           && HasRecentlyBeenNavigatedTo env (origin_ p) url).

(** Calls that report to the observers registered at the time, to the
    render process hosts or to the history helper; the others are the
    tracker's and the manager's bookkeeping and the stop notification,
    which only [Destroy] makes. *)
Definition reports_to (observers : list Observer) (e : Event) : bool :=
  match e with
  | Observer_OnPrerenderStopLoading o
  | Observer_OnPrerenderCreatedMatchCompleteReplacement o =>
      bool_decide (o ∈ observers)
  | Host_Send_OnPrerenderAddAlias _ _
  | HistoryTabHelper_UpdateHistoryForNavigation _ _ => true
  | _ => false
  end.

Definition is_observer_call (e : Event) : bool :=
  match e with
  | Observer_OnPrerenderStop _
  | Observer_OnPrerenderStopLoading _
  | Observer_OnPrerenderCreatedMatchCompleteReplacement _ => true
  | _ => false
  end.

Definition is_tracker_call (e : Event) : bool :=
  match e with
  | Tracker_TryCancel _ _ _ | Tracker_GetFinalStatus _ _ => true
  | _ => false
  end.

Definition is_AddToHistory (e : Event) : bool :=
  match e with Manager_AddToHistory => true | _ => false end.

Definition is_MoveEntryToPendingDelete (e : Event) : bool :=
  match e with Manager_MoveEntryToPendingDelete _ => true | _ => false end.

(** The members that no method of the interface above assigns. *)
Definition same_identity (p p' : PrerenderContents) : Prop :=
  prerender_url_ p' = prerender_url_ p
  ∧ referrer_ p' = referrer_ p
  ∧ origin_ p' = origin_ p
  ∧ experiment_id_ p' = experiment_id_ p
  ∧ child_id_ p' = child_id_ p
  ∧ route_id_ p' = route_id_ p
  ∧ session_storage_namespace_id_ p' = session_storage_namespace_id_ p
  ∧ prerendering_has_started_ p' = prerendering_has_started_ p
  ∧ prerender_contents_ p' = prerender_contents_ p.

Section Lifecycle.

Context {T : Type} `{!PrerenderTracker T}.
Variable env : Env.

(** The moves a record can make: every returning run of a modelled
    method is a sequence of these. *)
Inductive lifecycle_step : St T → St T → Prop :=
  | step_report s l :
      Forall (λ e, reports_to (observer_list_ (this s)) e = true) l →
      lifecycle_step s (mkSt (this s) (tracker s) (calls s ++ l))
  | step_loading_flags s stopped finished :
      lifecycle_step s
        (mkSt (set_loading_flags_ stopped finished (this s)) (tracker s) (calls s))
  | step_observer s o :
      final_status_ (this s) = FINAL_STATUS_MAX →
      lifecycle_step s
        (mkSt (set_observer_list_ (observer_list_ (this s) ++ [o]) (this s))
           (tracker s) (calls s))
  | step_match_complete_status s status :
      lifecycle_step s
        (mkSt (set_match_complete_status_ status (this s)) (tracker s) (calls s))
  | step_add_page s add_page_args :
      lifecycle_step s
        (mkSt (set_add_page_vector_ (add_page_vector_ (this s) ++ [add_page_args])
                 (this s))
           (tracker s) (calls s))
  | step_final_status s status :
      status ≠ FINAL_STATUS_MAX →
      final_status_ (this s) = FINAL_STATUS_MAX →
      lifecycle_step s (mkSt (set_final_status_ status (this s)) (tracker s) (calls s))
  | step_alias s url :
      CheckURL_verdict env (this s) url = true →
      lifecycle_step s
        (mkSt (set_alias_urls_ (alias_urls_ (this s) ++ [url]) (this s)) (tracker s)
           (calls s ++ map (λ host, Host_Send_OnPrerenderAddAlias host url)
                           (AllHosts env)))
  | step_cancel s status tracker_calls t' :
      prerendering_has_been_cancelled_ (this s) = false →
      final_status_ (this s) = FINAL_STATUS_MAX →
      status ≠ FINAL_STATUS_MAX →
      Forall (λ e, is_tracker_call e = true) tracker_calls →
      lifecycle_step s (Destroy_finished env status tracker_calls t' s).

(** Every returning run of [m] relates the state before to the state
    after by [R]. *)
Definition ensures {A} (R : St T → St T → Prop) (m : M A) : Prop :=
  ∀ s a s', m s = Ok (a, s') → R s s'.

(** Any number of lifecycle steps. *)
Definition moves : St T → St T → Prop := rtc lifecycle_step.

End Lifecycle.

(** The manager's bookkeeping calls in a sequence of calls: how many
    AddToHistory and how many MoveEntryToPendingDelete. *)
Definition count_calls (which : Event → bool) (l : list Event) : nat :=
  length (filter (λ e, which e = true) l).

(** The bookkeeping matches the cancelled flag: one AddToHistory and one
    MoveEntryToPendingDelete for a cancelled record, none for a live
    one. *)
Definition bookkept {T} (s : St T) : Prop :=
  let expected := if prerendering_has_been_cancelled_ (this s) then 1%nat else 0%nat in
  count_calls is_AddToHistory (calls s) = expected
  ∧ count_calls is_MoveEntryToPendingDelete (calls s) = expected.

(** The longest prefix of a redirect chain that [CheckURL] accepts on
    [p]. *)
Fixpoint accepted_prefix (env : Env) (p : PrerenderContents) (chain : list GURL)
    : list GURL :=
  match chain with
  | [] => []
  | url :: chain' =>
      if CheckURL_verdict env p url then url :: accepted_prefix env p chain' else []
  end.

(* ===================================================================== *)
(** ** The rest of the object                                              *)
(* ===================================================================== *)

(** Member assignments that the methods above do not make. *)
Definition set_cookie_status_ (v : Z) (p : PrerenderContents) :=
  {| prerendering_has_started_ := prerendering_has_started_ p;
     session_storage_namespace_id_ := session_storage_namespace_id_ p;
     prerender_url_ := prerender_url_ p;
     referrer_ := referrer_ p;
     has_stopped_loading_ := has_stopped_loading_ p;
     has_finished_loading_ := has_finished_loading_ p;
     final_status_ := final_status_ p;
     match_complete_status_ := match_complete_status_ p;
     prerendering_has_been_cancelled_ := prerendering_has_been_cancelled_ p;
     child_id_ := child_id_ p;
     route_id_ := route_id_ p;
     origin_ := origin_ p;
     experiment_id_ := experiment_id_ p;
     creator_child_id_ := creator_child_id_ p;
     cookie_status_ := v;
     load_start_time_ := load_start_time_ p;
     alias_urls_ := alias_urls_ p;
     add_page_vector_ := add_page_vector_ p;
     observer_list_ := observer_list_ p;
     prerender_contents_ := prerender_contents_ p |}.

Definition set_prerender_contents_ (v : option WebContents) (p : PrerenderContents) :=
  {| prerendering_has_started_ := prerendering_has_started_ p;
     session_storage_namespace_id_ := session_storage_namespace_id_ p;
     prerender_url_ := prerender_url_ p;
     referrer_ := referrer_ p;
     has_stopped_loading_ := has_stopped_loading_ p;
     has_finished_loading_ := has_finished_loading_ p;
     final_status_ := final_status_ p;
     match_complete_status_ := match_complete_status_ p;
     prerendering_has_been_cancelled_ := prerendering_has_been_cancelled_ p;
     child_id_ := child_id_ p;
     route_id_ := route_id_ p;
     origin_ := origin_ p;
     experiment_id_ := experiment_id_ p;
     creator_child_id_ := creator_child_id_ p;
     cookie_status_ := cookie_status_ p;
     load_start_time_ := load_start_time_ p;
     alias_urls_ := alias_urls_ p;
     add_page_vector_ := add_page_vector_ p;
     observer_list_ := observer_list_ p;
     prerender_contents_ := v |}.

Definition set_creator_child_id_ (v : Z) (p : PrerenderContents) :=
  {| prerendering_has_started_ := prerendering_has_started_ p;
     session_storage_namespace_id_ := session_storage_namespace_id_ p;
     prerender_url_ := prerender_url_ p;
     referrer_ := referrer_ p;
     has_stopped_loading_ := has_stopped_loading_ p;
     has_finished_loading_ := has_finished_loading_ p;
     final_status_ := final_status_ p;
     match_complete_status_ := match_complete_status_ p;
     prerendering_has_been_cancelled_ := prerendering_has_been_cancelled_ p;
     child_id_ := child_id_ p;
     route_id_ := route_id_ p;
     origin_ := origin_ p;
     experiment_id_ := experiment_id_ p;
     creator_child_id_ := v;
     cookie_status_ := cookie_status_ p;
     load_start_time_ := load_start_time_ p;
     alias_urls_ := alias_urls_ p;
     add_page_vector_ := add_page_vector_ p;
     observer_list_ := observer_list_ p;
     prerender_contents_ := prerender_contents_ p |}.

Definition set_session_storage_namespace_id_ (v : Z) (p : PrerenderContents) :=
  {| prerendering_has_started_ := prerendering_has_started_ p;
     session_storage_namespace_id_ := v;
     prerender_url_ := prerender_url_ p;
     referrer_ := referrer_ p;
     has_stopped_loading_ := has_stopped_loading_ p;
     has_finished_loading_ := has_finished_loading_ p;
     final_status_ := final_status_ p;
     match_complete_status_ := match_complete_status_ p;
     prerendering_has_been_cancelled_ := prerendering_has_been_cancelled_ p;
     child_id_ := child_id_ p;
     route_id_ := route_id_ p;
     origin_ := origin_ p;
     experiment_id_ := experiment_id_ p;
     creator_child_id_ := creator_child_id_ p;
     cookie_status_ := cookie_status_ p;
     load_start_time_ := load_start_time_ p;
     alias_urls_ := alias_urls_ p;
     add_page_vector_ := add_page_vector_ p;
     observer_list_ := observer_list_ p;
     prerender_contents_ := prerender_contents_ p |}.

Definition set_load_start_time_ (v : Z) (p : PrerenderContents) :=
  {| prerendering_has_started_ := prerendering_has_started_ p;
     session_storage_namespace_id_ := session_storage_namespace_id_ p;
     prerender_url_ := prerender_url_ p;
     referrer_ := referrer_ p;
     has_stopped_loading_ := has_stopped_loading_ p;
     has_finished_loading_ := has_finished_loading_ p;
     final_status_ := final_status_ p;
     match_complete_status_ := match_complete_status_ p;
     prerendering_has_been_cancelled_ := prerendering_has_been_cancelled_ p;
     child_id_ := child_id_ p;
     route_id_ := route_id_ p;
     origin_ := origin_ p;
     experiment_id_ := experiment_id_ p;
     creator_child_id_ := creator_child_id_ p;
     cookie_status_ := cookie_status_ p;
     load_start_time_ := v;
     alias_urls_ := alias_urls_ p;
     add_page_vector_ := add_page_vector_ p;
     observer_list_ := observer_list_ p;
     prerender_contents_ := prerender_contents_ p |}.

Definition set_prerendering_has_started_ (v : bool) (p : PrerenderContents) :=
  {| prerendering_has_started_ := v;
     session_storage_namespace_id_ := session_storage_namespace_id_ p;
     prerender_url_ := prerender_url_ p;
     referrer_ := referrer_ p;
     has_stopped_loading_ := has_stopped_loading_ p;
     has_finished_loading_ := has_finished_loading_ p;
     final_status_ := final_status_ p;
     match_complete_status_ := match_complete_status_ p;
     prerendering_has_been_cancelled_ := prerendering_has_been_cancelled_ p;
     child_id_ := child_id_ p;
     route_id_ := route_id_ p;
     origin_ := origin_ p;
     experiment_id_ := experiment_id_ p;
     creator_child_id_ := creator_child_id_ p;
     cookie_status_ := cookie_status_ p;
     load_start_time_ := load_start_time_ p;
     alias_urls_ := alias_urls_ p;
     add_page_vector_ := add_page_vector_ p;
     observer_list_ := observer_list_ p;
     prerender_contents_ := prerender_contents_ p |}.

Definition set_child_id_ (v : Z) (p : PrerenderContents) :=
  {| prerendering_has_started_ := prerendering_has_started_ p;
     session_storage_namespace_id_ := session_storage_namespace_id_ p;
     prerender_url_ := prerender_url_ p;
     referrer_ := referrer_ p;
     has_stopped_loading_ := has_stopped_loading_ p;
     has_finished_loading_ := has_finished_loading_ p;
     final_status_ := final_status_ p;
     match_complete_status_ := match_complete_status_ p;
     prerendering_has_been_cancelled_ := prerendering_has_been_cancelled_ p;
     child_id_ := v;
     route_id_ := route_id_ p;
     origin_ := origin_ p;
     experiment_id_ := experiment_id_ p;
     creator_child_id_ := creator_child_id_ p;
     cookie_status_ := cookie_status_ p;
     load_start_time_ := load_start_time_ p;
     alias_urls_ := alias_urls_ p;
     add_page_vector_ := add_page_vector_ p;
     observer_list_ := observer_list_ p;
     prerender_contents_ := prerender_contents_ p |}.

Definition set_route_id_ (v : Z) (p : PrerenderContents) :=
  {| prerendering_has_started_ := prerendering_has_started_ p;
     session_storage_namespace_id_ := session_storage_namespace_id_ p;
     prerender_url_ := prerender_url_ p;
     referrer_ := referrer_ p;
     has_stopped_loading_ := has_stopped_loading_ p;
     has_finished_loading_ := has_finished_loading_ p;
     final_status_ := final_status_ p;
     match_complete_status_ := match_complete_status_ p;
     prerendering_has_been_cancelled_ := prerendering_has_been_cancelled_ p;
     child_id_ := child_id_ p;
     route_id_ := v;
     origin_ := origin_ p;
     experiment_id_ := experiment_id_ p;
     creator_child_id_ := creator_child_id_ p;
     cookie_status_ := cookie_status_ p;
     load_start_time_ := load_start_time_ p;
     alias_urls_ := alias_urls_ p;
     add_page_vector_ := add_page_vector_ p;
     observer_list_ := observer_list_ p;
     prerender_contents_ := prerender_contents_ p |}.

(** [gfx::Size] as far as this file looks at it: whether it is empty; the
    dimensions are carried along. *)
Record Size : Set := mkSize { IsEmpty : bool; size_dimensions : Z * Z }.

(** A profile, a prerender handle, process metrics and a process handle
    are opaque to this file.  A [RenderFrameHost*] is its address: the
    [std::set] that tracks the frames is ordered by it. *)
Definition Profile : Set := nat.
Definition PrerenderHandle : Set := nat.
Definition ProcessMetrics : Set := nat.
Definition ProcessHandle : Set := Z.
Definition RenderFrameHost : Set := Z.

(** [content::RenderProcessHost] and [content::RenderViewHost] as far as
    this file looks at them.  [GetHandle] is [None] for
    [base::kNullProcessHandle], [GetProcess] for a null pointer. *)
Record RenderProcessHost : Set :=
  mkRenderProcessHost { GetID : Z; GetHandle : option ProcessHandle }.

Record RenderViewHost : Set :=
  mkRenderViewHost { GetProcess : option RenderProcessHost; GetRoutingID : Z }.

#[global] Instance WebContents_eq_dec : EqDecision WebContents.
Proof. solve_decision. Defined.

(** [PrerenderContents::PendingPrerenderInfo]. *)
Record PendingPrerenderInfo : Set := mkPendingPrerenderInfo {
  weak_prerender_handle : PrerenderHandle;
  pending_origin : Origin;
  pending_url : GURL;
  pending_referrer : Referrer;
  pending_size : Size
}.

(** [content::FaviconURL]: of its icon types this file names [FAVICON]
    only. *)
Inductive IconType : Set :=
  | FAVICON
  | IconType_other (value : Z).

#[global] Instance IconType_eq_dec : EqDecision IconType.
Proof. solve_decision. Defined.

Record FaviconURL : Set := mkFaviconURL { icon_url : GURL; icon_type : IconType }.

(** [PrerenderContents::CookieEvent] (prerender_contents.h is not among
    the sources): [RecordCookieEvent] tells [COOKIE_EVENT_SEND] from
    every other value. *)
Inductive CookieEvent : Set :=
  | COOKIE_EVENT_SEND
  | COOKIE_EVENT_CHANGE.

#[global] Instance CookieEvent_eq_dec : EqDecision CookieEvent.
Proof. solve_decision. Defined.

(** [InternalCookieEvent] of the anonymous namespace, with its values. *)
Inductive InternalCookieEvent : Set :=
  | INTERNAL_COOKIE_EVENT_MAIN_FRAME_SEND
  | INTERNAL_COOKIE_EVENT_MAIN_FRAME_CHANGE
  | INTERNAL_COOKIE_EVENT_OTHER_SEND
  | INTERNAL_COOKIE_EVENT_OTHER_CHANGE
  | INTERNAL_COOKIE_EVENT_MAX.

Definition InternalCookieEvent_value (e : InternalCookieEvent) : Z :=
  match e with
  | INTERNAL_COOKIE_EVENT_MAIN_FRAME_SEND => 0
  | INTERNAL_COOKIE_EVENT_MAIN_FRAME_CHANGE => 1
  | INTERNAL_COOKIE_EVENT_OTHER_SEND => 2
  | INTERNAL_COOKIE_EVENT_OTHER_CHANGE => 3
  | INTERNAL_COOKIE_EVENT_MAX => 4
  end.

(** [PrerenderContents::kNumCookieStatuses]. *)
Definition kNumCookieStatuses : Z :=
  Z.shiftl 1 (InternalCookieEvent_value INTERNAL_COOKIE_EVENT_MAX).

(** The notification types [Observe] tells apart, and the source a
    registration names. *)
Inductive NotificationType : Set :=
  | NOTIFICATION_PROFILE_DESTROYED
  | NOTIFICATION_APP_TERMINATING
  | NOTIFICATION_WEB_CONTENTS_RENDER_VIEW_HOST_CREATED
  | NOTIFICATION_other (type : Z).

Inductive NotificationSource : Set :=
  | AllSources
  | Source_Profile (profile : option Profile)
  | Source_WebContents (web_contents : WebContents).

#[global] Instance NotificationSource_eq_dec : EqDecision NotificationSource.
Proof. solve_decision. Defined.

(** The IPC messages [OnMessageReceived] tells apart. *)
Inductive Message : Set :=
  | ChromeViewHostMsg_CancelPrerenderForPrinting
  | Message_other (type : Z).

(** [content::NavigationController::LoadURLParams] as
    [StartPrerendering] fills it. *)
Inductive PageTransition : Set :=
  | PAGE_TRANSITION_TYPED
  | PAGE_TRANSITION_LINK.

Inductive UserAgentOverrideOption : Set :=
  | UA_OVERRIDE_TRUE
  | UA_OVERRIDE_FALSE.

Record LoadURLParams : Set := mkLoadURLParams {
  load_url : GURL;
  load_referrer : Referrer;
  transition_type : PageTransition;
  override_user_agent : UserAgentOverrideOption
}.

(** [std::set<content::RenderFrameHost*>]: the elements in ascending
    order, which is the order in which the set is iterated. *)
Fixpoint std_set_insert (x : RenderFrameHost) (l : list RenderFrameHost)
    : list RenderFrameHost :=
  match l with
  | [] => [x]
  | y :: l' =>
      if bool_decide (x < y) then x :: l
      else if bool_decide (x = y) then l
      else y :: std_set_insert x l'
  end.

(** The order of a [std::set]: ascending, without repetition. *)
Fixpoint ascending (l : list RenderFrameHost) : Prop :=
  match l with
  | [] => True
  | x :: l' => Forall (λ y, x < y) l' ∧ ascending l'
  end.

Definition std_set_erase (x : RenderFrameHost) (l : list RenderFrameHost)
    : list RenderFrameHost :=
  filter (λ y, y ≠ x) l.

(** The data members of [PrerenderContents] that only the methods below
    read or write. *)
Record Members : Set := mkMembers {
  profile_ : option Profile;
  start_time_ : Z;
  icon_url_ : GURL;
  size_ : Size;
  render_frame_hosts_ : list RenderFrameHost;
  pending_prerenders_ : list PendingPrerenderInfo;
  process_metrics_ : option ProcessMetrics;
  alias_session_storage_namespace : option SessionStorageNamespace
}.

(** What the constructor leaves in them: [profile_] from its argument,
    the others default-constructed (a null time, an empty URL, an empty
    size, empty containers, null pointers). *)
Definition Members_new (profile : option Profile) : Members :=
  {| profile_ := profile;
     start_time_ := 0;
     icon_url_ := mkGURL "" "";
     size_ := mkSize true (0, 0);
     render_frame_hosts_ := [];
     pending_prerenders_ := [];
     process_metrics_ := None;
     alias_session_storage_namespace := None |}.

Definition set_start_time_ (v : Z) (m : Members) : Members :=
  {| profile_ := profile_ m;
     start_time_ := v;
     icon_url_ := icon_url_ m;
     size_ := size_ m;
     render_frame_hosts_ := render_frame_hosts_ m;
     pending_prerenders_ := pending_prerenders_ m;
     process_metrics_ := process_metrics_ m;
     alias_session_storage_namespace := alias_session_storage_namespace m |}.

Definition set_icon_url_ (v : GURL) (m : Members) : Members :=
  {| profile_ := profile_ m;
     start_time_ := start_time_ m;
     icon_url_ := v;
     size_ := size_ m;
     render_frame_hosts_ := render_frame_hosts_ m;
     pending_prerenders_ := pending_prerenders_ m;
     process_metrics_ := process_metrics_ m;
     alias_session_storage_namespace := alias_session_storage_namespace m |}.

Definition set_size_ (v : Size) (m : Members) : Members :=
  {| profile_ := profile_ m;
     start_time_ := start_time_ m;
     icon_url_ := icon_url_ m;
     size_ := v;
     render_frame_hosts_ := render_frame_hosts_ m;
     pending_prerenders_ := pending_prerenders_ m;
     process_metrics_ := process_metrics_ m;
     alias_session_storage_namespace := alias_session_storage_namespace m |}.

Definition set_render_frame_hosts_ (v : list RenderFrameHost) (m : Members) : Members :=
  {| profile_ := profile_ m;
     start_time_ := start_time_ m;
     icon_url_ := icon_url_ m;
     size_ := size_ m;
     render_frame_hosts_ := v;
     pending_prerenders_ := pending_prerenders_ m;
     process_metrics_ := process_metrics_ m;
     alias_session_storage_namespace := alias_session_storage_namespace m |}.

Definition set_pending_prerenders_ (v : list PendingPrerenderInfo) (m : Members) : Members :=
  {| profile_ := profile_ m;
     start_time_ := start_time_ m;
     icon_url_ := icon_url_ m;
     size_ := size_ m;
     render_frame_hosts_ := render_frame_hosts_ m;
     pending_prerenders_ := v;
     process_metrics_ := process_metrics_ m;
     alias_session_storage_namespace := alias_session_storage_namespace m |}.


Definition set_alias_session_storage_namespace (v : option SessionStorageNamespace) (m : Members) : Members :=
  {| profile_ := profile_ m;
     start_time_ := start_time_ m;
     icon_url_ := icon_url_ m;
     size_ := size_ m;
     render_frame_hosts_ := render_frame_hosts_ m;
     pending_prerenders_ := pending_prerenders_ m;
     process_metrics_ := process_metrics_ m;
     alias_session_storage_namespace := v |}.

(** What the methods below consume from the browser around the object
    (none of it among the sources): the clocks, the field trial, the
    session storage namespace, the hidden [WebContents] and its hosts,
    the manager's tracker and configuration, the frames and the process
    metrics.  [OS_ANDROID] is the build flag of the same name. *)
Record Browser : Type := mkBrowser {
  OS_ANDROID : bool;
  TimeTicks_Now : Z;
  Time_Now : Z;
  IsLocalPredictorPrerenderAlwaysControlEnabled : bool;
  CreateAlias : SessionStorageNamespace → SessionStorageNamespace;
  WebContents_CreateWithSessionStorage :
    option Profile → gmap string SessionStorageNamespace → WebContents;
  WebContents_GetRenderViewHost : WebContents → option RenderViewHost;
  GetDefaultSessionStorageNamespace : WebContents → option SessionStorageNamespace;
  prerender_tracker : Observer;
  config_user_agent_override : string;
  config_is_overriding_user_agent : bool;
  config_max_bytes : Z;
  Frame_GetRoutingID : RenderFrameHost → Z;
  CreateProcessMetrics : ProcessHandle → option ProcessMetrics;
  GetMemoryBytes : ProcessMetrics → option (Z * Z)
}.

(** Calls that leave the object, in the order they are made: the ones of
    the methods above and the ones the methods below add. *)
Inductive Call : Type :=
  | Earlier (e : Event)
  | Observer_OnPrerenderStart (o : Observer)
  | Frame_Send_SetIsPrerendering
      (frame : RenderFrameHost) (routing_id : Z) (is_prerendering : bool)
  | Manager_StartPendingPrerenders
      (child_id : Z) (pending_prerenders : list PendingPrerenderInfo)
      (session_storage_namespace : option SessionStorageNamespace)
  | Manager_RecordCookieStatus (origin : Origin) (experiment_id cookie_status : Z)
  | Manager_RecordFinalStatusWithMatchCompleteStatus
      (origin : Origin) (experiment_id : Z)
      (mc_status : MatchCompleteStatus) (final_status : FinalStatus)
  | Host_Send_OnPrerenderRemoveAliases (host : HostId) (aliases : list GURL)
  | Namespace_AddTransactionLogProcessId
      (namespace : SessionStorageNamespace) (child_id : Z)
  | Namespace_RemoveTransactionLogProcessId
      (namespace : SessionStorageNamespace) (child_id : Z)
  | BrowserTabContents_AttachTabHelpers (web_contents : WebContents)
  | FaviconTabHelper_set_should_fetch_icons (web_contents : WebContents) (fetch : bool)
  | WebContentsObserver_Observe (web_contents : option WebContents)
  | WebContents_SetDelegate (web_contents : WebContents) (delegate_is_set : bool)
  | WebContents_SizeContents (web_contents : WebContents) (size : Size)
  | Registrar_Add (type : NotificationType) (source : NotificationSource)
  | WebContents_SetUserAgentOverride (web_contents : WebContents) (override : string)
  | Controller_LoadURLWithParams (web_contents : WebContents) (params : LoadURLParams)
  | WebContents_delete (web_contents : WebContents)
  | WebContents_WasHidden (web_contents : WebContents)
  | RenderViewHost_WasResized (render_view_host : RenderViewHost)
  | Callback_Run (allow : bool).

(** The whole object a method runs on, the tracker, and the calls made so
    far. *)
Record Whole (T : Type) : Type := mkWhole {
  object : PrerenderContents;
  members : Members;
  whole_tracker : T;
  log : list Call
}.
Arguments mkWhole {T} object members whole_tracker log.
Arguments object {T} w.
Arguments members {T} w.
Arguments whole_tracker {T} w.
Arguments log {T} w.

Section WholeObject.

Context {T : Type} `{!PrerenderTracker T}.

Definition W (A : Type) : Type := Whole T → Result (A * Whole T).

#[global] Instance W_ret : MRet W := λ A a w, Ok (a, w).

#[global] Instance W_bind : MBind W := λ A B f m w,
  match m w with
  | Ok (a, w') => f a w'
  | Crash e => Crash e
  end.

(** Run a method of the part above: it works on the object and the
    tracker, and its calls follow the ones logged so far. *)
Definition lift {A} (m : M A) : W A :=
  λ w, match m (mkSt (object w) (whole_tracker w) []) with
       | Ok (a, s') =>
           Ok (a, {| object := this s'; members := members w;
                     whole_tracker := tracker s';
                     log := log w ++ map Earlier (calls s') |})
       | Crash e => Crash e
       end.

Definition get_members : W Members := λ w, Ok (members w, w).

Definition modify_members (f : Members → Members) : W unit :=
  λ w, Ok (tt, {| object := object w; members := f (members w);
                  whole_tracker := whole_tracker w; log := log w |}).

Definition send (c : Call) : W unit :=
  λ w, Ok (tt, {| object := object w; members := members w;
                  whole_tracker := whole_tracker w; log := log w ++ [c] |}).

Definition this_ : W PrerenderContents := lift get_this.

Definition assign (f : PrerenderContents → PrerenderContents) : W unit :=
  lift (modify_this f).

Definition dcheck (condition : string) (holds : bool) : W unit :=
  lift (DCHECK condition holds).

(** A loop over the elements of a container, in order, and one that the
    body can leave ([false] is a [return] from inside it). *)
Fixpoint for_all {A} (l : list A) (body : A → W unit) : W unit :=
  match l with
  | [] => mret tt
  | x :: l' => body x ;; for_all l' body
  end.

Fixpoint for_until {A} (l : list A) (body : A → W bool) : W unit :=
  match l with
  | [] => mret tt
  | x :: l' =>
      go_on ← body x;
      if go_on : bool then for_until l' body else mret tt
  end.

Variable env : Env.
Variable browser : Browser.

(* --------------------------------------------------------------------- *)
(** *** The callbacks of [WebContentsDelegateImpl]                         *)
(* --------------------------------------------------------------------- *)

(** [OpenURLFromTab]: the answer is the null [WebContents]. *)
Definition OpenURLFromTab : W (option WebContents) :=
  lift (Destroy env FINAL_STATUS_OPEN_URL) ;;
  mret None.

(** [CanDownload]. *)
Definition CanDownload : W unit :=
  lift (Destroy env FINAL_STATUS_DOWNLOAD) ;;
  send (Callback_Run false).

(** [OnGoToEntryOffset]. *)
Definition OnGoToEntryOffset (offset : Z) : W bool :=
  mret false.

(** [JSOutOfMemory]. *)
Definition JSOutOfMemory : W unit :=
  lift (Destroy env FINAL_STATUS_JS_OUT_OF_MEMORY).

(** [ShouldSuppressDialogs]. *)
Definition ShouldSuppressDialogs : W bool :=
  lift (Destroy env FINAL_STATUS_JAVASCRIPT_ALERT) ;;
  mret true.

(** [RegisterProtocolHandler]. *)
Definition RegisterProtocolHandler : W unit :=
  lift (Destroy env FINAL_STATUS_REGISTER_PROTOCOL_HANDLER).

(** [GetSizeForNewRenderView]. *)
Definition GetSizeForNewRenderView : W Size :=
  m ← get_members;
  mret (size_ m).

(* --------------------------------------------------------------------- *)
(** *** Frames and pending prerenders                                      *)
(* --------------------------------------------------------------------- *)

(** [PrerenderContents::AddPendingPrerender]. *)
Definition AddPendingPrerender (pending_prerender_info : PendingPrerenderInfo)
    : W unit :=
  modify_members
    (λ m, set_pending_prerenders_ (pending_prerenders_ m ++ [pending_prerender_info]) m).

(** [PrerenderContents::pending_prerender_count]. *)
Definition pending_prerender_count : W nat :=
  m ← get_members;
  mret (length (pending_prerenders_ m)).

(** [PrerenderContents::RenderFrameCreated]. *)
Definition RenderFrameCreated (render_frame_host : RenderFrameHost) : W unit :=
  modify_members
    (λ m, set_render_frame_hosts_
            (std_set_insert render_frame_host (render_frame_hosts_ m)) m) ;;
  send (Frame_Send_SetIsPrerendering render_frame_host
          (Frame_GetRoutingID browser render_frame_host) true).

(** [PrerenderContents::RenderFrameDeleted]. *)
Definition RenderFrameDeleted (render_frame_host : RenderFrameHost) : W unit :=
  modify_members
    (λ m, set_render_frame_hosts_
            (std_set_erase render_frame_host (render_frame_hosts_ m)) m).

(** [PrerenderContents::PrepareForUse]. *)
Definition PrepareForUse : W unit :=
  m ← get_members;
  for_all (render_frame_hosts_ m)
    (λ i, send (Frame_Send_SetIsPrerendering i (Frame_GetRoutingID browser i) false)) ;;
  modify_members (set_render_frame_hosts_ []) ;;
  lift NotifyPrerenderStop ;;
  p ← this_;
  let session_storage_namespace :=
    match prerender_contents_ p with
    | Some web_contents => GetDefaultSessionStorageNamespace browser web_contents
    | None => None
    end in
  m ← get_members;
  send (Manager_StartPendingPrerenders (child_id_ p) (pending_prerenders_ m)
          session_storage_namespace) ;;
  modify_members (set_pending_prerenders_ []).

(* --------------------------------------------------------------------- *)
(** *** Start                                                              *)
(* --------------------------------------------------------------------- *)

(** [PrerenderContents::CreateWebContents]. *)
Definition CreateWebContents (session_storage_namespace : SessionStorageNamespace)
    : W WebContents :=
  m ← get_members;
  let session_storage_namespace_map : gmap string SessionStorageNamespace :=
    <[EmptyString := session_storage_namespace]> ∅ in
  mret (WebContents_CreateWithSessionStorage browser (profile_ m)
          session_storage_namespace_map).

(** [PrerenderContents::GetRenderViewHost]. *)
Definition GetRenderViewHost : W (option RenderViewHost) :=
  p ← this_;
  match prerender_contents_ p with
  | None => mret None
  | Some web_contents => mret (WebContents_GetRenderViewHost browser web_contents)
  end.

(** [PrerenderContents::NotifyPrerenderStart]. *)
Definition NotifyPrerenderStart : W unit :=
  p ← this_;
  dcheck "FINAL_STATUS_MAX == final_status_"
    (bool_decide (FINAL_STATUS_MAX = final_status_ p)) ;;
  for_all (observer_list_ p) (λ o, send (Observer_OnPrerenderStart o)).

(** [PrerenderContents::StartPrerendering]. *)
Definition StartPrerendering (creator_child_id : Z) (size : Size)
    (session_storage_namespace : SessionStorageNamespace) : W unit :=
  m ← get_members;
  p ← this_;
  dcheck "profile_ != NULL" (bool_decide (profile_ m ≠ None)) ;;
  dcheck "!size.IsEmpty()" (negb (IsEmpty size)) ;;
  dcheck "!prerendering_has_started_" (negb (prerendering_has_started_ p)) ;;
  dcheck "prerender_contents_.get() == NULL"
    (bool_decide (prerender_contents_ p = None)) ;;
  dcheck "-1 == creator_child_id_" (bool_decide (-1 = creator_child_id_ p)) ;;
  dcheck "size_.IsEmpty()" (IsEmpty (size_ m)) ;;
  dcheck "1U == alias_urls_.size()" (bool_decide (1%nat = length (alias_urls_ p))) ;;
  assign (set_creator_child_id_ creator_child_id) ;;
  assign (set_session_storage_namespace_id_ (ns_id session_storage_namespace)) ;;
  modify_members (set_size_ size) ;;
  p ← this_;
  dcheck "load_start_time_.is_null()" (bool_decide (load_start_time_ p = 0)) ;;
  assign (set_load_start_time_ (TimeTicks_Now browser)) ;;
  modify_members (set_start_time_ (Time_Now browser)) ;;
  if IsControlGroup env (experiment_id_ p) then mret tt
  else if bool_decide (origin_ p = ORIGIN_LOCAL_PREDICTOR)
          && IsLocalPredictorPrerenderAlwaysControlEnabled browser then mret tt
  else
    assign (set_prerendering_has_started_ true) ;;
    let alias := CreateAlias browser session_storage_namespace in
    modify_members (set_alias_session_storage_namespace (Some alias)) ;;
    web_contents ← CreateWebContents alias;
    assign (set_prerender_contents_ (Some web_contents)) ;;
    send (BrowserTabContents_AttachTabHelpers web_contents) ;;
    (if OS_ANDROID browser
     then send (FaviconTabHelper_set_should_fetch_icons web_contents false)
     else mret tt) ;;
    send (WebContentsObserver_Observe (Some web_contents)) ;;
    send (WebContents_SetDelegate web_contents true) ;;
    m ← get_members;
    send (WebContents_SizeContents web_contents (size_ m)) ;;
    render_view_host ← GetRenderViewHost ≫= (λ h, lift (deref h));
    process ← lift (deref (GetProcess render_view_host));
    assign (set_child_id_ (GetID process)) ;;
    render_view_host ← GetRenderViewHost ≫= (λ h, lift (deref h));
    assign (set_route_id_ (GetRoutingID render_view_host)) ;;
    p ← this_;
    send (Namespace_AddTransactionLogProcessId alias (child_id_ p)) ;;
    lift (AddObserver (prerender_tracker browser)) ;;
    NotifyPrerenderStart ;;
    send (Registrar_Add NOTIFICATION_APP_TERMINATING AllSources) ;;
    send (Registrar_Add NOTIFICATION_PROFILE_DESTROYED (Source_Profile (profile_ m))) ;;
    send (Registrar_Add NOTIFICATION_WEB_CONTENTS_RENDER_VIEW_HOST_CREATED
            (Source_WebContents web_contents)) ;;
    send (WebContents_SetUserAgentOverride web_contents
            (config_user_agent_override browser)) ;;
    send (Controller_LoadURLWithParams web_contents
            {| load_url := prerender_url_ p;
               load_referrer := referrer_ p;
               transition_type :=
                 if bool_decide (origin_ p = ORIGIN_OMNIBOX)
                    || bool_decide (origin_ p = ORIGIN_INSTANT)
                 then PAGE_TRANSITION_TYPED else PAGE_TRANSITION_LINK;
               override_user_agent :=
                 if config_is_overriding_user_agent browser
                 then UA_OVERRIDE_TRUE else UA_OVERRIDE_FALSE |}).

(** What [StartPrerendering] asserts of the object and of the size it is
    given, and the condition under which it returns before anything is
    set up. *)
Definition StartPrerendering_asserts (size : Size) (w : Whole T) : Prop :=
  profile_ (members w) ≠ None
  ∧ IsEmpty size = false
  ∧ prerendering_has_started_ (object w) = false
  ∧ prerender_contents_ (object w) = None
  ∧ creator_child_id_ (object w) = -1
  ∧ IsEmpty (size_ (members w)) = true
  ∧ length (alias_urls_ (object w)) = 1%nat
  ∧ load_start_time_ (object w) = 0.

Definition in_control_cohort (p : PrerenderContents) : bool :=
  IsControlGroup env (experiment_id_ p)
  || (bool_decide (origin_ p = ORIGIN_LOCAL_PREDICTOR)
      && IsLocalPredictorPrerenderAlwaysControlEnabled browser).



(* --------------------------------------------------------------------- *)
(** *** The end of the object                                              *)
(* --------------------------------------------------------------------- *)

(** [PrerenderContents::ReleasePrerenderContents]. *)
Definition ReleasePrerenderContents : W WebContents :=
  p ← this_;
  web_contents ← lift (deref (prerender_contents_ p));
  send (WebContents_SetDelegate web_contents false) ;;
  send (WebContentsObserver_Observe None) ;;
  m ← get_members;
  match alias_session_storage_namespace m with
  | Some namespace =>
      send (Namespace_RemoveTransactionLogProcessId namespace (child_id_ p))
  | None => mret tt
  end ;;
  assign (set_prerender_contents_ None) ;;
  mret web_contents.

(** [PrerenderContents::~PrerenderContents]. *)
Definition PrerenderContents_delete : W unit :=
  p ← this_;
  dcheck "FINAL_STATUS_MAX != final_status()"
    (bool_decide (FINAL_STATUS_MAX ≠ final_status_ p)) ;;
  dcheck "prerendering_has_been_cancelled() || final_status() == FINAL_STATUS_USED"
    (prerendering_has_been_cancelled_ p
     || bool_decide (final_status_ p = FINAL_STATUS_USED)) ;;
  dcheck "ORIGIN_MAX != origin()" (bool_decide (ORIGIN_MAX ≠ origin_ p)) ;;
  (if prerendering_has_started_ p
      && (bool_decide (final_status_ p = FINAL_STATUS_USED)
          || bool_decide (final_status_ p = FINAL_STATUS_TIMED_OUT)
          || bool_decide (final_status_ p = FINAL_STATUS_CANCELLED))
   then send (Manager_RecordCookieStatus (origin_ p) (experiment_id_ p)
                (cookie_status_ p))
   else mret tt) ;;
  send (Manager_RecordFinalStatusWithMatchCompleteStatus
          (origin_ p) (experiment_id_ p) (match_complete_status_ p)
          (final_status_ p)) ;;
  for_all (AllHosts env)
    (λ host, send (Host_Send_OnPrerenderRemoveAliases host (alias_urls_ p))) ;;
  match prerender_contents_ p with
  | Some _ =>
      web_contents ← ReleasePrerenderContents;
      send (WebContents_delete web_contents)
  | None => mret tt
  end.

(* --------------------------------------------------------------------- *)
(** *** Notifications, messages and instrumentation                        *)
(* --------------------------------------------------------------------- *)

(** [PrerenderContents::OnRenderViewHostCreated]. *)
Definition OnRenderViewHostCreated (new_render_view_host : RenderViewHost)
    : W unit :=
  mret tt.

(** [PrerenderContents::Observe]. *)
Definition Observe (type : NotificationType) (source : NotificationSource)
    (details : RenderViewHost) : W unit :=
  match type with
  | NOTIFICATION_PROFILE_DESTROYED =>
      lift (Destroy env FINAL_STATUS_PROFILE_DESTROYED)
  | NOTIFICATION_APP_TERMINATING =>
      lift (Destroy env FINAL_STATUS_APP_TERMINATING)
  | NOTIFICATION_WEB_CONTENTS_RENDER_VIEW_HOST_CREATED =>
      p ← this_;
      match prerender_contents_ p with
      | Some web_contents =>
          dcheck "content::Source<WebContents>(source).ptr() == prerender_contents_.get()"
            (bool_decide (source = Source_WebContents web_contents)) ;;
          OnRenderViewHostCreated details ;;
          send (RenderViewHost_WasResized details) ;;
          send (WebContents_WasHidden web_contents)
      | None => mret tt
      end
  | NOTIFICATION_other _ => lift NOTREACHED
  end.

(** [PrerenderContents::OnMessageReceived]: the answer is [handled]. *)
Definition OnMessageReceived (message : Message) : W bool :=
  match message with
  | ChromeViewHostMsg_CancelPrerenderForPrinting =>
      lift (OnCancelPrerenderForPrinting env) ;;
      mret true
  | Message_other _ => mret false
  end.

(** [PrerenderContents::DidUpdateFaviconURL]; the VLOG lines are left
    out. *)
Definition DidUpdateFaviconURL (page_id : Z) (urls : list FaviconURL) : W unit :=
  for_until urls
    (λ it,
       if bool_decide (icon_type it = FAVICON) then
         modify_members (set_icon_url_ (icon_url it)) ;;
         mret false
       else mret true).



(** [PrerenderContents::RecordCookieEvent]. *)
Definition RecordCookieEvent (event : CookieEvent)
    (is_main_frame_http_request : bool) (earliest_create_date : Z) : W unit :=
  m ← get_members;
  if bool_decide (event = COOKIE_EVENT_SEND)
     && bool_decide (earliest_create_date > start_time_ m)
  then mret tt
  else
    let internal_event :=
      if is_main_frame_http_request then
        if bool_decide (event = COOKIE_EVENT_SEND)
        then INTERNAL_COOKIE_EVENT_MAIN_FRAME_SEND
        else INTERNAL_COOKIE_EVENT_MAIN_FRAME_CHANGE
      else
        if bool_decide (event = COOKIE_EVENT_SEND)
        then INTERNAL_COOKIE_EVENT_OTHER_SEND
        else INTERNAL_COOKIE_EVENT_OTHER_CHANGE in
    dcheck "internal_event >= 0"
      (bool_decide (InternalCookieEvent_value internal_event >= 0)) ;;
    dcheck "internal_event < INTERNAL_COOKIE_EVENT_MAX"
      (bool_decide (InternalCookieEvent_value internal_event
                    < InternalCookieEvent_value INTERNAL_COOKIE_EVENT_MAX)) ;;
    assign (λ p, set_cookie_status_
                   (Z.lor (cookie_status_ p)
                          (Z.shiftl 1 (InternalCookieEvent_value internal_event))) p) ;;
    p ← this_;
    dcheck "cookie_status_ >= 0" (bool_decide (cookie_status_ p >= 0)) ;;
    dcheck "cookie_status_ < kNumCookieStatuses"
      (bool_decide (cookie_status_ p < kNumCookieStatuses)).

(** The calls the destructor makes for the object [p] with the members
    [m]: used to state what it does in one equation. *)
Definition delete_calls (p : PrerenderContents) (m : Members) : list Call :=
  (if prerendering_has_started_ p
      && (bool_decide (final_status_ p = FINAL_STATUS_USED)
          || bool_decide (final_status_ p = FINAL_STATUS_TIMED_OUT)
          || bool_decide (final_status_ p = FINAL_STATUS_CANCELLED))
   then [Manager_RecordCookieStatus (origin_ p) (experiment_id_ p) (cookie_status_ p)]
   else [])
  ++ [Manager_RecordFinalStatusWithMatchCompleteStatus
        (origin_ p) (experiment_id_ p) (match_complete_status_ p) (final_status_ p)]
  ++ map (λ host, Host_Send_OnPrerenderRemoveAliases host (alias_urls_ p))
         (AllHosts env)
  ++ match prerender_contents_ p with
     | Some web_contents =>
         [WebContents_SetDelegate web_contents false;
          WebContentsObserver_Observe None]
         ++ match alias_session_storage_namespace m with
            | Some namespace =>
                [Namespace_RemoveTransactionLogProcessId namespace (child_id_ p)]
            | None => []
            end
         ++ [WebContents_delete web_contents]
     | None => []
     end.

(** What happens to the frames of the hidden session, as a sequence of
    calls, and whether the frame [f] is tracked after them when
    [tracked] tells whether it was before. *)
Inductive FrameCall : Set :=
  | Frame_created (render_frame_host : RenderFrameHost)
  | Frame_deleted (render_frame_host : RenderFrameHost).

Definition run_frame_call (c : FrameCall) : W unit :=
  match c with
  | Frame_created render_frame_host => RenderFrameCreated render_frame_host
  | Frame_deleted render_frame_host => RenderFrameDeleted render_frame_host
  end.

Definition run_frame_calls (cs : list FrameCall) : W unit :=
  for_all cs run_frame_call.

Fixpoint tracked_after (f : RenderFrameHost) (cs : list FrameCall) (tracked : bool)
    : bool :=
  match cs with
  | [] => tracked
  | Frame_created g :: cs' =>
      tracked_after f cs' (if bool_decide (g = f) then true else tracked)
  | Frame_deleted g :: cs' =>
      tracked_after f cs' (if bool_decide (g = f) then false else tracked)
  end.

(** The entry points that cancel the prerender for a reason of their
    own, as one interface, with the reason each one gives. *)
Inductive Trigger : Set :=
  | Trigger_OpenURLFromTab
  | Trigger_CanDownload
  | Trigger_JSOutOfMemory
  | Trigger_ShouldSuppressDialogs
  | Trigger_RegisterProtocolHandler
  | Trigger_Observe_PROFILE_DESTROYED
      (source : NotificationSource) (details : RenderViewHost)
  | Trigger_Observe_APP_TERMINATING
      (source : NotificationSource) (details : RenderViewHost)
  | Trigger_OnMessageReceived_CancelPrerenderForPrinting
  | Trigger_RenderProcessGone.

Definition run_trigger (t : Trigger) : W unit :=
  match t with
  | Trigger_OpenURLFromTab => OpenURLFromTab ;; mret tt
  | Trigger_CanDownload => CanDownload
  | Trigger_JSOutOfMemory => JSOutOfMemory
  | Trigger_ShouldSuppressDialogs => ShouldSuppressDialogs ;; mret tt
  | Trigger_RegisterProtocolHandler => RegisterProtocolHandler
  | Trigger_Observe_PROFILE_DESTROYED source details =>
      Observe NOTIFICATION_PROFILE_DESTROYED source details
  | Trigger_Observe_APP_TERMINATING source details =>
      Observe NOTIFICATION_APP_TERMINATING source details
  | Trigger_OnMessageReceived_CancelPrerenderForPrinting =>
      OnMessageReceived ChromeViewHostMsg_CancelPrerenderForPrinting ;; mret tt
  | Trigger_RenderProcessGone => lift (RenderProcessGone env)
  end.

Definition Trigger_reason (t : Trigger) : FinalStatus :=
  match t with
  | Trigger_OpenURLFromTab => FINAL_STATUS_OPEN_URL
  | Trigger_CanDownload => FINAL_STATUS_DOWNLOAD
  | Trigger_JSOutOfMemory => FINAL_STATUS_JS_OUT_OF_MEMORY
  | Trigger_ShouldSuppressDialogs => FINAL_STATUS_JAVASCRIPT_ALERT
  | Trigger_RegisterProtocolHandler => FINAL_STATUS_REGISTER_PROTOCOL_HANDLER
  | Trigger_Observe_PROFILE_DESTROYED _ _ => FINAL_STATUS_PROFILE_DESTROYED
  | Trigger_Observe_APP_TERMINATING _ _ => FINAL_STATUS_APP_TERMINATING
  | Trigger_OnMessageReceived_CancelPrerenderForPrinting => FINAL_STATUS_WINDOW_PRINT
  | Trigger_RenderProcessGone => FINAL_STATUS_RENDERER_CRASHED
  end.

(** The one call a trigger makes besides cancelling: [CanDownload] runs
    its callback with [false]. *)
Definition Trigger_calls (t : Trigger) : list Call :=
  match t with
  | Trigger_CanDownload => [Callback_Run false]
  | _ => []
  end.

(** A sequence of cookie events, each with its main-frame flag and the
    earliest creation date of the cookies, recorded in order. *)
Definition RecordCookieEvents (events : list (CookieEvent * bool * Z)) : W unit :=
  for_all events
    (λ '(event, is_main_frame_http_request, earliest_create_date),
       RecordCookieEvent event is_main_frame_http_request earliest_create_date).

End WholeObject.

(* ===================================================================== *)
(** ** Concrete whole objects, used to run the model                       *)
(* ===================================================================== *)

Module Scenario.

(** An Android browser whose created [WebContents] has a render view
    host with routing id 3 in process 7, with a memory ceiling of 1000
    bytes and a process measured at 2000. *)
Definition browser : Browser :=
  {| OS_ANDROID := true;
     TimeTicks_Now := 100;
     Time_Now := 5000;
     IsLocalPredictorPrerenderAlwaysControlEnabled := false;
     CreateAlias := λ ns, mkNamespace (ns_id ns + 1);
     WebContents_CreateWithSessionStorage := λ _ _, mkWebContents 1;
     WebContents_GetRenderViewHost :=
       λ _, Some (mkRenderViewHost (Some (mkRenderProcessHost 7 (Some 4242))) 3);
     GetDefaultSessionStorageNamespace := λ _, Some (mkNamespace 5);
     prerender_tracker := 0%nat;
     config_user_agent_override := "agent";
     config_is_overriding_user_agent := false;
     config_max_bytes := 1000;
     Frame_GetRoutingID := λ f, f + 100;
     CreateProcessMetrics := λ _, Some 1%nat;
     GetMemoryBytes := λ _, Some (2000, 0) |}.

(** The manager of [Sample.env] with every experiment in the control
    group. *)
Definition control_env : Env :=
  {| config_https_allowed := true;
     HasRecentlyBeenNavigatedTo := λ _ url, bool_decide (url = Sample.http_visited);
     IsControlGroup := λ _, true;
     MoveEntryToPendingDelete_status := λ p _, match_complete_status_ p;
     AllHosts := [1%nat; 2%nat] |}.

Definition whole (p : PrerenderContents) (m : Members)
    (t : gmap (Z * Z) FinalStatus) : Whole (gmap (Z * Z) FinalStatus) :=
  mkWhole p m t [].

(** A record as the constructor and [Init] leave it, with a handle
    (observer 1) already observing; the same record once started, with
    two frames tracked and a prerender pending. *)
Definition created : Whole (gmap (Z * Z) FinalStatus) :=
  whole (set_observer_list_ [1%nat] (Sample.fresh Sample.http_a))
    (Members_new (Some 1%nat)) ∅.

Definition pending : PendingPrerenderInfo :=
  mkPendingPrerenderInfo 9%nat ORIGIN_OTHER Sample.https_a "" (mkSize false (800, 600)).

Definition running : Whole (gmap (Z * Z) FinalStatus) :=
  whole (Sample.started Sample.http_a 1)
    {| profile_ := Some 1%nat;
       start_time_ := 5000;
       icon_url_ := mkGURL "" "";
       size_ := mkSize false (800, 600);
       render_frame_hosts_ := [10; 20];
       pending_prerenders_ := [pending];
       process_metrics_ := None;
       alias_session_storage_namespace := Some (mkNamespace 6) |}
    Sample.tracker_idle.

(** [running] once it has been used: the final status is
    [FINAL_STATUS_USED]. *)
Definition used : Whole (gmap (Z * Z) FinalStatus) :=
  whole (set_final_status_ FINAL_STATUS_USED (Sample.started Sample.http_a 1))
    (members running) Sample.tracker_idle.

End Scenario.

(* ===================================================================== *)
(** * Verification                                                         *)
(* ===================================================================== *)

(** Everything in this section holds for every implementation of the
    tracker's interface. *)
Section Verification.

Context {T : Type} `{!PrerenderTracker T}.
Local Abbreviation M := (@M T).
Local Abbreviation keeps_settled := (@keeps_settled T).
Implicit Types (s : St T) (env : Env) (p : PrerenderContents).

(* ===================================================================== *)
(** ** Equations of the method bodies                                      *)
(* ===================================================================== *)

Lemma bind_eq {A B} (m : M A) (f : A → M B) s :
  (m ≫= f) s = match m s with Ok (a, s') => f a s' | Crash e => Crash e end.
Proof. reflexivity. Qed.

Lemma St_eta s : mkSt (this s) (tracker s) (calls s) = s.
Proof. by destruct s. Qed.

Lemma FinalStatus_in_range fs :
  bool_decide (FinalStatus_value fs >= FinalStatus_value FINAL_STATUS_USED)
  && bool_decide (FinalStatus_value fs < FinalStatus_value FINAL_STATUS_MAX)
  = bool_decide (fs ≠ FINAL_STATUS_MAX).
Proof. by destruct fs. Qed.

Lemma SetFinalStatus_eq fs s :
  SetFinalStatus fs s =
    if bool_decide (fs ≠ FINAL_STATUS_MAX) then
      if bool_decide (final_status_ (this s) = FINAL_STATUS_MAX)
      then Ok (tt, mkSt (set_final_status_ fs (this s)) (tracker s) (calls s))
      else Crash (DCHECK_failed "final_status_ == FINAL_STATUS_MAX")
    else Crash (DCHECK_failed
      "final_status >= FINAL_STATUS_USED && final_status < FINAL_STATUS_MAX").
Proof.
  unfold SetFinalStatus. rewrite FinalStatus_in_range, bind_eq.
  destruct (bool_decide (fs ≠ _)); [|done].
  simpl. rewrite bind_eq. simpl. rewrite bind_eq.
  by destruct (bool_decide (final_status_ _ = _)).
Qed.

Lemma for_each_call {A} (f : A → Event) (l : list A) s :
  for_each l (λ x, call (f x)) s
  = Ok (tt, mkSt (this s) (tracker s) (calls s ++ map f l)).
Proof.
  revert s. induction l as [|x l IH]; intros s; simpl.
  - by rewrite app_nil_r, St_eta.
  - rewrite bind_eq. simpl. rewrite IH. simpl. by rewrite <- app_assoc.
Qed.

Lemma NotifyPrerenderStop_eq s :
  NotifyPrerenderStop s =
    if bool_decide (FINAL_STATUS_MAX ≠ final_status_ (this s))
    then Ok (tt, mkSt (set_observer_list_ [] (this s)) (tracker s)
                   (calls s ++ map Observer_OnPrerenderStop (observer_list_ (this s))))
    else Crash (DCHECK_failed "FINAL_STATUS_MAX != final_status_").
Proof.
  unfold NotifyPrerenderStop. rewrite bind_eq. simpl. rewrite bind_eq.
  destruct (bool_decide (_ ≠ _)); [|done]. simpl.
  by rewrite bind_eq, for_each_call.
Qed.

Lemma Destroy_tail env st tc t' s :
  (SetFinalStatus st ;;
   modify_this (set_prerendering_has_been_cancelled_ true) ;;
   call Manager_AddToHistory ;;
   manager_MoveEntryToPendingDelete env st ;;
   p ← get_this;
   if negb (IsControlGroup env (experiment_id_ p))
      && (prerendering_has_started_ p
          || bool_decide (match_complete_status_ p = MATCH_COMPLETE_REPLACEMENT))
   then NotifyPrerenderStop
   else mret tt) (mkSt (this s) t' (calls s ++ tc))
  = Destroy_settle env st tc t' s.
Proof.
  unfold Destroy_settle. rewrite bind_eq, SetFinalStatus_eq. simpl.
  destruct (bool_decide (st ≠ _)) eqn:Hst; [|done].
  destruct (bool_decide (final_status_ _ = _)); [|done].
  apply bool_decide_eq_true_1 in Hst.
  rewrite bind_eq. simpl. rewrite bind_eq. simpl.
  unfold manager_MoveEntryToPendingDelete. rewrite !bind_eq. simpl.
  rewrite !bind_eq. simpl.
  unfold Destroy_finished.
  set (p1 := set_prerendering_has_been_cancelled_ true (set_final_status_ st (this s))).
  set (p2 := set_match_complete_status_ _ p1).
  rewrite <- !app_assoc. simpl.
  destruct (negb _ && _); [|done].
  rewrite NotifyPrerenderStop_eq. simpl.
  rewrite bool_decide_eq_true_2 by (intros E; by apply Hst).
  by rewrite <- !app_assoc.
Qed.

(** [Destroy], case by case. *)
Lemma Destroy_eq env fs s :
  Destroy env fs s =
    if bool_decide (fs ≠ FINAL_STATUS_USED) then
      if prerendering_has_been_cancelled_ (this s) then Ok (tt, s)
      else if pair_assigned (this s) then
        let child := child_id_ (this s) in
        let route := route_id_ (this s) in
        match TryCancel child route fs (tracker s) with
        | (true, t') =>
            match GetFinalStatus child route t' with
            | Some st =>
                Destroy_settle env st
                  [Tracker_TryCancel child route fs; Tracker_GetFinalStatus child route]
                  t' s
            | None => Crash NOTREACHED_reached
            end
        | (false, _) => Crash (CHECK_failed "is_cancelled")
        end
      else Destroy_settle env fs [] (tracker s) s
    else Crash (DCHECK_failed "final_status != FINAL_STATUS_USED").
Proof.
  unfold Destroy. rewrite bind_eq.
  destruct (bool_decide (fs ≠ _)); [|done]. simpl.
  rewrite bind_eq. simpl.
  destruct (prerendering_has_been_cancelled_ _); [done|].
  rewrite bind_eq. unfold pair_assigned.
  destruct (_ && _).
  - unfold Destroy_through_tracker. rewrite bind_eq.
    unfold tracker_TryCancel at 1.
    destruct (TryCancel _ _ _ _) as [[] t']; [|done].
    rewrite bind_eq. simpl. rewrite bind_eq. simpl.
    destruct (GetFinalStatus _ _ _) as [st|]; [|done]. simpl.
    rewrite <- Destroy_tail. by rewrite <- app_assoc.
  - simpl. rewrite <- Destroy_tail. by rewrite app_nil_r, St_eta.
Qed.

(** What the state [Destroy] leaves looks like. *)
Lemma Destroy_finished_fields env st tc t' s :
  let s' := Destroy_finished env st tc t' s in
  final_status_ (this s') = st
  ∧ prerendering_has_been_cancelled_ (this s') = true
  ∧ alias_urls_ (this s') = alias_urls_ (this s)
  ∧ add_page_vector_ (this s') = add_page_vector_ (this s)
  ∧ child_id_ (this s') = child_id_ (this s)
  ∧ route_id_ (this s') = route_id_ (this s)
  ∧ tracker s' = t'.
Proof. unfold Destroy_finished. simpl. by destruct (negb _ && _). Qed.

Lemma Destroy_finished_calls env st tc t' s :
  ∃ stops,
    calls (Destroy_finished env st tc t' s)
    = calls s ++ tc
      ++ [Manager_AddToHistory; Manager_MoveEntryToPendingDelete st]
      ++ map Observer_OnPrerenderStop stops.
Proof.
  unfold Destroy_finished. simpl. destruct (negb _ && _).
  - eexists. by rewrite <- !app_assoc.
  - exists []. by rewrite <- !app_assoc.
Qed.

Lemma filter_add_alias_stops (stops : list Observer) :
  filter is_add_alias (map Observer_OnPrerenderStop stops) = [].
Proof. by induction stops. Qed.

Lemma Destroy_finished_no_alias env st tc t' s :
  filter is_add_alias tc = [] →
  filter is_add_alias (calls (Destroy_finished env st tc t' s))
  = filter is_add_alias (calls s).
Proof.
  intros Htc. destruct (Destroy_finished_calls env st tc t' s) as [stops ->].
  rewrite !filter_app, Htc, filter_add_alias_stops. simpl.
  by rewrite app_nil_r.
Qed.

(** [Destroy_status] is what [Destroy_eq] branches on. *)
Lemma Destroy_live env fs s st :
  fs ≠ FINAL_STATUS_USED →
  prerendering_has_been_cancelled_ (this s) = false →
  final_status_ (this s) = FINAL_STATUS_MAX →
  Destroy_status fs s = Some st →
  st ≠ FINAL_STATUS_MAX →
  ∃ tc t',
    Destroy env fs s = Ok (tt, Destroy_finished env st tc t' s)
    ∧ filter is_add_alias tc = []
    ∧ (if pair_assigned (this s)
       then tc = [Tracker_TryCancel (child_id_ (this s)) (route_id_ (this s)) fs;
                  Tracker_GetFinalStatus (child_id_ (this s)) (route_id_ (this s))]
            ∧ TryCancel (child_id_ (this s)) (route_id_ (this s)) fs (tracker s)
              = (true, t')
            ∧ GetFinalStatus (child_id_ (this s)) (route_id_ (this s)) t' = Some st
       else tc = [] ∧ t' = tracker s ∧ st = fs).
Proof.
  intros Hu Hc Hf Hst Hm. rewrite Destroy_eq.
  rewrite (bool_decide_eq_true_2 _ Hu), Hc.
  unfold Destroy_status in Hst. unfold Destroy_settle.
  rewrite (bool_decide_eq_true_2 _ Hf).
  destruct (pair_assigned (this s)).
  - destruct (TryCancel _ _ _ _) as [[] t']; [|done].
    rewrite Hst, (bool_decide_eq_true_2 _ Hm). by eexists _, _.
  - injection Hst as <-. rewrite (bool_decide_eq_true_2 _ Hm). by eexists _, _.
Qed.

(** Whenever [Destroy] returns, it either found the record cancelled and
    left everything as it was, or settled on the status [Destroy_status]
    tells. *)
Lemma Destroy_inv env fs s s' :
  Destroy env fs s = Ok (tt, s') →
  fs ≠ FINAL_STATUS_USED
  ∧ ((prerendering_has_been_cancelled_ (this s) = true ∧ s' = s)
     ∨ (prerendering_has_been_cancelled_ (this s) = false
        ∧ final_status_ (this s) = FINAL_STATUS_MAX
        ∧ ∃ st tc t', Destroy_status fs s = Some st
                      ∧ st ≠ FINAL_STATUS_MAX
                      ∧ filter is_add_alias tc = []
                      ∧ s' = Destroy_finished env st tc t' s)).
Proof.
  rewrite Destroy_eq. case_bool_decide as Hu; [|done].
  intros Hd. split; [done|].
  destruct (prerendering_has_been_cancelled_ (this s)) eqn:Hc.
  { left. by injection Hd as <-. }
  right. split; [done|]. unfold Destroy_status.
  unfold Destroy_settle in Hd.
  destruct (pair_assigned (this s)).
  - destruct (TryCancel _ _ _ _) as [[] t']; [|done].
    destruct (GetFinalStatus _ _ _) as [st|]; [|done].
    repeat case_bool_decide; try done.
    injection Hd as <-. split; [done|]. eexists _, _, _.
    split; [reflexivity|]. split; [done|]. by split; [|reflexivity].
  - repeat case_bool_decide; try done.
    injection Hd as <-. split; [done|]. eexists _, [], _.
    split; [reflexivity|]. split; [done|]. by split; [|reflexivity].
Qed.

(** [CheckURL], case by case. *)
Lemma CheckURL_eq env url s :
  CheckURL env url s =
    let pending :=
      bool_decide (match_complete_status_ (this s) = MATCH_COMPLETE_REPLACEMENT_PENDING) in
    let rejected_with status :=
      if pending
      then Crash (DCHECK_failed
             "MATCH_COMPLETE_REPLACEMENT_PENDING != match_complete_status_")
      else (Destroy env status ;; mret false) s in
    if negb (SchemeIs url kHttpScheme) && negb (SchemeIs url kHttpsScheme)
    then rejected_with FINAL_STATUS_UNSUPPORTED_SCHEME
    else if SchemeIs url kHttpsScheme && negb (config_https_allowed env)
    then rejected_with FINAL_STATUS_HTTPS
    else if negb pending && HasRecentlyBeenNavigatedTo env (origin_ (this s)) url
    then (Destroy env FINAL_STATUS_RECENTLY_VISITED ;; mret false) s
    else Ok (true, s).
Proof.
  unfold CheckURL. simpl.
  repeat match goal with
         | |- (if ?b then _ else _) _ = _ => destruct b
         end;
    rewrite bind_eq; simpl; rewrite ?bind_eq;
    (destruct (decide (match_complete_status_ (this s)
                       = MATCH_COMPLETE_REPLACEMENT_PENDING)) as [E|E];
     [ rewrite (bool_decide_eq_true_2 _ E), bool_decide_eq_false_2 by (by intros [])
     | rewrite (bool_decide_eq_false_2 _ E), bool_decide_eq_true_2 by done ]);
    simpl; try done.
  by destruct (HasRecentlyBeenNavigatedTo _ _ _).
Qed.

(** [AddAliasURL] after its [CheckURL]. *)
Lemma AddAliasURL_eq env url s :
  AddAliasURL env url s =
    match CheckURL env url s with
    | Ok (true, s') =>
        Ok (true, mkSt (set_alias_urls_ (alias_urls_ (this s') ++ [url]) (this s'))
                    (tracker s')
                    (calls s' ++ map (λ host, Host_Send_OnPrerenderAddAlias host url)
                                     (AllHosts env)))
    | Ok (false, s') => Ok (false, s')
    | Crash e => Crash e
    end.
Proof.
  unfold AddAliasURL. rewrite bind_eq.
  destruct (CheckURL env url s) as [[[] s']|]; [|done..].
  simpl. rewrite bind_eq. simpl. rewrite bind_eq, for_each_call. done.
Qed.

(** An indexed loop over a whole vector visits the elements in order. *)
Lemma for_index_from {A} (body : A → M bool) (done_ rest : list A) s :
  for_index (length rest) (length done_)
    (λ i, x ← at_index (done_ ++ rest) i; body x) s
  = while_each rest body s.
Proof.
  revert done_ s. induction rest as [|x rest IH]; intros done_ s; [done|].
  simpl. rewrite !bind_eq. unfold at_index at 1.
  rewrite list_lookup_middle by done. simpl.
  destruct (body x s) as [[[] s']|]; [|done..].
  specialize (IH (done_ ++ [x]) s').
  rewrite length_app in IH. simpl in IH.
  replace (length done_ + 1)%nat with (S (length done_)) in IH by lia.
  by rewrite <- app_assoc in IH.
Qed.

Lemma for_index_all {A} (body : A → M bool) (v : list A) s :
  for_index (length v) 0 (λ i, x ← at_index v i; body x) s
  = while_each v body s.
Proof. apply (for_index_from body [] v). Qed.

Lemma spec_walk_while_each env chain s :
  spec_walk_redirect_chain env chain s = while_each chain (AddAliasURL env) s.
Proof.
  revert s. induction chain as [|url chain IH]; intros s; [done|].
  simpl. rewrite !bind_eq.
  destruct (AddAliasURL env url s) as [[[] s']|]; by rewrite ?IH.
Qed.

(* ===================================================================== *)
(** ** What no call undoes                                                 *)
(* ===================================================================== *)

Lemma stays_settled_refl s : stays_settled s s.
Proof. by split. Qed.

Lemma stays_settled_trans s1 s2 s3 :
  stays_settled s1 s2 → stays_settled s2 s3 → stays_settled s1 s3.
Proof.
  intros [Hf1 Hc1] [Hf2 Hc2]. split.
  - intros Hne. rewrite <- (Hf1 Hne). apply Hf2. by rewrite (Hf1 Hne).
  - auto.
Qed.

Lemma stays_settled_same_this s s' : this s' = this s → stays_settled s s'.
Proof. intros E. unfold stays_settled. by rewrite E. Qed.

Lemma bind_Ok {A B} (m : M A) (f : A → M B) s b s' :
  (m ≫= f) s = Ok (b, s') →
  ∃ a s1, m s = Ok (a, s1) ∧ f a s1 = Ok (b, s').
Proof.
  rewrite bind_eq. destruct (m s) as [[a s1]|]; [|done]. by exists a, s1.
Qed.

Lemma keeps_ret {A} (a : A) : keeps_settled (mret a : M A).
Proof. intros s a' s' [= _ <-]. apply stays_settled_refl. Qed.

Lemma keeps_bind {A B} (m : M A) (f : A → M B) :
  keeps_settled m → (∀ a, keeps_settled (f a)) → keeps_settled (m ≫= f).
Proof.
  intros Hm Hf s b s' (a & s1 & H1 & H2)%bind_Ok.
  eapply stays_settled_trans; [by eapply Hm | by eapply Hf].
Qed.

Lemma keeps_crash {A} e : keeps_settled (crash e : M A).
Proof. by intros s a s'. Qed.

Lemma keeps_get_this : keeps_settled (get_this : M _).
Proof. intros s a s' [= _ <-]. apply stays_settled_refl. Qed.

Lemma keeps_call e : keeps_settled (call e : M _).
Proof. intros s a s' [= _ <-]. by apply stays_settled_same_this. Qed.

Lemma keeps_DCHECK c b : keeps_settled (DCHECK c b : M _).
Proof. destruct b; [apply keeps_ret | apply keeps_crash]. Qed.

Lemma keeps_modify_this (f : PrerenderContents → PrerenderContents) :
  (∀ p, final_status_ (f p) = final_status_ p) →
  (∀ p, prerendering_has_been_cancelled_ (f p)
        = prerendering_has_been_cancelled_ p) →
  keeps_settled (modify_this f : M _).
Proof.
  intros Hf Hc s a s' [= _ <-]. unfold stays_settled. simpl. by rewrite Hf, Hc.
Qed.

Lemma keeps_for_each {A} (l : list A) (body : A → M unit) :
  (∀ x, keeps_settled (body x)) → keeps_settled (for_each l body).
Proof.
  intros Hb. induction l; simpl; [apply keeps_ret|].
  apply keeps_bind; auto.
Qed.

Lemma keeps_while_each {A} (l : list A) (body : A → M bool) :
  (∀ x, keeps_settled (body x)) → keeps_settled (while_each l body).
Proof.
  intros Hb. induction l; simpl; [apply keeps_ret|].
  apply keeps_bind; [auto|]. intros []; [done | apply keeps_ret].
Qed.

Lemma keeps_for_index_all {A} (v : list A) (body : A → M bool) :
  (∀ x, keeps_settled (body x)) →
  keeps_settled (for_index (length v) 0 (λ i, x ← at_index v i; body x)).
Proof.
  intros Hb s a s'. rewrite for_index_all. by apply keeps_while_each.
Qed.

Lemma keeps_deref {A} (o : option A) : keeps_settled (deref o : M _).
Proof. destruct o; [apply keeps_ret | apply keeps_crash]. Qed.

Lemma keeps_front {A} (v : list A) : keeps_settled (front v : M _).
Proof. destruct v; [apply keeps_crash | apply keeps_ret]. Qed.

Lemma keeps_on_object {A} other (m : M A) : keeps_settled (on_object other m).
Proof.
  intros s a s'. unfold on_object.
  destruct (m _) as [[a' s1]|]; [|done].
  intros [= _ <-]. by apply stays_settled_same_this.
Qed.

Lemma keeps_SetFinalStatus fs : keeps_settled (SetFinalStatus fs).
Proof.
  intros s a s'. rewrite SetFinalStatus_eq.
  repeat case_bool_decide; try done. intros [= _ <-].
  split; simpl; [by intros []|done].
Qed.

Lemma keeps_Destroy env fs : keeps_settled (Destroy env fs).
Proof.
  intros s [] s' [_ [[_ ->]|(Hc & Hf & st & tc & t' & _ & _ & _ & ->)]]%Destroy_inv.
  - apply stays_settled_refl.
  - split; [by rewrite Hf | by rewrite Hc].
Qed.

Lemma keeps_NotifyPrerenderStopLoading : keeps_settled NotifyPrerenderStopLoading.
Proof.
  apply keeps_bind; [apply keeps_get_this|]. intros p.
  apply keeps_for_each. intros o. apply keeps_call.
Qed.

Lemma keeps_CheckURL env url : keeps_settled (CheckURL env url).
Proof.
  intros s a s'. rewrite CheckURL_eq. simpl.
  repeat match goal with
         | |- context [if ?b then _ else _] => destruct b
         end;
    try done; try (intros [= _ <-]; apply stays_settled_refl);
    apply keeps_bind; auto using keeps_Destroy, keeps_ret.
Qed.

Lemma keeps_AddAliasURL env url : keeps_settled (AddAliasURL env url).
Proof.
  unfold AddAliasURL.
  apply keeps_bind; [apply keeps_CheckURL|]. intros [].
  - simpl. apply keeps_bind; [by apply keeps_modify_this|]. intros _.
    apply keeps_bind; [|intros; apply keeps_ret].
    apply keeps_for_each. intros. apply keeps_call.
  - apply keeps_ret.
Qed.

Lemma keeps_if {A} (b : bool) (m1 m2 : M A) :
  keeps_settled m1 → keeps_settled m2 → keeps_settled (if b then m1 else m2).
Proof. by destruct b. Qed.

Create HintDb keeps discriminated.

#[local] Hint Resolve keeps_ret keeps_crash keeps_get_this keeps_call
  keeps_DCHECK keeps_deref keeps_front keeps_on_object keeps_SetFinalStatus
  keeps_Destroy keeps_CheckURL keeps_AddAliasURL
  keeps_NotifyPrerenderStopLoading : keeps.

(** One step through a method body: a sequencing, a branch, or a
    statement that is known to keep what is settled. *)
Ltac keeps_step :=
  lazymatch goal with
  | |- ∀ _, _ => intros ?
  | |- keeps_settled (if _ then _ else _) =>
      first [ solve [auto with keeps] | apply keeps_if ]
  | |- keeps_settled (match ?x with _ => _ end) => destruct x
  | |- keeps_settled (_ ≫= _) =>
      first [ solve [auto with keeps] | apply keeps_bind ]
  | |- keeps_settled (modify_this _) => by apply keeps_modify_this
  | |- keeps_settled (for_index _ _ _) => apply keeps_for_index_all
  | |- keeps_settled (for_each _ _) => apply keeps_for_each
  | |- _ => solve [auto with keeps]
  end.

Lemma keeps_CreateMatchCompleteReplacement env :
  keeps_settled (CreateMatchCompleteReplacement env).
Proof.
  unfold CreateMatchCompleteReplacement, CreateMatchCompleteReplacement_initialised,
    NotifyPrerenderCreatedMatchCompleteReplacement.
  repeat keeps_step.
Qed.

(** No call into the object undoes a written final status or the
    cancelled flag. *)
Lemma keeps_run_call env c : keeps_settled (run_call env c).
Proof.
  pose proof (keeps_CreateMatchCompleteReplacement env).
  destruct c; simpl;
    unfold set_match_complete_status, AddObserver, Init, RenderProcessGone,
      OnCancelPrerenderForPrinting, DidStopLoading,
      DidStartProvisionalLoadForFrame, DidFinishLoad, DidNavigateMainFrame,
      DidGetRedirectForResourceRequest, DidNavigate, CommitHistory;
    repeat keeps_step.
Qed.

Lemma keeps_run_calls env cs : keeps_settled (run_calls env cs).
Proof. apply keeps_for_each, keeps_run_call. Qed.

(* ===================================================================== *)
(** ** The final status and cancellation                                   *)
(* ===================================================================== *)

(** Once a final status is written, [SetFinalStatus] fails its
    assertion, whatever it is asked to write. *)
Lemma SetFinalStatus_again fs' s :
  final_status_ (this s) ≠ FINAL_STATUS_MAX →
  (∃ c, SetFinalStatus fs' s = Crash (DCHECK_failed c))
  ∧ (fs' ≠ FINAL_STATUS_MAX →
     SetFinalStatus fs' s = Crash (DCHECK_failed "final_status_ == FINAL_STATUS_MAX")).
Proof.
  intros Hset. rewrite SetFinalStatus_eq.
  rewrite (bool_decide_eq_false_2 _ Hset).
  case_bool_decide; [|split; [by eexists | done]].
  split; [by eexists | done].
Qed.

(** C1. The final status of a record starts at the unset sentinel
    [FINAL_STATUS_MAX]; on a record whose status is unset,
    [SetFinalStatus] with a real status returns and writes it; after
    that the status is never written again: a second [SetFinalStatus],
    at once or after any sequence of calls into the object, fails a
    DCHECK (the precondition [final_status_ == FINAL_STATUS_MAX] whenever
    its own argument is in range), and no sequence of calls that returns
    changes the status. *)
Theorem final_status_written_once env url referrer origin experiment_id
    fs fs' s :
  fs ≠ FINAL_STATUS_MAX →
  final_status_ (this s) = FINAL_STATUS_MAX →
  final_status_ (PrerenderContents_new url referrer origin experiment_id)
  = FINAL_STATUS_MAX
  ∧ ∃ s', SetFinalStatus fs s = Ok (tt, s')
          ∧ final_status_ (this s') = fs
          ∧ (∃ c, SetFinalStatus fs' s' = Crash (DCHECK_failed c))
          ∧ (fs' ≠ FINAL_STATUS_MAX →
             SetFinalStatus fs' s'
             = Crash (DCHECK_failed "final_status_ == FINAL_STATUS_MAX"))
          ∧ ∀ cs s'', run_calls env cs s' = Ok (tt, s'') →
                      final_status_ (this s'') = fs
                      ∧ ∃ c, SetFinalStatus fs' s'' = Crash (DCHECK_failed c).
Proof.
  intros Hfs Hunset. split; [done|].
  eexists. rewrite SetFinalStatus_eq.
  rewrite (bool_decide_eq_true_2 _ Hfs), (bool_decide_eq_true_2 _ Hunset).
  split; [done|]. split; [done|].
  set (s' := mkSt _ _ _).
  assert (final_status_ (this s') ≠ FINAL_STATUS_MAX) as Hset by done.
  destruct (SetFinalStatus_again fs' s' Hset) as [Hany Hrange].
  split; [done|]. split; [done|].
  intros cs s'' Hrun.
  destruct (keeps_run_calls env cs _ _ _ Hrun) as [Hkeep _].
  specialize (Hkeep Hset). split; [done|].
  apply SetFinalStatus_again. by rewrite Hkeep.
Qed.

(** C2. [Destroy] is idempotent.  After a [Destroy] that returned, the
    cancelled flag is set; every later [Destroy] with a reason returns
    and leaves the object, the tracker and the sequence of collaborator
    calls exactly as they were: no status overwrite, no second
    AddToHistory or MoveEntryToPendingDelete, no second stop
    notification.  That holds for any number of later calls in a row,
    and also when any calls into the object that return come in between,
    because none of them clears the flag.  (A reason is any status but
    [FINAL_STATUS_USED], which [Destroy] asserts never to be handed; a
    call that breaks this stops at that assertion, likewise without
    effect.) *)
Theorem Destroy_idempotent env env' fs (later : list FinalStatus) s s1 :
  Destroy env fs s = Ok (tt, s1) →
  Forall (λ fs', fs' ≠ FINAL_STATUS_USED) later →
  prerendering_has_been_cancelled_ (this s1) = true
  ∧ for_each later (Destroy env') s1 = Ok (tt, s1)
  ∧ (∀ between s2 fs',
       run_calls env' between s1 = Ok (tt, s2) →
       fs' ≠ FINAL_STATUS_USED →
       prerendering_has_been_cancelled_ (this s2) = true
       ∧ Destroy env' fs' s2 = Ok (tt, s2))
  ∧ Destroy env' FINAL_STATUS_USED s1
    = Crash (DCHECK_failed "final_status != FINAL_STATUS_USED").
Proof.
  intros Hfirst Hlater.
  assert (prerendering_has_been_cancelled_ (this s1) = true) as Hc.
  { apply Destroy_inv in Hfirst as [_ [[Hc ->]|(_ & _ & st & tc & t' & _ & _ & _ & ->)]];
      [done|]. apply Destroy_finished_fields. }
  split; [done|]. split; [|split].
  - induction Hlater as [|fs' later Hfs' _ IH]; [done|].
    simpl. rewrite bind_eq, Destroy_eq, (bool_decide_eq_true_2 _ Hfs'), Hc.
    exact IH.
  - intros between s2 fs' Hrun Hfs'.
    destruct (keeps_run_calls env' between _ _ _ Hrun) as [_ Hkeep].
    specialize (Hkeep Hc). split; [done|].
    by rewrite Destroy_eq, (bool_decide_eq_true_2 _ Hfs'), Hkeep.
  - by rewrite Destroy_eq.
Qed.

(** C3, as the code has it.  A [Destroy] with a reason on a record that
    is already cancelled returns at once: no call to the tracker,
    nothing written.  On a record that is not yet cancelled and whose
    final status is unset, it
    - once a pair is assigned, first calls the tracker's [TryCancel]
      with the pair and the requested reason, then its [GetFinalStatus],
      and records the status the tracker reports, whether or not it is
      the requested one; it returns exactly when the tracker grants the
      cancellation and knows the pair;
    - while no pair is assigned, records the requested reason itself and
      calls the tracker not at all (its first call is the manager's
      AddToHistory). *)
Theorem Destroy_adopts_tracker_status env fs s :
  fs ≠ FINAL_STATUS_USED →
  let child := child_id_ (this s) in
  let route := route_id_ (this s) in
  (prerendering_has_been_cancelled_ (this s) = true →
   Destroy env fs s = Ok (tt, s))
  ∧ (prerendering_has_been_cancelled_ (this s) = false →
     final_status_ (this s) = FINAL_STATUS_MAX →
     (pair_assigned (this s) = true →
      (∀ t' st,
         TryCancel child route fs (tracker s) = (true, t') →
         GetFinalStatus child route t' = Some st →
         st ≠ FINAL_STATUS_MAX →
         ∃ s' rest,
           Destroy env fs s = Ok (tt, s')
           ∧ calls s' = calls s ++ Tracker_TryCancel child route fs
                                :: Tracker_GetFinalStatus child route :: rest
           ∧ tracker s' = t'
           ∧ final_status_ (this s') = st
           ∧ prerendering_has_been_cancelled_ (this s') = true)
      ∧ (∀ s', Destroy env fs s = Ok (tt, s') →
           ∃ t', TryCancel child route fs (tracker s) = (true, t')
                 ∧ GetFinalStatus child route t'
                   = Some (final_status_ (this s'))))
     ∧ (pair_assigned (this s) = false →
        fs ≠ FINAL_STATUS_MAX →
        ∃ s' rest,
          Destroy env fs s = Ok (tt, s')
          ∧ calls s' = calls s ++ Manager_AddToHistory :: rest
          ∧ tracker s' = tracker s
          ∧ final_status_ (this s') = fs
          ∧ prerendering_has_been_cancelled_ (this s') = true)).
Proof.
  intros Hu child route. subst child route. split.
  { intros Hc. by rewrite Destroy_eq, (bool_decide_eq_true_2 _ Hu), Hc. }
  intros Hc Hf. split.
  - intros Hp. split.
    + intros t' st Htc Hg Hm.
      destruct (Destroy_live env fs s st) as (tc & t'' & Hd & _ & Hshape);
        try done.
      { unfold Destroy_status. by rewrite Hp, Htc. }
      rewrite Hp in Hshape. destruct Hshape as (-> & Htc' & _).
      rewrite Htc in Htc'. injection Htc' as <-.
      destruct (Destroy_finished_calls env st
                  [Tracker_TryCancel (child_id_ (this s)) (route_id_ (this s)) fs;
                   Tracker_GetFinalStatus (child_id_ (this s)) (route_id_ (this s))]
                  t' s) as [stops Hcalls].
      destruct (Destroy_finished_fields env st
                  [Tracker_TryCancel (child_id_ (this s)) (route_id_ (this s)) fs;
                   Tracker_GetFinalStatus (child_id_ (this s)) (route_id_ (this s))]
                  t' s)
        as (? & ? & _ & _ & _ & _ & ?).
      eexists _, _. split; [exact Hd|]. by rewrite Hcalls.
    + intros s' [_ [[Hc' _]|(_ & _ & st & tc & t' & Hst & _ & _ & ->)]]%Destroy_inv;
        [congruence|].
      unfold Destroy_status in Hst. rewrite Hp in Hst.
      destruct (TryCancel _ _ fs (tracker s)) as [[] t'']; [|done].
      exists t''. split; [done|].
      by destruct (Destroy_finished_fields env st tc t' s) as (-> & _).
  - intros Hp Hm.
    destruct (Destroy_live env fs s fs) as (tc & t' & Hd & _ & Hshape);
      try done.
    { unfold Destroy_status. by rewrite Hp. }
    rewrite Hp in Hshape. destruct Hshape as (-> & -> & _).
    destruct (Destroy_finished_calls env fs [] (tracker s) s) as [stops Hcalls].
    destruct (Destroy_finished_fields env fs [] (tracker s) s)
      as (? & ? & _ & _ & _ & _ & ?).
    eexists _, _. split; [exact Hd|]. by rewrite Hcalls.
Qed.

(* ===================================================================== *)
(** ** Eligibility, aliases, matching and commits                          *)
(* ===================================================================== *)

Lemma Destroy_status_no_pair fs s :
  pair_assigned (this s) = false → Destroy_status fs s = Some fs.
Proof. intros Hp. unfold Destroy_status. by rewrite Hp. Qed.

(** A [Destroy] with a reason on a live record whose status is unset
    cancels it with the status [Destroy_status] tells, and touches
    neither the aliases nor the alias broadcasts. *)
Lemma Destroy_cancels env fs s st :
  fs ≠ FINAL_STATUS_USED →
  prerendering_has_been_cancelled_ (this s) = false →
  final_status_ (this s) = FINAL_STATUS_MAX →
  Destroy_status fs s = Some st →
  st ≠ FINAL_STATUS_MAX →
  ∃ s', Destroy env fs s = Ok (tt, s')
        ∧ prerendering_has_been_cancelled_ (this s') = true
        ∧ final_status_ (this s') = st
        ∧ alias_urls_ (this s') = alias_urls_ (this s)
        ∧ filter is_add_alias (calls s') = filter is_add_alias (calls s).
Proof.
  intros Hu Hc Hf Hst Hm.
  destruct (Destroy_live env fs s st) as (tc & t' & Hd & Htc & _); try done.
  destruct (Destroy_finished_fields env st tc t' s) as (? & ? & ? & _).
  eexists. split; [exact Hd|]. repeat split; try done.
  by apply Destroy_finished_no_alias.
Qed.

(** A returning [Destroy] never touches the aliases or broadcasts one. *)
Lemma Destroy_keeps_aliases env fs s s' :
  Destroy env fs s = Ok (tt, s') →
  prerendering_has_been_cancelled_ (this s') = true
  ∧ alias_urls_ (this s') = alias_urls_ (this s)
  ∧ filter is_add_alias (calls s') = filter is_add_alias (calls s).
Proof.
  intros [_ [[Hc ->]|(_ & _ & st & tc & t' & _ & _ & Htc & ->)]]%Destroy_inv;
    [done|].
  destruct (Destroy_finished_fields env st tc t' s) as (? & ? & ? & _).
  repeat split; try done. by apply Destroy_finished_no_alias.
Qed.

Lemma Destroy_then_false env fs s s' :
  Destroy env fs s = Ok (tt, s') →
  (Destroy env fs ;; mret false) s = Ok (false, s').
Proof. intros Hd. by rewrite bind_eq, Hd. Qed.

(** C4, as the code has it.  For a URL whose scheme is neither http nor
    https, [AddAliasURL] on a record that is not replacement-pending is
    exactly [Destroy] with [FINAL_STATUS_UNSUPPORTED_SCHEME] and the
    answer false; a replacement-pending record is asserted never to be
    handed such a URL.  Whenever the call returns, it answers false, the
    record is cancelled, the alias set is as it was and no "alias added"
    message has been broadcast.  A fresh record (cancelled flag clear,
    final status unset) ends cancelled with the status [Destroy] settles
    on: [FINAL_STATUS_UNSUPPORTED_SCHEME] while no pair is assigned,
    otherwise what the tracker reports once the cancellation has been
    requested. *)
Theorem AddAliasURL_unsupported_scheme env url s :
  SchemeIs url kHttpScheme = false →
  SchemeIs url kHttpsScheme = false →
  (match_complete_status_ (this s) = MATCH_COMPLETE_REPLACEMENT_PENDING →
   AddAliasURL env url s
   = Crash (DCHECK_failed
              "MATCH_COMPLETE_REPLACEMENT_PENDING != match_complete_status_"))
  ∧ (match_complete_status_ (this s) ≠ MATCH_COMPLETE_REPLACEMENT_PENDING →
     AddAliasURL env url s
     = (Destroy env FINAL_STATUS_UNSUPPORTED_SCHEME ;; mret false) s
     ∧ (∀ accepted s', AddAliasURL env url s = Ok (accepted, s') →
          accepted = false
          ∧ prerendering_has_been_cancelled_ (this s') = true
          ∧ alias_urls_ (this s') = alias_urls_ (this s)
          ∧ filter is_add_alias (calls s') = filter is_add_alias (calls s))
     ∧ (prerendering_has_been_cancelled_ (this s) = false →
        final_status_ (this s) = FINAL_STATUS_MAX →
        (∀ st, Destroy_status FINAL_STATUS_UNSUPPORTED_SCHEME s = Some st →
               st ≠ FINAL_STATUS_MAX →
               ∃ s', AddAliasURL env url s = Ok (false, s')
                     ∧ prerendering_has_been_cancelled_ (this s') = true
                     ∧ final_status_ (this s') = st
                     ∧ alias_urls_ (this s') = alias_urls_ (this s)
                     ∧ filter is_add_alias (calls s')
                       = filter is_add_alias (calls s))
        ∧ (pair_assigned (this s) = false →
           ∃ s', AddAliasURL env url s = Ok (false, s')
                 ∧ prerendering_has_been_cancelled_ (this s') = true
                 ∧ final_status_ (this s') = FINAL_STATUS_UNSUPPORTED_SCHEME
                 ∧ alias_urls_ (this s') = alias_urls_ (this s)
                 ∧ filter is_add_alias (calls s')
                   = filter is_add_alias (calls s)))
     ∧ (pair_assigned (this s) = false →
        Destroy_status FINAL_STATUS_UNSUPPORTED_SCHEME s
        = Some FINAL_STATUS_UNSUPPORTED_SCHEME)
     ∧ (pair_assigned (this s) = true →
        ∀ t' st,
          TryCancel (child_id_ (this s)) (route_id_ (this s))
            FINAL_STATUS_UNSUPPORTED_SCHEME (tracker s) = (true, t') →
          GetFinalStatus (child_id_ (this s)) (route_id_ (this s)) t' = Some st →
          Destroy_status FINAL_STATUS_UNSUPPORTED_SCHEME s = Some st)).
Proof.
  intros Hhttp Hhttps.
  assert (AddAliasURL env url s
          = if bool_decide (match_complete_status_ (this s)
                            = MATCH_COMPLETE_REPLACEMENT_PENDING)
            then Crash (DCHECK_failed
                   "MATCH_COMPLETE_REPLACEMENT_PENDING != match_complete_status_")
            else (Destroy env FINAL_STATUS_UNSUPPORTED_SCHEME ;; mret false) s)
    as Heq.
  { rewrite AddAliasURL_eq, CheckURL_eq. simpl. rewrite Hhttp, Hhttps. simpl.
    case_bool_decide; [done|]. rewrite bind_eq.
    by destruct (Destroy env FINAL_STATUS_UNSUPPORTED_SCHEME s) as [[[] ?]|]. }
  split.
  { intros Hpend. by rewrite Heq, (bool_decide_eq_true_2 _ Hpend). }
  intros Hpend. rewrite (bool_decide_eq_false_2 _ Hpend) in Heq.
  assert (∀ st, prerendering_has_been_cancelled_ (this s) = false →
                final_status_ (this s) = FINAL_STATUS_MAX →
                Destroy_status FINAL_STATUS_UNSUPPORTED_SCHEME s = Some st →
                st ≠ FINAL_STATUS_MAX →
                ∃ s', AddAliasURL env url s = Ok (false, s')
                      ∧ prerendering_has_been_cancelled_ (this s') = true
                      ∧ final_status_ (this s') = st
                      ∧ alias_urls_ (this s') = alias_urls_ (this s)
                      ∧ filter is_add_alias (calls s')
                        = filter is_add_alias (calls s)) as Hlive.
  { intros st Hc Hf Hst Hm.
    destruct (Destroy_cancels env FINAL_STATUS_UNSUPPORTED_SCHEME s st)
      as (s' & Hd & Hrest); try done.
    exists s'. split; [|done].
    by rewrite Heq, (Destroy_then_false _ _ _ _ Hd). }
  split; [exact Heq|]. split; [|split; [|split]].
  - intros accepted s'. rewrite Heq.
    intros ([] & s1 & Hd & [= <- <-])%bind_Ok.
    split; [done|]. by apply Destroy_keeps_aliases in Hd.
  - intros Hc Hf. split; [intros st; by apply Hlive|].
    intros Hp. apply Hlive; try done. by apply Destroy_status_no_pair.
  - apply Destroy_status_no_pair.
  - intros Hp t' st Htc Hg. unfold Destroy_status. by rewrite Hp, Htc.
Qed.

(** The same call on a record that has its pair: the status recorded is
    the one the tracker reports. *)
Lemma started_AddAliasURL_bad_scheme env url s st :
  SchemeIs url kHttpScheme = false →
  SchemeIs url kHttpsScheme = false →
  prerendering_has_been_cancelled_ (this s) = false →
  final_status_ (this s) = FINAL_STATUS_MAX →
  match_complete_status_ (this s) ≠ MATCH_COMPLETE_REPLACEMENT_PENDING →
  Destroy_status FINAL_STATUS_UNSUPPORTED_SCHEME s = Some st →
  st ≠ FINAL_STATUS_MAX →
  ∃ s', AddAliasURL env url s = Ok (false, s')
        ∧ prerendering_has_been_cancelled_ (this s') = true
        ∧ final_status_ (this s') = st
        ∧ alias_urls_ (this s') = alias_urls_ (this s).
Proof.
  intros Hhttp Hhttps Hc Hf Hpend Hst Hm.
  destruct (Destroy_cancels env FINAL_STATUS_UNSUPPORTED_SCHEME s st)
    as (s' & Hd & ? & ? & ? & _); try done.
  exists s'. split; [|done].
  rewrite AddAliasURL_eq, CheckURL_eq. simpl. rewrite Hhttp, Hhttps. simpl.
  rewrite (bool_decide_eq_false_2 _ Hpend).
  by rewrite (Destroy_then_false _ _ _ _ Hd).
Qed.

Lemma count_if_nonzero (url : GURL) (l : list GURL) :
  count_if (λ alias, bool_decide (alias = url)) l ≠ 0 ↔ url ∈ l.
Proof.
  assert (∀ l', 0 ≤ count_if (λ alias, bool_decide (alias = url)) l') as Hnn.
  { induction l' as [|x l' IH]; simpl; [done|]. case_bool_decide; lia. }
  induction l as [|x l IH]; simpl.
  - split; [done|]. by intros ?%elem_of_nil.
  - rewrite elem_of_cons. case_bool_decide as E.
    + split; [by left|]. intros _. specialize (Hnn l). lia.
    + rewrite Z.add_0_l, IH. split; [by right|]. by intros [->|].
Qed.

(** C5. [Matches(url, ns)] is true if and only if [url] is one of the
    record's aliases and [ns] is null or has the id the record holds as
    its session storage namespace id. *)
Theorem Matches_iff p url (ns : option SessionStorageNamespace) :
  Matches p url ns = true
  ↔ url ∈ alias_urls_ p
    ∧ (ns = None
       ∨ ∃ n, ns = Some n ∧ ns_id n = session_storage_namespace_id_ p).
Proof.
  unfold Matches. destruct ns as [n|].
  - case_bool_decide as E.
    + split; [done|]. intros [_ [|(n' & [= <-] & E')]]; [done|]. by destruct E.
    + rewrite bool_decide_eq_true, count_if_nonzero.
      split; [intros ?; split; [done|right; by exists n] | by intros []].
  - rewrite bool_decide_eq_true, count_if_nonzero.
    split; [intros ?; split; [done|by left] | by intros []].
Qed.

(** C6, as the code has it.  A main-frame commit looks at the number of
    entries the hidden session's navigation controller holds.
    With more than one entry it is exactly [Destroy] with
    [FINAL_STATUS_NEW_NAVIGATION_ENTRY], whatever the aliases are: a
    record already cancelled is left as it is; a live one ends
    cancelled, with the status [Destroy] settles on (the requested one
    while no pair is assigned, otherwise what the tracker reports), and
    neither case adds or broadcasts an alias.
    With at most one entry it passes the redirect chain to
    [AddAliasURL] in order, stopping at the first rejection. *)
Theorem DidNavigateMainFrame_commit env params s web_contents :
  prerender_contents_ (this s) = Some web_contents →
  (GetEntryCount web_contents > 1 →
   DidNavigateMainFrame env params s
   = Destroy env FINAL_STATUS_NEW_NAVIGATION_ENTRY s
   ∧ (∀ s', DidNavigateMainFrame env params s = Ok (tt, s') →
        prerendering_has_been_cancelled_ (this s') = true
        ∧ alias_urls_ (this s') = alias_urls_ (this s)
        ∧ filter is_add_alias (calls s') = filter is_add_alias (calls s))
   ∧ (prerendering_has_been_cancelled_ (this s) = true →
      DidNavigateMainFrame env params s = Ok (tt, s))
   ∧ (prerendering_has_been_cancelled_ (this s) = false →
      final_status_ (this s) = FINAL_STATUS_MAX →
      ∀ st, Destroy_status FINAL_STATUS_NEW_NAVIGATION_ENTRY s = Some st →
            st ≠ FINAL_STATUS_MAX →
            ∃ s', DidNavigateMainFrame env params s = Ok (tt, s')
                  ∧ prerendering_has_been_cancelled_ (this s') = true
                  ∧ final_status_ (this s') = st)
   ∧ (pair_assigned (this s) = false →
      Destroy_status FINAL_STATUS_NEW_NAVIGATION_ENTRY s
      = Some FINAL_STATUS_NEW_NAVIGATION_ENTRY))
  ∧ (GetEntryCount web_contents ≤ 1 →
     DidNavigateMainFrame env params s
     = spec_walk_redirect_chain env (redirects params) s).
Proof.
  intros Hwc.
  assert (DidNavigateMainFrame env params s =
          if bool_decide (GetEntryCount web_contents > 1)
          then Destroy env FINAL_STATUS_NEW_NAVIGATION_ENTRY s
          else while_each (redirects params) (AddAliasURL env) s) as Heq.
  { unfold DidNavigateMainFrame. rewrite bind_eq. simpl. rewrite Hwc.
    rewrite bind_eq. simpl. case_bool_decide; [done|]. apply for_index_all. }
  split.
  - intros Hmany. rewrite Heq, (bool_decide_eq_true_2 _ Hmany).
    split; [done|]. split; [apply Destroy_keeps_aliases|].
    split; [|split].
    + intros Hc. by rewrite Destroy_eq, Hc.
    + intros Hc Hf st Hst Hm.
      destruct (Destroy_cancels env FINAL_STATUS_NEW_NAVIGATION_ENTRY s st)
        as (s' & Hd & ? & ? & _); try done.
      by exists s'.
    + apply Destroy_status_no_pair.
  - intros Hfew. rewrite Heq, bool_decide_eq_false_2 by lia.
    by rewrite spec_walk_while_each.
Qed.

(** C9, as the code has it.  [CheckURL] runs its three checks in order.
    - A URL that fails the scheme check, or the https check, on a record
      that is not replacement-pending: exactly [Destroy] with
      [FINAL_STATUS_UNSUPPORTED_SCHEME], or [FINAL_STATUS_HTTPS], and the
      answer false; on a replacement-pending record the same checks are
      made and a URL failing one violates the assertion that such a
      record never does.
    - A URL that passes both: on a replacement-pending record the
      answer is true and nothing changes, whatever the manager says of
      recent visits; on any other record the manager is asked, and a
      recently visited URL is exactly [Destroy] with
      [FINAL_STATUS_RECENTLY_VISITED] and the answer false: a record
      already cancelled is left as it is, a live one ends cancelled
      with the status [Destroy] settles on (the requested one while no
      pair is assigned, otherwise what the tracker reports). *)
Theorem CheckURL_recently_visited env url s :
  let pending :=
    match_complete_status_ (this s) = MATCH_COMPLETE_REPLACEMENT_PENDING in
  let asserts :=
    Crash (DCHECK_failed
             "MATCH_COMPLETE_REPLACEMENT_PENDING != match_complete_status_") in
  (SchemeIs url kHttpScheme = false → SchemeIs url kHttpsScheme = false →
   (¬ pending →
    CheckURL env url s
    = (Destroy env FINAL_STATUS_UNSUPPORTED_SCHEME ;; mret false) s)
   ∧ (pending → CheckURL env url s = asserts))
  ∧ (SchemeIs url kHttpsScheme = true → config_https_allowed env = false →
     (¬ pending →
      CheckURL env url s = (Destroy env FINAL_STATUS_HTTPS ;; mret false) s)
     ∧ (pending → CheckURL env url s = asserts))
  ∧ (SchemeIs url kHttpScheme = true
     ∨ (SchemeIs url kHttpsScheme = true ∧ config_https_allowed env = true) →
     (pending → CheckURL env url s = Ok (true, s))
     ∧ (¬ pending →
        HasRecentlyBeenNavigatedTo env (origin_ (this s)) url = false →
        CheckURL env url s = Ok (true, s))
     ∧ (¬ pending →
        HasRecentlyBeenNavigatedTo env (origin_ (this s)) url = true →
        CheckURL env url s
        = (Destroy env FINAL_STATUS_RECENTLY_VISITED ;; mret false) s
        ∧ (prerendering_has_been_cancelled_ (this s) = true →
           CheckURL env url s = Ok (false, s))
        ∧ (prerendering_has_been_cancelled_ (this s) = false →
           final_status_ (this s) = FINAL_STATUS_MAX →
           ∀ st, Destroy_status FINAL_STATUS_RECENTLY_VISITED s = Some st →
                 st ≠ FINAL_STATUS_MAX →
                 ∃ s', CheckURL env url s = Ok (false, s')
                       ∧ prerendering_has_been_cancelled_ (this s') = true
                       ∧ final_status_ (this s') = st
                       ∧ alias_urls_ (this s') = alias_urls_ (this s))
        ∧ (pair_assigned (this s) = false →
           Destroy_status FINAL_STATUS_RECENTLY_VISITED s
           = Some FINAL_STATUS_RECENTLY_VISITED))).
Proof.
  intros pending asserts. subst pending asserts.
  rewrite CheckURL_eq. simpl. split; [|split].
  - intros -> ->. simpl.
    split; intros Hp; [by rewrite (bool_decide_eq_false_2 _ Hp)
                      | by rewrite (bool_decide_eq_true_2 _ Hp)].
  - intros Hs ->. rewrite Hs. simpl.
    assert (SchemeIs url kHttpScheme = false) as ->.
    { unfold SchemeIs in *. apply bool_decide_eq_true_1 in Hs.
      apply bool_decide_eq_false_2. by rewrite Hs. }
    simpl.
    split; intros Hp; [by rewrite (bool_decide_eq_false_2 _ Hp)
                      | by rewrite (bool_decide_eq_true_2 _ Hp)].
  - intros Hok.
    assert (negb (SchemeIs url kHttpScheme) && negb (SchemeIs url kHttpsScheme)
            = false) as ->.
    { destruct Hok as [->|[-> _]]; [done|]. by rewrite andb_false_r. }
    assert (SchemeIs url kHttpsScheme && negb (config_https_allowed env)
            = false) as ->.
    { destruct Hok as [Hs|[_ ->]]; [|by rewrite andb_false_r].
      unfold SchemeIs in *. apply bool_decide_eq_true_1 in Hs.
      rewrite Hs. done. }
    split; [|split].
    + intros Hp. by rewrite (bool_decide_eq_true_2 _ Hp).
    + intros Hp ->. by rewrite andb_false_r.
    + intros Hp ->. rewrite (bool_decide_eq_false_2 _ Hp). simpl.
      split; [done|]. split; [|split].
      * intros Hc. by rewrite bind_eq, Destroy_eq, Hc.
      * intros Hc Hf st Hst Hm.
        destruct (Destroy_cancels env FINAL_STATUS_RECENTLY_VISITED s st)
          as (s' & Hd & ? & ? & ? & _); try done.
        exists s'. by rewrite (Destroy_then_false _ _ _ _ Hd).
      * apply Destroy_status_no_pair.
Qed.

(* ===================================================================== *)
(** ** History and replacement                                             *)
(* ===================================================================== *)

Lemma DidNavigate_each (entries : list HistoryAddPageArgs) s :
  for_each entries DidNavigate s
  = Ok (tt, mkSt (set_add_page_vector_ (add_page_vector_ (this s) ++ entries) (this s))
              (tracker s) (calls s)).
Proof.
  revert s. induction entries as [|e entries IH]; intros s; simpl.
  - rewrite app_nil_r. by destruct s as [[] ? ?].
  - rewrite bind_eq. simpl. rewrite IH. simpl. by rewrite <- app_assoc.
Qed.

Lemma CommitHistory_eq tab s :
  CommitHistory tab s
  = Ok (tt, mkSt (this s) (tracker s)
              (calls s ++ map (HistoryTabHelper_UpdateHistoryForNavigation tab)
                              (add_page_vector_ (this s)))).
Proof.
  unfold CommitHistory. rewrite bind_eq. simpl. rewrite for_index_all.
  generalize (add_page_vector_ (this s)) as v. revert s.
  intros s v. revert s. induction v as [|a v IH]; intros s; simpl.
  - by rewrite app_nil_r, St_eta.
  - rewrite !bind_eq. simpl. rewrite IH. simpl. by rewrite <- app_assoc.
Qed.

(** C7. Whatever entries [DidNavigate] is handed, none, one or many,
    they are appended to the record's vector in that order, and
    [CommitHistory] then makes exactly one UpdateHistoryForNavigation
    call on the target per accumulated entry, in insertion order,
    nothing lost, doubled or reordered; it returns and changes nothing
    else.  A record starts with no accumulated entry. *)
Theorem CommitHistory_replays_in_order url referrer origin experiment_id
    tab (entries : list HistoryAddPageArgs) s :
  add_page_vector_ (PrerenderContents_new url referrer origin experiment_id) = []
  ∧ ∃ s1,
      for_each entries DidNavigate s = Ok (tt, s1)
      ∧ add_page_vector_ (this s1) = add_page_vector_ (this s) ++ entries
      ∧ calls s1 = calls s
      ∧ CommitHistory tab s1
        = Ok (tt, mkSt (this s1) (tracker s1)
                    (calls s1
                     ++ map (HistoryTabHelper_UpdateHistoryForNavigation tab)
                            (add_page_vector_ (this s) ++ entries))).
Proof.
  split; [done|]. eexists. split; [apply DidNavigate_each|]. simpl.
  split; [done|]. split; [done|]. by rewrite CommitHistory_eq.
Qed.

Lemma CheckURL_pending env url s :
  match_complete_status_ (this s) = MATCH_COMPLETE_REPLACEMENT_PENDING →
  passes_scheme_checks env url →
  CheckURL env url s = Ok (true, s).
Proof.
  intros Hp Hok. rewrite CheckURL_eq. simpl.
  rewrite (bool_decide_eq_true_2 _ Hp).
  destruct Hok as [Hs|[-> ->]]; [|by rewrite andb_false_r].
  rewrite Hs. unfold SchemeIs in *. apply bool_decide_eq_true_1 in Hs.
  by rewrite Hs.
Qed.

Lemma CreateMatchCompleteReplacement_initialised_eq env s rest :
  alias_urls_ (this s) = prerender_url_ (this s) :: rest →
  passes_scheme_checks env (prerender_url_ (this s)) →
  CreateMatchCompleteReplacement_initialised env s
  = Ok (replacement_at_assertions (this s),
        mkSt (this s) (tracker s)
          (calls s ++ map (λ host, Host_Send_OnPrerenderAddAlias host
                                     (prerender_url_ (this s)))
                          (AllHosts env))).
Proof.
  intros Hfirst Hok.
  unfold CreateMatchCompleteReplacement_initialised.
  rewrite bind_eq. simpl. rewrite bind_eq. unfold on_object.
  rewrite bind_eq. simpl. unfold Init. rewrite bind_eq. simpl.
  rewrite AddAliasURL_eq, CheckURL_pending by done. simpl.
  rewrite bind_eq. simpl. rewrite Hfirst. simpl.
  rewrite bind_eq. simpl. rewrite bind_eq. simpl. rewrite bind_eq.
  by rewrite bool_decide_eq_true_2.
Qed.

(** C8. From a record whose first alias is its own URL, and whose URL
    passes the scheme and https checks (what the assertions of the
    function take for granted), [CreateMatchCompleteReplacement]
    returns.  At its assertions the clone is a newly constructed record
    with the original's configuration (URL, referrer, origin, experiment
    id, load start time, session storage namespace id), marked
    replacement-pending, with exactly one alias: the original's first
    alias, broadcast to every render process host by the clone's [Init].
    The record returned is that very clone with two members
    overwritten: its aliases are the original's aliases at that time,
    first alias included, and its match-complete status is
    [MATCH_COMPLETE_REPLACEMENT]; it is not the original (not started,
    not cancelled, no final status, no pair, no observers, no hidden
    session).  The original is as it was, and its observers have been
    told of the replacement. *)
Theorem CreateMatchCompleteReplacement_aliases env s rest :
  alias_urls_ (this s) = prerender_url_ (this s) :: rest →
  passes_scheme_checks env (prerender_url_ (this s)) →
  ∃ at_assertions s1 clone s',
    CreateMatchCompleteReplacement_initialised env s = Ok (at_assertions, s1)
    ∧ length (alias_urls_ at_assertions) = 1%nat
    ∧ head (alias_urls_ at_assertions) = head (alias_urls_ (this s))
    ∧ CreateMatchCompleteReplacement env s = Ok (clone, s')
    ∧ alias_urls_ clone = alias_urls_ (this s)
    ∧ head (alias_urls_ clone) = head (alias_urls_ at_assertions)
    ∧ match_complete_status_ clone = MATCH_COMPLETE_REPLACEMENT
    ∧ this s' = this s
    ∧ clone
      = set_match_complete_status_ MATCH_COMPLETE_REPLACEMENT
          (set_alias_urls_ (alias_urls_ (this s)) at_assertions)
    ∧ at_assertions
      = set_alias_urls_ [prerender_url_ (this s)]
          (set_match_complete_status_ MATCH_COMPLETE_REPLACEMENT_PENDING
             (set_clone_config_ (load_start_time_ (this s))
                (session_storage_namespace_id_ (this s))
                (PrerenderContents_new (prerender_url_ (this s))
                   (referrer_ (this s)) (origin_ (this s))
                   (experiment_id_ (this s)))))
    ∧ alias_urls_ at_assertions = [prerender_url_ (this s)]
    ∧ match_complete_status_ at_assertions = MATCH_COMPLETE_REPLACEMENT_PENDING
    ∧ (prerender_url_ clone = prerender_url_ (this s)
       ∧ referrer_ clone = referrer_ (this s)
       ∧ origin_ clone = origin_ (this s)
       ∧ experiment_id_ clone = experiment_id_ (this s)
       ∧ load_start_time_ clone = load_start_time_ (this s)
       ∧ session_storage_namespace_id_ clone
         = session_storage_namespace_id_ (this s))
    ∧ (prerendering_has_started_ clone = false
       ∧ prerendering_has_been_cancelled_ clone = false
       ∧ final_status_ clone = FINAL_STATUS_MAX
       ∧ child_id_ clone = -1
       ∧ route_id_ clone = -1
       ∧ observer_list_ clone = []
       ∧ add_page_vector_ clone = []
       ∧ prerender_contents_ clone = None)
    ∧ s1 = mkSt (this s) (tracker s)
             (calls s ++ map (λ host, Host_Send_OnPrerenderAddAlias host
                                        (prerender_url_ (this s)))
                             (AllHosts env))
    ∧ s' = mkSt (this s) (tracker s)
             (calls s1
              ++ map Observer_OnPrerenderCreatedMatchCompleteReplacement
                     (observer_list_ (this s))).
Proof.
  intros Hfirst Hok.
  pose proof (CreateMatchCompleteReplacement_initialised_eq env s rest Hfirst Hok)
    as Hinit.
  eexists _, _, _, _. split; [exact Hinit|].
  split; [done|]. split; [by rewrite Hfirst|].
  unfold CreateMatchCompleteReplacement.
  rewrite bind_eq, Hinit. simpl. rewrite bind_eq. simpl.
  unfold NotifyPrerenderCreatedMatchCompleteReplacement.
  rewrite !bind_eq. simpl. rewrite for_each_call. simpl.
  split; [reflexivity|]. simpl. rewrite Hfirst. by repeat split.
Qed.

Lemma on_object_this {A} other (m : M A) s r s' :
  on_object other m s = Ok (r, s') → this s' = this s.
Proof.
  unfold on_object. destruct (m _) as [[a s1]|]; [|done]. by intros [= _ <-].
Qed.

Lemma DCHECK_Ok c b s a s' : DCHECK c b s = Ok (a, s') → s' = s.
Proof. destruct b; [by intros [= _ <-] | done]. Qed.

Lemma front_Ok {A} (v : list A) s x s' : front v s = Ok (x, s') → s' = s.
Proof. destruct v; [done | by intros [= _ <-]]. Qed.

(** Whenever [CreateMatchCompleteReplacement] returns at all, the clone
    has the original's aliases and is the live replacement. *)
Lemma CreateMatchCompleteReplacement_returns env s clone s' :
  CreateMatchCompleteReplacement env s = Ok (clone, s') →
  alias_urls_ clone = alias_urls_ (this s)
  ∧ match_complete_status_ clone = MATCH_COMPLETE_REPLACEMENT
  ∧ this s' = this s.
Proof.
  unfold CreateMatchCompleteReplacement.
  intros (new & s1 & Hinit & Hrest)%bind_Ok.
  assert (this s1 = this s) as Hthis.
  { revert Hinit. unfold CreateMatchCompleteReplacement_initialised.
    intros (p & s2 & [= <- <-] & Hinit)%bind_Ok.
    apply bind_Ok in Hinit as ([b n] & s3 & <-%on_object_this & Hinit).
    apply bind_Ok in Hinit as ([] & s4 & ->%DCHECK_Ok & Hinit).
    apply bind_Ok in Hinit as (f1 & s5 & ->%front_Ok & Hinit).
    apply bind_Ok in Hinit as (f2 & s6 & ->%front_Ok & Hinit).
    apply bind_Ok in Hinit as ([] & s7 & ->%DCHECK_Ok & Hinit).
    apply bind_Ok in Hinit as ([] & s8 & ->%DCHECK_Ok & Hinit).
    by injection Hinit as _ <-. }
  apply bind_Ok in Hrest as (p & s2 & [= <- <-] & Hrest).
  apply bind_Ok in Hrest as ([] & s3 & Hn & [= <- <-]).
  revert Hn. unfold NotifyPrerenderCreatedMatchCompleteReplacement.
  rewrite bind_eq. simpl. rewrite for_each_call. intros [= <-]. simpl.
  by rewrite Hthis.
Qed.

End Verification.

(* ===================================================================== *)
(** ** The login-database shim                                             *)
(* ===================================================================== *)

(** C10, as the code has it.  On this platform [EncryptedString] answers
    [ENCRYPTION_RESULT_SUCCESS] and leaves the empty string as cipher
    text for every plaintext, and [DecryptedString] answers
    [ENCRYPTION_RESULT_SUCCESS] and leaves the empty string as plaintext
    for every cipher text.  So the round trip yields the empty string
    for every [p]: it is lossy (all plaintexts have the same round
    trip), and it gives [p] back exactly when [p] is itself empty. *)
Theorem LoginDatabase_round_trip_empties
    (p : LoginDatabase.string16) (cipher_text cipher_before : string)
    (plain_before : LoginDatabase.string16) :
  LoginDatabase.EncryptedString p cipher_before
  = (LoginDatabase.ENCRYPTION_RESULT_SUCCESS, EmptyString)
  ∧ LoginDatabase.DecryptedString cipher_text plain_before
    = (LoginDatabase.ENCRYPTION_RESULT_SUCCESS, [])
  ∧ LoginDatabase.round_trip p cipher_before plain_before = []
  ∧ (∀ q, LoginDatabase.round_trip q cipher_before plain_before
          = LoginDatabase.round_trip p cipher_before plain_before)
  ∧ (LoginDatabase.round_trip p cipher_before plain_before = p ↔ p = []).
Proof. repeat split; done. Qed.

(* ===================================================================== *)
(** ** The model run on concrete records                                   *)
(* ===================================================================== *)

(** With the tracker as the spec describes it, [Destroy] settles on the
    requested reason when the pair has no status yet, and on the
    recorded status when another caller has cancelled first. *)
Lemma TrackerMap_Destroy_status (fs recorded : FinalStatus)
    (s : St (gmap (Z * Z) FinalStatus)) :
  pair_assigned (this s) = true →
  tracker s !! (child_id_ (this s), route_id_ (this s)) = Some recorded →
  recorded ≠ FINAL_STATUS_USED →
  fs ≠ FINAL_STATUS_USED →
  fs ≠ FINAL_STATUS_MAX →
  Destroy_status fs s
  = Some (if bool_decide (recorded = FINAL_STATUS_MAX) then fs else recorded).
Proof.
  intros Hp Hl Hr Hu Hm. unfold Destroy_status. rewrite Hp. simpl.
  unfold TrackerMap_TryCancel, TrackerMap_GetFinalStatus. rewrite Hl.
  case_bool_decide.
  - rewrite bool_decide_eq_true_2 by done. apply lookup_insert_eq.
  - by rewrite (bool_decide_eq_true_2 _ Hr).
Qed.

(** The spec's example for [Matches]: aliases [https://a.com] and
    [https://a.com/redirected], namespace 5. *)
Example Matches_redirected :
  let p := this Sample.with_redirect in
  Matches p Sample.https_a_redirected (Some (mkNamespace 5)) = true
  ∧ Matches p Sample.https_a_redirected (Some (mkNamespace 6)) = false
  ∧ Matches p Sample.https_a_redirected None = true
  ∧ Matches p Sample.http_a None = false.
Proof. done. Qed.

(** Three entries accumulated on a fresh record, then committed into
    tab 4: three calls on the target, in the order of accumulation. *)
Example CommitHistory_three :
  (for_each [Sample.http_a; Sample.https_a; Sample.ftp_x] DidNavigate ;;
   CommitHistory 4%nat) Sample.fresh_state
  = Ok (tt,
        mkSt (set_add_page_vector_
                [Sample.http_a; Sample.https_a; Sample.ftp_x]
                (Sample.fresh Sample.http_a))
             ∅
             [HistoryTabHelper_UpdateHistoryForNavigation 4%nat Sample.http_a;
              HistoryTabHelper_UpdateHistoryForNavigation 4%nat Sample.https_a;
              HistoryTabHelper_UpdateHistoryForNavigation 4%nat Sample.ftp_x]).
Proof. vm_compute. reflexivity. Qed.

(** A redirect chain whose second URL is rejected: the first is added
    and broadcast, the second cancels the record, the third is never
    looked at. *)
Example DidNavigateMainFrame_stops_at_rejection :
  ∃ s', DidNavigateMainFrame Sample.env
          (mkFrameNavigateParams [Sample.https_a; Sample.ftp_x; Sample.http_visited])
          (Sample.started_idle 1) = Ok (tt, s')
        ∧ alias_urls_ (this s') = [Sample.http_a; Sample.https_a]
        ∧ final_status_ (this s') = FINAL_STATUS_UNSUPPORTED_SCHEME
        ∧ filter is_add_alias (calls s')
          = [Host_Send_OnPrerenderAddAlias 1%nat Sample.https_a;
             Host_Send_OnPrerenderAddAlias 2%nat Sample.https_a].
Proof. eexists. split; [vm_compute; reflexivity|]. done. Qed.

(** The final status of a fresh record, written once with
    [FINAL_STATUS_CANCELLED]; the second write asks for
    [FINAL_STATUS_TIMED_OUT]. *)
Lemma final_status_written_once_witness :
  FINAL_STATUS_CANCELLED ≠ FINAL_STATUS_MAX
  ∧ final_status_ (this Sample.fresh_state) = FINAL_STATUS_MAX
  ∧ final_status_ (PrerenderContents_new Sample.http_a "" ORIGIN_OMNIBOX 0)
    = FINAL_STATUS_MAX
  ∧ ∃ s', SetFinalStatus FINAL_STATUS_CANCELLED Sample.fresh_state = Ok (tt, s')
          ∧ final_status_ (this s') = FINAL_STATUS_CANCELLED
          ∧ (∃ c, SetFinalStatus FINAL_STATUS_TIMED_OUT s'
                  = Crash (DCHECK_failed c))
          ∧ (FINAL_STATUS_TIMED_OUT ≠ FINAL_STATUS_MAX →
             SetFinalStatus FINAL_STATUS_TIMED_OUT s'
             = Crash (DCHECK_failed "final_status_ == FINAL_STATUS_MAX"))
          ∧ ∀ cs s'', run_calls Sample.env cs s' = Ok (tt, s'') →
                      final_status_ (this s'') = FINAL_STATUS_CANCELLED
                      ∧ ∃ c, SetFinalStatus FINAL_STATUS_TIMED_OUT s''
                             = Crash (DCHECK_failed c).
Proof.
  split; [discriminate|]. split; [reflexivity|].
  apply (final_status_written_once Sample.env Sample.http_a "" ORIGIN_OMNIBOX 0
           FINAL_STATUS_CANCELLED FINAL_STATUS_TIMED_OUT Sample.fresh_state);
    [discriminate | reflexivity].
Defined.

(** A started record cancelled for a JavaScript alert, then asked to
    cancel twice more. *)
Lemma Destroy_idempotent_witness :
  Destroy Sample.env FINAL_STATUS_JAVASCRIPT_ALERT (Sample.started_idle 1)
  = Ok (tt, Sample.after_alert 1)
  ∧ Forall (λ fs', fs' ≠ FINAL_STATUS_USED)
      [FINAL_STATUS_CANCELLED; FINAL_STATUS_RENDERER_CRASHED]
  ∧ prerendering_has_been_cancelled_ (this (Sample.after_alert 1)) = true
  ∧ for_each [FINAL_STATUS_CANCELLED; FINAL_STATUS_RENDERER_CRASHED]
      (Destroy Sample.env) (Sample.after_alert 1)
    = Ok (tt, Sample.after_alert 1)
  ∧ (∀ between s2 fs',
       run_calls Sample.env between (Sample.after_alert 1) = Ok (tt, s2) →
       fs' ≠ FINAL_STATUS_USED →
       prerendering_has_been_cancelled_ (this s2) = true
       ∧ Destroy Sample.env fs' s2 = Ok (tt, s2))
  ∧ Destroy Sample.env FINAL_STATUS_USED (Sample.after_alert 1)
    = Crash (DCHECK_failed "final_status != FINAL_STATUS_USED").
Proof.
  assert (Destroy Sample.env FINAL_STATUS_JAVASCRIPT_ALERT (Sample.started_idle 1)
          = Ok (tt, Sample.after_alert 1)) as Hfirst by (vm_compute; reflexivity).
  assert (Forall (λ fs', fs' ≠ FINAL_STATUS_USED)
            [FINAL_STATUS_CANCELLED; FINAL_STATUS_RENDERER_CRASHED]) as Hlater
    by (repeat constructor; discriminate).
  split; [exact Hfirst|]. split; [exact Hlater|].
  exact (Destroy_idempotent Sample.env Sample.env FINAL_STATUS_JAVASCRIPT_ALERT
           _ _ _ Hfirst Hlater).
Defined.

(** C3, where the claim as stated fails: the record has its pair (7, 3)
    and has been cancelled by a first [Destroy]; a second [Destroy], with
    [FINAL_STATUS_CANCELLED], returns at once.  It makes no call at all,
    so no TryCancel with its reason and no GetFinalStatus, and the final
    status stays the one of the first call. *)
Lemma Destroy_again_skips_tracker :
  Destroy Sample.env FINAL_STATUS_JAVASCRIPT_ALERT (Sample.started_idle 1)
  = Ok (tt, Sample.after_alert 1)
  ∧ pair_assigned (this (Sample.after_alert 1)) = true
  ∧ Destroy Sample.env FINAL_STATUS_CANCELLED (Sample.after_alert 1)
    = Ok (tt, Sample.after_alert 1)
  ∧ calls (Sample.after_alert 1)
    = [Tracker_TryCancel 7 3 FINAL_STATUS_JAVASCRIPT_ALERT;
       Tracker_GetFinalStatus 7 3;
       Manager_AddToHistory;
       Manager_MoveEntryToPendingDelete FINAL_STATUS_JAVASCRIPT_ALERT;
       Observer_OnPrerenderStop 0%nat;
       Observer_OnPrerenderStop 1%nat]
  ∧ final_status_ (this (Sample.after_alert 1)) = FINAL_STATUS_JAVASCRIPT_ALERT.
Proof. repeat split; vm_compute; reflexivity. Qed.

(** A started record cancelled for a JavaScript alert after another
    thread has recorded [FINAL_STATUS_CANCELLED] for its pair: the
    tracker's status is the one recorded. *)
Lemma Destroy_adopts_tracker_status_witness :
  FINAL_STATUS_JAVASCRIPT_ALERT ≠ FINAL_STATUS_USED
  ∧ prerendering_has_been_cancelled_ (this (Sample.started_raced 1)) = false
  ∧ final_status_ (this (Sample.started_raced 1)) = FINAL_STATUS_MAX
  ∧ pair_assigned (this (Sample.started_raced 1)) = true
  ∧ TryCancel 7 3 FINAL_STATUS_JAVASCRIPT_ALERT Sample.tracker_raced
    = (true, Sample.tracker_raced)
  ∧ GetFinalStatus 7 3 Sample.tracker_raced = Some FINAL_STATUS_CANCELLED
  ∧ FINAL_STATUS_CANCELLED ≠ FINAL_STATUS_MAX
  ∧ ∃ s' rest,
      Destroy Sample.env FINAL_STATUS_JAVASCRIPT_ALERT (Sample.started_raced 1)
      = Ok (tt, s')
      ∧ calls s' = calls (Sample.started_raced 1)
                   ++ Tracker_TryCancel 7 3 FINAL_STATUS_JAVASCRIPT_ALERT
                      :: Tracker_GetFinalStatus 7 3 :: rest
      ∧ tracker s' = Sample.tracker_raced
      ∧ final_status_ (this s') = FINAL_STATUS_CANCELLED
      ∧ prerendering_has_been_cancelled_ (this s') = true.
Proof.
  split; [discriminate|]. split; [reflexivity|]. split; [reflexivity|].
  split; [reflexivity|]. split; [vm_compute; reflexivity|].
  split; [vm_compute; reflexivity|]. split; [discriminate|].
  destruct (Destroy_adopts_tracker_status Sample.env FINAL_STATUS_JAVASCRIPT_ALERT
              (Sample.started_raced 1)) as [_ Hlive]; [discriminate|].
  destruct Hlive as [[Hpair _] _]; [reflexivity | reflexivity | reflexivity |].
  apply (Hpair Sample.tracker_raced FINAL_STATUS_CANCELLED);
    [vm_compute; reflexivity | vm_compute; reflexivity | discriminate].
Defined.

(** The spec's example, ftp://x.com/a on a fresh record, and the same
    URL on a started record whose pair the tracker holds as cancelled. *)
Lemma AddAliasURL_unsupported_scheme_witness :
  SchemeIs Sample.ftp_x kHttpScheme = false
  ∧ SchemeIs Sample.ftp_x kHttpsScheme = false
  ∧ match_complete_status_ (this Sample.fresh_state)
    ≠ MATCH_COMPLETE_REPLACEMENT_PENDING
  ∧ prerendering_has_been_cancelled_ (this Sample.fresh_state) = false
  ∧ final_status_ (this Sample.fresh_state) = FINAL_STATUS_MAX
  ∧ pair_assigned (this Sample.fresh_state) = false
  ∧ (∃ s', AddAliasURL Sample.env Sample.ftp_x Sample.fresh_state = Ok (false, s')
           ∧ prerendering_has_been_cancelled_ (this s') = true
           ∧ final_status_ (this s') = FINAL_STATUS_UNSUPPORTED_SCHEME
           ∧ alias_urls_ (this s') = alias_urls_ (this Sample.fresh_state)
           ∧ filter is_add_alias (calls s')
             = filter is_add_alias (calls Sample.fresh_state))
  ∧ match_complete_status_ (this (Sample.started_raced 1))
    ≠ MATCH_COMPLETE_REPLACEMENT_PENDING
  ∧ prerendering_has_been_cancelled_ (this (Sample.started_raced 1)) = false
  ∧ final_status_ (this (Sample.started_raced 1)) = FINAL_STATUS_MAX
  ∧ Destroy_status FINAL_STATUS_UNSUPPORTED_SCHEME (Sample.started_raced 1)
    = Some FINAL_STATUS_CANCELLED
  ∧ FINAL_STATUS_CANCELLED ≠ FINAL_STATUS_MAX
  ∧ (∃ s', AddAliasURL Sample.env Sample.ftp_x (Sample.started_raced 1)
           = Ok (false, s')
           ∧ prerendering_has_been_cancelled_ (this s') = true
           ∧ final_status_ (this s') = FINAL_STATUS_CANCELLED
           ∧ alias_urls_ (this s') = alias_urls_ (this (Sample.started_raced 1))
           ∧ filter is_add_alias (calls s')
             = filter is_add_alias (calls (Sample.started_raced 1))).
Proof.
  split; [reflexivity|]. split; [reflexivity|]. split; [discriminate|].
  split; [reflexivity|]. split; [reflexivity|]. split; [reflexivity|].
  split.
  { destruct (AddAliasURL_unsupported_scheme Sample.env Sample.ftp_x
                Sample.fresh_state) as [_ Hlive]; [reflexivity | reflexivity |].
    destruct Hlive as (_ & _ & Hfresh & _); [discriminate|].
    destruct Hfresh as [_ Hno_pair]; [reflexivity | reflexivity |].
    apply Hno_pair. reflexivity. }
  split; [discriminate|]. split; [reflexivity|]. split; [reflexivity|].
  split; [vm_compute; reflexivity|]. split; [discriminate|].
  destruct (AddAliasURL_unsupported_scheme Sample.env Sample.ftp_x
              (Sample.started_raced 1)) as [_ Hlive]; [reflexivity | reflexivity |].
  destruct Hlive as (_ & _ & Hfresh & _); [discriminate|].
  destruct Hfresh as [Hsettled _]; [reflexivity | reflexivity |].
  apply Hsettled; [vm_compute; reflexivity | discriminate].
Defined.

(** C4, where the claim as stated fails.  ftp://x.com/a is neither http
    nor https, and the record is not yet cancelled: its flag is clear
    and its final status unset.  It has been started, so it has its
    pair (7, 3), and another thread has already recorded
    [FINAL_STATUS_CANCELLED] for that pair in the tracker.
    [AddAliasURL] answers false and leaves the aliases as they were, but
    the record ends with the tracker's status, not with
    [FINAL_STATUS_UNSUPPORTED_SCHEME]. *)
Lemma raced_AddAliasURL_records_other_status :
  SchemeIs Sample.ftp_x kHttpScheme = false
  ∧ SchemeIs Sample.ftp_x kHttpsScheme = false
  ∧ prerendering_has_been_cancelled_ (this (Sample.started_raced 1)) = false
  ∧ final_status_ (this (Sample.started_raced 1)) = FINAL_STATUS_MAX
  ∧ match_complete_status_ (this (Sample.started_raced 1)) = MATCH_COMPLETE_DEFAULT
  ∧ GetFinalStatus 7 3 (tracker (Sample.started_raced 1))
    = Some FINAL_STATUS_CANCELLED
  ∧ ∃ s', AddAliasURL Sample.env Sample.ftp_x (Sample.started_raced 1)
          = Ok (false, s')
          ∧ prerendering_has_been_cancelled_ (this s') = true
          ∧ alias_urls_ (this s') = alias_urls_ (this (Sample.started_raced 1))
          ∧ final_status_ (this s') = FINAL_STATUS_CANCELLED
          ∧ final_status_ (this s') ≠ FINAL_STATUS_UNSUPPORTED_SCHEME.
Proof.
  split; [done|]. split; [done|]. split; [done|]. split; [done|].
  split; [done|]. split; [vm_compute; reflexivity|].
  eexists. split; [vm_compute; reflexivity|]. done.
Qed.

(** The same URL on a started record nobody has cancelled: the tracker
    is asked, grants, and the record ends with the requested status. *)
Example AddAliasURL_ftp_on_started :
  ∃ s', AddAliasURL Sample.env Sample.ftp_x (Sample.started_idle 1) = Ok (false, s')
        ∧ final_status_ (this s') = FINAL_STATUS_UNSUPPORTED_SCHEME
        ∧ alias_urls_ (this s') = [Sample.http_a]
        ∧ tracker s' !! (7, 3) = Some FINAL_STATUS_UNSUPPORTED_SCHEME.
Proof. eexists. split; [vm_compute; reflexivity|]. done. Qed.

(** C6, where the claim as stated fails.  The hidden session holds two
    entries.  On a live record whose pair another thread has already
    cancelled in the tracker, the commit leaves the record cancelled
    with the tracker's status, [FINAL_STATUS_CANCELLED]; on a record
    already cancelled with [FINAL_STATUS_JAVASCRIPT_ALERT] the commit
    changes nothing.  Neither ends with
    [FINAL_STATUS_NEW_NAVIGATION_ENTRY]. *)
Lemma raced_commit_records_other_status :
  let params := mkFrameNavigateParams [Sample.http_a] in
  GetEntryCount (mkWebContents 2) > 1
  ∧ (∃ s', DidNavigateMainFrame Sample.env params (Sample.started_raced 2)
           = Ok (tt, s')
           ∧ prerendering_has_been_cancelled_ (this s') = true
           ∧ final_status_ (this s') = FINAL_STATUS_CANCELLED
           ∧ final_status_ (this s') ≠ FINAL_STATUS_NEW_NAVIGATION_ENTRY)
  ∧ DidNavigateMainFrame Sample.env params (Sample.after_alert 2)
    = Ok (tt, Sample.after_alert 2)
  ∧ final_status_ (this (Sample.after_alert 2)) = FINAL_STATUS_JAVASCRIPT_ALERT
  ∧ final_status_ (this (Sample.after_alert 2))
    ≠ FINAL_STATUS_NEW_NAVIGATION_ENTRY.
Proof.
  split; [done|]. split.
  - eexists. split; [vm_compute; reflexivity|]. done.
  - split; [vm_compute; reflexivity|]. done.
Qed.

(** A commit on a hidden session with two entries, and one on a hidden
    session with a single entry. *)
Lemma DidNavigateMainFrame_commit_witness :
  let chain := mkFrameNavigateParams [Sample.http_a; Sample.ftp_x; Sample.https_a] in
  prerender_contents_ (this (Sample.started_idle 2)) = Some (mkWebContents 2)
  ∧ GetEntryCount (mkWebContents 2) > 1
  ∧ prerendering_has_been_cancelled_ (this (Sample.started_idle 2)) = false
  ∧ final_status_ (this (Sample.started_idle 2)) = FINAL_STATUS_MAX
  ∧ Destroy_status FINAL_STATUS_NEW_NAVIGATION_ENTRY (Sample.started_idle 2)
    = Some FINAL_STATUS_NEW_NAVIGATION_ENTRY
  ∧ FINAL_STATUS_NEW_NAVIGATION_ENTRY ≠ FINAL_STATUS_MAX
  ∧ (∃ s', DidNavigateMainFrame Sample.env chain (Sample.started_idle 2)
           = Ok (tt, s')
           ∧ prerendering_has_been_cancelled_ (this s') = true
           ∧ final_status_ (this s') = FINAL_STATUS_NEW_NAVIGATION_ENTRY)
  ∧ prerender_contents_ (this (Sample.started_idle 1)) = Some (mkWebContents 1)
  ∧ GetEntryCount (mkWebContents 1) ≤ 1
  ∧ DidNavigateMainFrame Sample.env chain (Sample.started_idle 1)
    = spec_walk_redirect_chain Sample.env (redirects chain) (Sample.started_idle 1).
Proof.
  intros chain.
  split; [reflexivity|]. split; [reflexivity|]. split; [reflexivity|].
  split; [reflexivity|]. split; [vm_compute; reflexivity|].
  split; [discriminate|]. split.
  - destruct (DidNavigateMainFrame_commit Sample.env chain (Sample.started_idle 2)
                (mkWebContents 2)) as [Hmany _]; [reflexivity|].
    destruct Hmany as (_ & _ & _ & Hlive & _); [reflexivity|].
    apply Hlive;
      [reflexivity | reflexivity | vm_compute; reflexivity | discriminate].
  - split; [reflexivity|]. split; [discriminate|].
    destruct (DidNavigateMainFrame_commit Sample.env chain (Sample.started_idle 1)
                (mkWebContents 1)) as [_ Hfew]; [reflexivity|].
    apply Hfew. discriminate.
Defined.

(** A replacement for a started record that has collected a redirect
    alias: the clone has both aliases, and is a new record built on the
    one that had a single alias at the assertions. *)
Lemma CreateMatchCompleteReplacement_aliases_witness :
  alias_urls_ (this Sample.with_redirect)
  = prerender_url_ (this Sample.with_redirect) :: [Sample.https_a_redirected]
  ∧ passes_scheme_checks Sample.env (prerender_url_ (this Sample.with_redirect))
  ∧ prerendering_has_started_ (this Sample.with_redirect) = true
  ∧ pair_assigned (this Sample.with_redirect) = true
  ∧ ∃ at_assertions s1 clone s',
      CreateMatchCompleteReplacement_initialised Sample.env Sample.with_redirect
      = Ok (at_assertions, s1)
      ∧ alias_urls_ at_assertions = [Sample.https_a]
      ∧ match_complete_status_ at_assertions = MATCH_COMPLETE_REPLACEMENT_PENDING
      ∧ CreateMatchCompleteReplacement Sample.env Sample.with_redirect
        = Ok (clone, s')
      ∧ clone
        = set_match_complete_status_ MATCH_COMPLETE_REPLACEMENT
            (set_alias_urls_ [Sample.https_a; Sample.https_a_redirected]
               at_assertions)
      ∧ alias_urls_ clone = [Sample.https_a; Sample.https_a_redirected]
      ∧ match_complete_status_ clone = MATCH_COMPLETE_REPLACEMENT
      ∧ prerendering_has_started_ clone = false
      ∧ pair_assigned clone = false
      ∧ observer_list_ clone = []
      ∧ this s' = this Sample.with_redirect.
Proof.
  assert (passes_scheme_checks Sample.env
            (prerender_url_ (this Sample.with_redirect))) as Hok
    by (right; split; reflexivity).
  split; [reflexivity|]. split; [exact Hok|]. split; [reflexivity|].
  split; [reflexivity|].
  destruct (CreateMatchCompleteReplacement_aliases Sample.env Sample.with_redirect
              [Sample.https_a_redirected] eq_refl Hok)
    as (at_assertions & s1 & clone & s' & Hinit & _ & _ & Hclone & Haliases
        & _ & Hstatus & Hthis & Hbuilt & _ & Hone & Hpending & _
        & (Hstarted & _ & _ & Hchild & Hroute & Hobservers & _) & _).
  exists at_assertions, s1, clone, s'.
  split; [exact Hinit|]. split; [exact Hone|]. split; [exact Hpending|].
  split; [exact Hclone|]. split; [exact Hbuilt|]. split; [exact Haliases|].
  split; [exact Hstatus|]. split; [exact Hstarted|].
  split; [unfold pair_assigned; rewrite Hchild; reflexivity|].
  split; [exact Hobservers | exact Hthis].
Defined.

(** C9, where the claim as stated fails.  [http_visited] is an http URL
    the manager reports as recently visited, and neither record is
    replacement-pending.  On a live record whose pair another thread
    has already cancelled in the tracker, [CheckURL] answers false and
    leaves the record cancelled with the tracker's status,
    [FINAL_STATUS_CANCELLED]; on a record already cancelled with
    [FINAL_STATUS_JAVASCRIPT_ALERT] it answers false and changes
    nothing.  Neither ends with [FINAL_STATUS_RECENTLY_VISITED]. *)
Lemma raced_CheckURL_records_other_status :
  SchemeIs Sample.http_visited kHttpScheme = true
  ∧ HasRecentlyBeenNavigatedTo Sample.env ORIGIN_OMNIBOX Sample.http_visited = true
  ∧ match_complete_status_ (this (Sample.started_raced 1)) = MATCH_COMPLETE_DEFAULT
  ∧ (∃ s', CheckURL Sample.env Sample.http_visited (Sample.started_raced 1)
           = Ok (false, s')
           ∧ prerendering_has_been_cancelled_ (this s') = true
           ∧ final_status_ (this s') = FINAL_STATUS_CANCELLED
           ∧ final_status_ (this s') ≠ FINAL_STATUS_RECENTLY_VISITED)
  ∧ match_complete_status_ (this (Sample.after_alert 1)) = MATCH_COMPLETE_DEFAULT
  ∧ CheckURL Sample.env Sample.http_visited (Sample.after_alert 1)
    = Ok (false, Sample.after_alert 1)
  ∧ final_status_ (this (Sample.after_alert 1)) = FINAL_STATUS_JAVASCRIPT_ALERT
  ∧ final_status_ (this (Sample.after_alert 1)) ≠ FINAL_STATUS_RECENTLY_VISITED.
Proof.
  split; [done|]. split; [done|]. split; [done|]. split.
  - eexists. split; [vm_compute; reflexivity|]. done.
  - split; [done|]. split; [vm_compute; reflexivity|]. done.
Qed.

(** A recently visited http URL on a started record and on a
    replacement-pending one, and an ftp URL on the latter. *)
Lemma CheckURL_recently_visited_witness :
  (SchemeIs Sample.http_visited kHttpScheme = true
   ∨ (SchemeIs Sample.http_visited kHttpsScheme = true
      ∧ config_https_allowed Sample.env = true))
  ∧ match_complete_status_ (this (Sample.started_idle 1))
    ≠ MATCH_COMPLETE_REPLACEMENT_PENDING
  ∧ HasRecentlyBeenNavigatedTo Sample.env
      (origin_ (this (Sample.started_idle 1))) Sample.http_visited = true
  ∧ prerendering_has_been_cancelled_ (this (Sample.started_idle 1)) = false
  ∧ final_status_ (this (Sample.started_idle 1)) = FINAL_STATUS_MAX
  ∧ Destroy_status FINAL_STATUS_RECENTLY_VISITED (Sample.started_idle 1)
    = Some FINAL_STATUS_RECENTLY_VISITED
  ∧ FINAL_STATUS_RECENTLY_VISITED ≠ FINAL_STATUS_MAX
  ∧ (∃ s', CheckURL Sample.env Sample.http_visited (Sample.started_idle 1)
           = Ok (false, s')
           ∧ prerendering_has_been_cancelled_ (this s') = true
           ∧ final_status_ (this s') = FINAL_STATUS_RECENTLY_VISITED
           ∧ alias_urls_ (this s') = alias_urls_ (this (Sample.started_idle 1)))
  ∧ match_complete_status_ (this Sample.pending_state)
    = MATCH_COMPLETE_REPLACEMENT_PENDING
  ∧ CheckURL Sample.env Sample.http_visited Sample.pending_state
    = Ok (true, Sample.pending_state)
  ∧ SchemeIs Sample.ftp_x kHttpScheme = false
  ∧ SchemeIs Sample.ftp_x kHttpsScheme = false
  ∧ CheckURL Sample.env Sample.ftp_x Sample.pending_state
    = Crash (DCHECK_failed
               "MATCH_COMPLETE_REPLACEMENT_PENDING != match_complete_status_").
Proof.
  split; [left; reflexivity|]. split; [discriminate|]. split; [reflexivity|].
  split; [reflexivity|]. split; [reflexivity|].
  split; [vm_compute; reflexivity|]. split; [discriminate|]. split.
  - destruct (CheckURL_recently_visited Sample.env Sample.http_visited
                (Sample.started_idle 1)) as (_ & _ & Hpasses).
    destruct Hpasses as (_ & _ & Hvisited); [left; reflexivity|].
    destruct Hvisited as (_ & _ & Hlive & _); [discriminate | reflexivity |].
    apply Hlive;
      [reflexivity | reflexivity | vm_compute; reflexivity | discriminate].
  - split; [reflexivity|]. split.
    + destruct (CheckURL_recently_visited Sample.env Sample.http_visited
                  Sample.pending_state) as (_ & _ & Hpasses).
      destruct Hpasses as (Hpending & _); [left; reflexivity|].
      apply Hpending. reflexivity.
    + split; [reflexivity|]. split; [reflexivity|].
      destruct (CheckURL_recently_visited Sample.env Sample.ftp_x
                  Sample.pending_state) as (Hscheme & _).
      destruct Hscheme as (_ & Hpending); [reflexivity | reflexivity |].
      apply Hpending. reflexivity.
Defined.

(** C10, where the claim as stated fails: the empty plaintext comes back
    from the round trip as it went in, so "never recovering p" does not
    hold of every p. *)
Lemma LoginDatabase_round_trip_recovers_empty :
  LoginDatabase.round_trip [] "stale" [104; 105] = []
  ∧ ¬ (LoginDatabase.round_trip [] "stale" [104; 105] ≠ []).
Proof. split; [reflexivity|]. intros Hne. by apply Hne. Qed.

(* ===================================================================== *)
(** * The life cycle as a whole                                            *)
(* ===================================================================== *)

Section LifecycleFacts.

Context {T : Type} `{!PrerenderTracker T}.
Local Abbreviation M := (@M T).
Local Abbreviation ensures := (@ensures T).
Local Abbreviation moves := (@moves T).
Implicit Types (s : St T) (env : Env) (p : PrerenderContents).

(* --------------------------------------------------------------------- *)
(** *** Method bodies under any reflexive and transitive relation          *)
(* --------------------------------------------------------------------- *)

Section Ensures.

Variable R : St T → St T → Prop.
Hypothesis R_refl : ∀ s, R s s.
Hypothesis R_trans : ∀ s1 s2 s3, R s1 s2 → R s2 s3 → R s1 s3.

Lemma ensures_ret {A} (a : A) : ensures R (mret a : M A).
Proof. intros s a' s' [= _ <-]. apply R_refl. Qed.

Lemma ensures_crash {A} e : ensures R (crash e : M A).
Proof. by intros s a s'. Qed.

Lemma ensures_bind {A B} (m : M A) (f : A → M B) :
  ensures R m → (∀ a, ensures R (f a)) → ensures R (m ≫= f).
Proof.
  intros Hm Hf s b s' (a & s1 & H1 & H2)%bind_Ok.
  eapply R_trans; [by eapply Hm | by eapply Hf].
Qed.


Lemma ensures_get_this : ensures R (get_this : M _).
Proof. intros s a s' [= _ <-]. apply R_refl. Qed.

Lemma ensures_DCHECK c b : ensures R (DCHECK c b : M _).
Proof. destruct b; [apply ensures_ret | apply ensures_crash]. Qed.

Lemma ensures_deref {A} (o : option A) : ensures R (deref o : M _).
Proof. destruct o; [apply ensures_ret | apply ensures_crash]. Qed.

Lemma ensures_front {A} (v : list A) : ensures R (front v : M _).
Proof. destruct v; [apply ensures_crash | apply ensures_ret]. Qed.

Lemma ensures_for_each {A} (l : list A) (body : A → M unit) :
  (∀ x, ensures R (body x)) → ensures R (for_each l body).
Proof.
  intros Hb. induction l; simpl; [apply ensures_ret|].
  apply ensures_bind; auto.
Qed.

Lemma ensures_while_each {A} (l : list A) (body : A → M bool) :
  (∀ x, ensures R (body x)) → ensures R (while_each l body).
Proof.
  intros Hb. induction l; simpl; [apply ensures_ret|].
  apply ensures_bind; [auto|]. intros []; [done | apply ensures_ret].
Qed.

End Ensures.

(* --------------------------------------------------------------------- *)
(** *** Every method moves by lifecycle steps                              *)
(* --------------------------------------------------------------------- *)

Lemma moves_once env s s' : lifecycle_step env s s' → moves env s s'.
Proof. apply rtc_once. Qed.

Lemma CheckURL_cases env url s b s' :
  CheckURL env url s = Ok (b, s') →
  b = CheckURL_verdict env (this s) url
  ∧ (if b then s' = s else ∃ fs, Destroy env fs s = Ok (tt, s')).
Proof.
  rewrite CheckURL_eq. unfold CheckURL_verdict. simpl.
  assert (∀ fs, (Destroy env fs ;; mret false) s = Ok (b, s') →
                b = false ∧ ∃ fs', Destroy env fs' s = Ok (tt, s')) as Hrej.
  { intros fs ([] & s1 & Hd & [= <- <-])%bind_Ok. split; [done|]. by exists fs. }
  destruct (negb (SchemeIs url kHttpScheme) && negb (SchemeIs url kHttpsScheme)).
  { case_bool_decide; [done|]. by intros [-> ?]%Hrej. }
  destruct (SchemeIs url kHttpsScheme && negb (config_https_allowed env)).
  { case_bool_decide; [done|]. by intros [-> ?]%Hrej. }
  simpl.
  assert (bool_decide (match_complete_status_ (this s)
                       ≠ MATCH_COMPLETE_REPLACEMENT_PENDING)
          = negb (bool_decide (match_complete_status_ (this s)
                               = MATCH_COMPLETE_REPLACEMENT_PENDING))) as ->.
  { by repeat case_bool_decide. }
  destruct (negb _ && _).
  - by intros [-> ?]%Hrej.
  - by intros [= <- <-].
Qed.

(** A returning [Destroy] either found the record cancelled or made the
    cancelling step. *)
Lemma Destroy_moves env fs s s' :
  Destroy env fs s = Ok (tt, s') → s' = s ∨ lifecycle_step env s s'.
Proof.
  rewrite Destroy_eq. case_bool_decide; [|done].
  destruct (prerendering_has_been_cancelled_ (this s)) eqn:Hc.
  { intros [= <-]. by left. }
  unfold Destroy_settle.
  destruct (pair_assigned (this s)).
  - destruct (TryCancel _ _ _ _) as [[] t']; [|done].
    destruct (GetFinalStatus _ _ _) as [st|]; [|done].
    repeat case_bool_decide; try done. intros [= <-]. right.
    apply step_cancel; try done. by repeat constructor.
  - repeat case_bool_decide; try done. intros [= <-]. right.
    by apply step_cancel.
Qed.

Lemma ensures_Destroy env fs : ensures (moves env) (Destroy env fs).
Proof.
  intros s [] s' [->|Hstep]%Destroy_moves; [done | by apply moves_once].
Qed.

Lemma ensures_CheckURL env url : ensures (moves env) (CheckURL env url).
Proof.
  intros s b s' [_ Hcase]%CheckURL_cases. destruct b.
  - by subst.
  - destruct Hcase as [fs Hd]. by eapply ensures_Destroy.
Qed.

Lemma AddAliasURL_cases env url s b s' :
  AddAliasURL env url s = Ok (b, s') →
  b = CheckURL_verdict env (this s) url
  ∧ (if b
     then s' = mkSt (set_alias_urls_ (alias_urls_ (this s) ++ [url]) (this s))
                 (tracker s)
                 (calls s ++ map (λ host, Host_Send_OnPrerenderAddAlias host url)
                                 (AllHosts env))
     else ∃ fs, Destroy env fs s = Ok (tt, s')).
Proof.
  rewrite AddAliasURL_eq.
  destruct (CheckURL env url s) as [[[] s1]|] eqn:Hc; [| |done].
  - apply CheckURL_cases in Hc as [Hv ->]. by intros [= <- <-].
  - apply CheckURL_cases in Hc as [Hv Hd]. by intros [= <- <-].
Qed.

Lemma ensures_AddAliasURL env url : ensures (moves env) (AddAliasURL env url).
Proof.
  intros s b s' [Hv Hcase]%AddAliasURL_cases. destruct b.
  - subst s'. by apply moves_once, step_alias.
  - destruct Hcase as [fs Hd]. by eapply ensures_Destroy.
Qed.


Lemma ensures_notify env (f : Observer → Event) :
  (∀ o observers, o ∈ observers → reports_to observers (f o) = true) →
  ensures (moves env)
    (p ← get_this; for_each (observer_list_ p) (λ o, call (f o))).
Proof.
  intros Hf s [] s'. rewrite bind_eq. simpl. rewrite for_each_call.
  intros [= <-]. apply moves_once, step_report.
  apply Forall_map, Forall_forall. intros o Ho. by apply Hf.
Qed.

(** The part of [CreateMatchCompleteReplacement] that runs on the clone
    only broadcasts the clone's first alias. *)
Lemma clone_Init_moves env other s r s' :
  on_object other
    (set_match_complete_status MATCH_COMPLETE_REPLACEMENT_PENDING ;; Init env) s
  = Ok (r, s') →
  moves env s s'.
Proof.
  unfold on_object. rewrite bind_eq. simpl. unfold Init. rewrite bind_eq. simpl.
  rewrite AddAliasURL_eq, CheckURL_eq. simpl.
  repeat match goal with
         | |- context [if ?b then _ else _] => destruct b
         end; try done; simpl; intros [= <- <-];
    try (apply moves_once;
         match goal with
         | |- lifecycle_step _ ?s0 (mkSt _ _ (_ ++ ?l)) =>
             apply (step_report env s0 l)
         end; by apply Forall_map, Forall_forall).
  all: rewrite St_eta; done.
Qed.

Lemma ensures_CreateMatchCompleteReplacement env :
  ensures (moves env) (CreateMatchCompleteReplacement env).
Proof.
  assert (∀ s, moves env s s) as Hrefl by done.
  assert (∀ s1 s2 s3, moves env s1 s2 → moves env s2 s3 → moves env s1 s3)
    as Htrans by (intros; by etrans).
  unfold CreateMatchCompleteReplacement, CreateMatchCompleteReplacement_initialised,
    NotifyPrerenderCreatedMatchCompleteReplacement.
  apply ensures_bind; [done..| |].
  - apply ensures_bind; [done..|apply ensures_get_this; done|]. intros p.
    apply ensures_bind; [done..| |].
    + intros s r s'. apply clone_Init_moves.
    + intros [did_init new_contents].
      repeat first
        [ apply ensures_bind; [done..| |]
        | apply ensures_DCHECK; done
        | apply ensures_front; done
        | apply ensures_ret; done
        | intros ? ].
  - intros new_contents.
    apply ensures_bind; [done..|apply ensures_get_this; done|]. intros p.
    apply ensures_bind; [done..| |intros; apply ensures_ret; done].
    apply ensures_notify. intros o observers Ho. simpl. by case_bool_decide.
Qed.

(** Every returning call into the object is a sequence of lifecycle
    steps. *)
Lemma run_call_moves env c : ensures (moves env) (run_call env c).
Proof.
  assert (∀ s, moves env s s) as Hrefl by done.
  assert (∀ s1 s2 s3, moves env s1 s2 → moves env s2 s3 → moves env s1 s3)
    as Htrans by (intros; by etrans).
  assert (∀ b, ensures (moves env) (mret b : M bool)) as Hretb
    by (intros; by apply ensures_ret).
  assert (ensures (moves env) (mret tt : M unit)) as Hret
    by (by apply ensures_ret).
  destruct c; simpl.
  - intros s [] s'. rewrite SetFinalStatus_eq.
    repeat case_bool_decide; try done. intros [= <-].
    by apply moves_once, step_final_status.
  - intros s [] s' [= <-]. apply moves_once, step_match_complete_status.
  - intros s [] s'. unfold AddObserver. rewrite bind_eq. simpl. rewrite bind_eq.
    case_bool_decide; [|done]. simpl. intros [= <-].
    by apply moves_once, step_observer.
  - apply ensures_Destroy.
  - apply ensures_bind; [done..|apply ensures_CheckURL|done].
  - apply ensures_bind; [done..|apply ensures_AddAliasURL|done].
  - apply ensures_bind; [done..| |done].
    apply ensures_bind; [done..|by apply ensures_get_this|].
    intros p. apply ensures_AddAliasURL.
  - apply ensures_Destroy.
  - apply ensures_Destroy.
  - apply ensures_bind; [done..| |].
    + intros s [] s' [= <-]. apply moves_once, step_loading_flags.
    + intros _. apply ensures_notify. intros o observers Ho. simpl.
      by case_bool_decide.
  - unfold DidStartProvisionalLoadForFrame. destruct is_main_frame; [|done].
    apply ensures_bind; [done..|apply ensures_CheckURL|].
    intros []; simpl; [|done].
    intros s [] s' [= <-]. apply moves_once, step_loading_flags.
  - unfold DidFinishLoad. destruct is_main_frame; [|done].
    intros s [] s' [= <-]. apply moves_once, step_loading_flags.
  - unfold DidNavigateMainFrame.
    apply ensures_bind; [done..|by apply ensures_get_this|]. intros p.
    apply ensures_bind; [done..|by apply ensures_deref|]. intros wc.
    case_bool_decide; [apply ensures_Destroy|].
    intros s a s'. rewrite for_index_all.
    apply ensures_while_each; [done..|]. intros url. apply ensures_AddAliasURL.
  - unfold DidGetRedirectForResourceRequest.
    destruct is_main_frame_resource; simpl; [|done].
    apply ensures_bind; [done..|apply ensures_CheckURL|done].
  - intros s [] s' [= <-]. apply moves_once, step_add_page.
  - intros s [] s'. rewrite CommitHistory_eq. intros [= <-].
    apply moves_once, step_report. by apply Forall_map, Forall_forall.
  - apply ensures_bind; [done..|apply ensures_CreateMatchCompleteReplacement|done].
Qed.

Lemma run_calls_moves env cs : ensures (moves env) (run_calls env cs).
Proof.
  apply ensures_for_each; [done | intros; by etrans |].
  apply run_call_moves.
Qed.

End LifecycleFacts.

Section LifecycleInvariants.

Context {T : Type} `{!PrerenderTracker T}.
Local Abbreviation M := (@M T).
Local Abbreviation ensures := (@ensures T).
Local Abbreviation moves := (@moves T).
Implicit Types (s : St T) (env : Env) (p : PrerenderContents).

Lemma same_identity_refl p : same_identity p p.
Proof. by repeat split. Qed.

Lemma same_identity_trans p1 p2 p3 :
  same_identity p1 p2 → same_identity p2 p3 → same_identity p1 p3.
Proof. unfold same_identity. intros H1 H2. destruct_and!. repeat split; congruence. Qed.

Lemma step_same_identity env s s' :
  lifecycle_step env s s' → same_identity (this s) (this s').
Proof.
  destruct 1; try (by repeat split).
  unfold Destroy_finished. simpl. by destruct (negb _ && _).
Qed.

Lemma step_alias_prefix env s s' :
  lifecycle_step env s s' → alias_urls_ (this s) `prefix_of` alias_urls_ (this s').
Proof.
  destruct 1; [simpl; try done ..|].
  - by apply prefix_app_r.
  - by destruct (Destroy_finished_fields env status tracker_calls t' s)
      as (_ & _ & -> & _).
Qed.

Lemma verdict_passes_scheme_checks env p url :
  CheckURL_verdict env p url = true → passes_scheme_checks env url.
Proof.
  unfold CheckURL_verdict, passes_scheme_checks. simpl.
  destruct (SchemeIs url kHttpScheme); [by left|].
  destruct (SchemeIs url kHttpsScheme), (config_https_allowed env); try done.
  by right.
Qed.

Lemma step_alias_schemes env s s' :
  lifecycle_step env s s' →
  Forall (passes_scheme_checks env) (alias_urls_ (this s)) →
  Forall (passes_scheme_checks env) (alias_urls_ (this s')).
Proof.
  destruct 1; [simpl; try done ..|].
  - intros Hall. apply Forall_app. split; [done|].
    constructor; [|done]. by eapply verdict_passes_scheme_checks.
  - by destruct (Destroy_finished_fields env status tracker_calls t' s)
      as (_ & _ & -> & _).
Qed.

Lemma count_calls_app which l1 l2 :
  count_calls which (l1 ++ l2) = (count_calls which l1 + count_calls which l2)%nat.
Proof. unfold count_calls. by rewrite filter_app, length_app. Qed.

Lemma count_calls_none which (l : list Event) :
  Forall (λ e, which e = false) l → count_calls which l = 0%nat.
Proof.
  unfold count_calls. induction 1 as [|e l He _ IH]; [done|].
  rewrite filter_cons_False; [done|]. by rewrite He.
Qed.

Lemma step_bookkept env s s' : lifecycle_step env s s' → bookkept s → bookkept s'.
Proof.
  unfold bookkept.
  destruct 1 as [s l Hl| | | | | | |s st tc t' Hc Hf Hst Htc];
    [simpl; try done ..|].
  - intros [H1 H2]. rewrite !count_calls_app, H1, H2.
    rewrite !count_calls_none; [done|..];
      (eapply Forall_impl; [exact Hl|]; by intros []).
  - intros [H1 H2]. rewrite !count_calls_app, H1, H2.
    rewrite !count_calls_none; [done|..]; apply Forall_map, Forall_forall; done.
  - rewrite Hc. intros [H1 H2].
    destruct (Destroy_finished_calls env st tc t' s) as [stops ->].
    destruct (Destroy_finished_fields env st tc t' s) as (_ & -> & _).
    rewrite !count_calls_app, H1, H2.
    rewrite !(count_calls_none _ tc), !(count_calls_none _ (map _ stops));
      [done|..]; try (apply Forall_map, Forall_forall; done);
      (eapply Forall_impl; [exact Htc|]; by intros []).
Qed.

Lemma step_cancelled_has_status env s s' :
  lifecycle_step env s s' →
  (prerendering_has_been_cancelled_ (this s) = true →
   final_status_ (this s) ≠ FINAL_STATUS_MAX) →
  prerendering_has_been_cancelled_ (this s') = true →
  final_status_ (this s') ≠ FINAL_STATUS_MAX.
Proof.
  destruct 1; [simpl; try done ..|].
  by destruct (Destroy_finished_fields env status tracker_calls t' s) as (-> & _).
Qed.

(** Induction over the steps of a run. *)
Lemma moves_invariant env (I : St T → Prop) s s' :
  (∀ s1 s2, lifecycle_step env s1 s2 → I s1 → I s2) →
  moves env s s' → I s → I s'.
Proof. intros Hstep. induction 1; eauto. Qed.

Lemma moves_same_identity env s s' :
  moves env s s' → same_identity (this s) (this s').
Proof.
  induction 1 as [|s1 s2 s3 Hstep _ IH]; [apply same_identity_refl|].
  eapply same_identity_trans; [by eapply step_same_identity | done].
Qed.

Lemma moves_alias_prefix env s s' :
  moves env s s' → alias_urls_ (this s) `prefix_of` alias_urls_ (this s').
Proof.
  induction 1 as [|s1 s2 s3 Hstep _ IH]; [done|].
  etrans; [by eapply step_alias_prefix | done].
Qed.

End LifecycleInvariants.

Section MoreLifecycleTheorems.

Context {T : Type} `{!PrerenderTracker T}.
Local Abbreviation M := (@M T).
Local Abbreviation ensures := (@ensures T).
Local Abbreviation moves := (@moves T).
Implicit Types (s : St T) (env : Env) (p : PrerenderContents).

Lemma filter_none {A} (P : A → Prop) `{!∀ x, Decision (P x)} (l : list A) :
  Forall (λ x, ¬ P x) l → filter P l = [].
Proof.
  induction 1 as [|x l Hx _ IH]; [done|]. by rewrite filter_cons_False.
Qed.

Lemma Destroy_finished_notification env st tc t' s :
  let s' := Destroy_finished env st tc t' s in
  let notifies :=
    negb (IsControlGroup env (experiment_id_ (this s)))
    && (prerendering_has_started_ (this s)
        || bool_decide (match_complete_status_ (this s')
                        = MATCH_COMPLETE_REPLACEMENT)) in
  calls s'
  = calls s ++ tc
    ++ [Manager_AddToHistory; Manager_MoveEntryToPendingDelete st]
    ++ (if notifies then map Observer_OnPrerenderStop (observer_list_ (this s))
        else [])
  ∧ observer_list_ (this s') = (if notifies then [] else observer_list_ (this s)).
Proof.
  unfold Destroy_finished. simpl.
  destruct (negb (IsControlGroup env (experiment_id_ (this s)))); simpl;
    [|by rewrite <- !app_assoc].
  destruct (prerendering_has_started_ (this s)); simpl;
    [by rewrite <- !app_assoc|].
  destruct (bool_decide (MoveEntryToPendingDelete_status env _ st
                         = MATCH_COMPLETE_REPLACEMENT)) eqn:E; simpl;
    rewrite E; by rewrite <- !app_assoc.
Qed.

Lemma Destroy_live_returns env fs s s' :
  Destroy env fs s = Ok (tt, s') →
  prerendering_has_been_cancelled_ (this s) = false →
  ∃ st t',
    Destroy_status fs s = Some st
    ∧ st ≠ FINAL_STATUS_MAX
    ∧ s' = Destroy_finished env st
             (if pair_assigned (this s)
              then [Tracker_TryCancel (child_id_ (this s)) (route_id_ (this s)) fs;
                    Tracker_GetFinalStatus (child_id_ (this s)) (route_id_ (this s))]
              else [])
             t' s.
Proof.
  rewrite Destroy_eq. case_bool_decide; [|done]. intros Hd Hc.
  rewrite Hc in Hd. unfold Destroy_settle, Destroy_status in *.
  destruct (pair_assigned (this s)).
  - destruct (TryCancel _ _ _ _) as [[] t']; [|done].
    destruct (GetFinalStatus _ _ _) as [st|]; [|done].
    repeat case_bool_decide; try done. injection Hd as <-.
    by eexists _, _.
  - repeat case_bool_decide; try done. injection Hd as <-.
    by eexists _, _.
Qed.

(** X8. Who is told when [Destroy] cancels a live record that the
    manager's MoveEntryToPendingDelete does not make into a
    match-complete replacement: the entry comes back from the call with
    the match-complete status it had.  The tracker is asked first,
    exactly when a pair is assigned: TryCancel with the reason given,
    then GetFinalStatus, both for the record's pair.  Then the manager
    gets AddToHistory and MoveEntryToPendingDelete with the status
    [Destroy] has settled on, which is the one the record ends with.
    Only then, unless the record is in the control group, or was never
    started and is no replacement, every observer is told
    OnPrerenderStop once, in registration order, and the observer list
    is emptied; otherwise no observer is told and the list is kept.
    Nothing else is called. *)
Theorem Destroy_notification_order env fs s s' :
  Destroy env fs s = Ok (tt, s') →
  prerendering_has_been_cancelled_ (this s) = false →
  match_complete_status_ (this s') = match_complete_status_ (this s) →
  let notifies :=
    negb (IsControlGroup env (experiment_id_ (this s)))
    && (prerendering_has_started_ (this s)
        || bool_decide (match_complete_status_ (this s)
                        = MATCH_COMPLETE_REPLACEMENT)) in
  let tracker_calls :=
    if pair_assigned (this s)
    then [Tracker_TryCancel (child_id_ (this s)) (route_id_ (this s)) fs;
          Tracker_GetFinalStatus (child_id_ (this s)) (route_id_ (this s))]
    else [] in
  final_status_ (this s') ≠ FINAL_STATUS_MAX
  ∧ Destroy_status fs s = Some (final_status_ (this s'))
  ∧ calls s'
    = calls s ++ tracker_calls
      ++ [Manager_AddToHistory;
          Manager_MoveEntryToPendingDelete (final_status_ (this s'))]
      ++ (if notifies
          then map Observer_OnPrerenderStop (observer_list_ (this s))
          else [])
  ∧ observer_list_ (this s')
    = (if notifies then [] else observer_list_ (this s)).
Proof.
  intros Hd Hc Hkept.
  apply Destroy_live_returns in Hd as (st & t' & Hsettled & Hst & ->); [|done].
  destruct (Destroy_finished_fields env st
              (if pair_assigned (this s)
               then [Tracker_TryCancel (child_id_ (this s)) (route_id_ (this s)) fs;
                     Tracker_GetFinalStatus (child_id_ (this s)) (route_id_ (this s))]
               else []) t' s) as (Hf & _).
  destruct (Destroy_finished_notification env st
              (if pair_assigned (this s)
               then [Tracker_TryCancel (child_id_ (this s)) (route_id_ (this s)) fs;
                     Tracker_GetFinalStatus (child_id_ (this s)) (route_id_ (this s))]
               else []) t' s) as [Hcalls Hobs].
  cbv zeta in *. rewrite Hkept in Hcalls, Hobs. rewrite Hf.
  by repeat split.
Qed.


Lemma step_silent env s s' :
  lifecycle_step env s s' →
  final_status_ (this s) ≠ FINAL_STATUS_MAX →
  observer_list_ (this s) = [] →
  final_status_ (this s') ≠ FINAL_STATUS_MAX
  ∧ observer_list_ (this s') = []
  ∧ filter is_observer_call (calls s') = filter is_observer_call (calls s).
Proof.
  destruct 1 as [s l Hl| | | | | |s url _|]; simpl; try done.
  - intros Hf Ho. repeat split; try done.
    rewrite filter_app, (filter_none _ l), app_nil_r; [done|].
    eapply Forall_impl; [exact Hl|]. rewrite Ho.
    intros e He Hobs. destruct e; simpl in *; try done;
      apply bool_decide_eq_true_1 in He; by apply elem_of_nil in He.
  - intros Hf Ho. repeat split; try done.
    rewrite filter_app, (filter_none _ (map _ _)), app_nil_r; [done|].
    apply Forall_map, Forall_forall. by intros host _ ?.
Qed.

(** X9. After the stop notification the observers hear nothing more.
    Once the final status is written and the observer list is empty
    (as a notifying [Destroy] leaves them), no returning sequence of
    calls registers an observer again or makes any call to an observer:
    no stop-loading, no replacement-created, no second stop. *)
Theorem observers_silent_after_stop env cs s s' :
  run_calls env cs s = Ok (tt, s') →
  final_status_ (this s) ≠ FINAL_STATUS_MAX →
  observer_list_ (this s) = [] →
  observer_list_ (this s') = []
  ∧ filter is_observer_call (calls s') = filter is_observer_call (calls s).
Proof.
  intros Hrun%run_calls_moves Hf Ho.
  enough (final_status_ (this s') ≠ FINAL_STATUS_MAX
          ∧ observer_list_ (this s') = []
          ∧ filter is_observer_call (calls s') = filter is_observer_call (calls s))
    as (_ & ? & ?) by done.
  induction Hrun as [|s1 s2 s3 Hstep _ IH]; [done|].
  destruct (step_silent env s1 s2 Hstep Hf Ho) as (Hf2 & Ho2 & Hc2).
  destruct (IH Hf2 Ho2) as (? & ? & ?). repeat split; try done. congruence.
Qed.

Lemma accepted_prefix_aliases env l p chain :
  accepted_prefix env (set_alias_urls_ l p) chain = accepted_prefix env p chain.
Proof. induction chain as [|url chain IH]; [done|]. simpl. by rewrite IH. Qed.

(** The alias broadcasts of a list of URLs, host by host for each URL in
    turn. *)
Lemma while_each_AddAliasURL env chain s s' :
  while_each chain (AddAliasURL env) s = Ok (tt, s') →
  let accepted := accepted_prefix env (this s) chain in
  alias_urls_ (this s') = alias_urls_ (this s) ++ accepted
  ∧ filter is_add_alias (calls s')
    = filter is_add_alias (calls s)
      ++ (url ← accepted;
          map (λ host, Host_Send_OnPrerenderAddAlias host url) (AllHosts env))
  ∧ (accepted = chain →
     s' = mkSt (set_alias_urls_ (alias_urls_ (this s) ++ chain) (this s)) (tracker s)
            (calls s
             ++ (url ← chain;
                 map (λ host, Host_Send_OnPrerenderAddAlias host url)
                     (AllHosts env))))
  ∧ (accepted ≠ chain → prerendering_has_been_cancelled_ (this s') = true).
Proof.
  revert s. induction chain as [|url chain IH]; intros s; simpl.
  { intros [= <-]. rewrite !app_nil_r. repeat split; try done.
    by destruct s as [[] ? ?]. }
  intros (b & s1 & [Hv Hcase]%AddAliasURL_cases & Hrest)%bind_Ok.
  rewrite <- Hv. destruct b.
  - subst s1. apply IH in Hrest as (Ha & Hb & Hall & Hrej). simpl in *.
    rewrite accepted_prefix_aliases in *.
    rewrite Ha, Hb, <- !app_assoc. simpl. split; [done|]. split.
    { rewrite filter_app, <- app_assoc. f_equal. f_equal.
      clear. induction (AllHosts env) as [|h l IHl]; [done|]. simpl.
      rewrite filter_cons_True; [|done]. by rewrite IHl. }
    split.
    + intros [= Heq]. rewrite (Hall Heq). f_equal.
      * unfold set_alias_urls_. simpl. by rewrite <- app_assoc.
      * by rewrite <- !app_assoc.
    + intros Hne. apply Hrej. congruence.
  - injection Hrest as <-. destruct Hcase as [fs Hd].
    destruct (Destroy_keeps_aliases env fs s s1 Hd) as (Hc & Ha & Hb).
    rewrite Ha, Hb, !app_nil_r. by repeat split.
Qed.

(** X10. What a main-frame commit adds.  While the hidden session holds
    at most one navigation entry, a returning [DidNavigateMainFrame]
    appends to the aliases exactly the longest prefix of the redirect
    chain that the checks of [CheckURL] accept, in order, and broadcasts
    exactly those.  If the whole chain is accepted nothing else changes,
    on a cancelled record either; if not, the record is cancelled and
    the URLs after the first rejected one are never looked at. *)
Theorem DidNavigateMainFrame_adds_accepted_prefix env params s web_contents s' :
  prerender_contents_ (this s) = Some web_contents →
  GetEntryCount web_contents ≤ 1 →
  DidNavigateMainFrame env params s = Ok (tt, s') →
  let accepted := accepted_prefix env (this s) (redirects params) in
  alias_urls_ (this s') = alias_urls_ (this s) ++ accepted
  ∧ filter is_add_alias (calls s')
    = filter is_add_alias (calls s)
      ++ (url ← accepted;
          map (λ host, Host_Send_OnPrerenderAddAlias host url) (AllHosts env))
  ∧ (accepted = redirects params →
     s' = mkSt (set_alias_urls_ (alias_urls_ (this s) ++ redirects params) (this s))
            (tracker s)
            (calls s
             ++ (url ← redirects params;
                 map (λ host, Host_Send_OnPrerenderAddAlias host url)
                     (AllHosts env))))
  ∧ (accepted ≠ redirects params →
     prerendering_has_been_cancelled_ (this s') = true).
Proof.
  intros Hwc Hcount. unfold DidNavigateMainFrame.
  rewrite bind_eq. simpl. rewrite Hwc, bind_eq. simpl.
  rewrite bool_decide_eq_false_2 by lia. rewrite for_index_all.
  apply while_each_AddAliasURL.
Qed.

Lemma Matches_of_aliases p p' url (ns : option SessionStorageNamespace) :
  session_storage_namespace_id_ p' = session_storage_namespace_id_ p →
  (url ∈ alias_urls_ p → url ∈ alias_urls_ p') →
  Matches p url ns = true → Matches p' url ns = true.
Proof.
  unfold Matches. intros -> Hin. destruct (match ns with Some _ => _ | None => _ end);
    [done|].
  rewrite !bool_decide_eq_true, !count_if_nonzero. done.
Qed.

Lemma Matches_alias p url (ns : option SessionStorageNamespace) :
  Matches p url ns = true → url ∈ alias_urls_ p.
Proof.
  unfold Matches. destruct (match ns with Some _ => _ | None => _ end); [done|].
  by rewrite bool_decide_eq_true, count_if_nonzero.
Qed.

(** X11. A match-complete replacement stands in for the original.  From
    a record whose first alias is its own URL and whose URL passes the
    scheme checks, [CreateMatchCompleteReplacement] returns a clone
    that [Matches] exactly the URLs and namespaces the original
    matches, and that is otherwise new: not started, not cancelled, no
    final status, no (child id, route id) pair, no observers.  The
    original and the tracker are untouched; every render process host
    is sent the primary URL as an alias once more (the clone's [Init]),
    the copied aliases are not broadcast again, and each observer of
    the original is told of the replacement once. *)
Theorem replacement_stands_in env s rest :
  alias_urls_ (this s) = prerender_url_ (this s) :: rest →
  passes_scheme_checks env (prerender_url_ (this s)) →
  ∃ clone,
    CreateMatchCompleteReplacement env s
    = Ok (clone,
          mkSt (this s) (tracker s)
            (calls s
             ++ map (λ host, Host_Send_OnPrerenderAddAlias host
                               (prerender_url_ (this s))) (AllHosts env)
             ++ map Observer_OnPrerenderCreatedMatchCompleteReplacement
                    (observer_list_ (this s))))
    ∧ (∀ url ns, Matches clone url ns = Matches (this s) url ns)
    ∧ prerendering_has_started_ clone = false
    ∧ prerendering_has_been_cancelled_ clone = false
    ∧ final_status_ clone = FINAL_STATUS_MAX
    ∧ pair_assigned clone = false
    ∧ observer_list_ clone = []
    ∧ prerender_contents_ clone = None.
Proof.
  intros Hfirst Hok.
  pose proof (CreateMatchCompleteReplacement_initialised_eq env s rest Hfirst Hok)
    as Hinit.
  eexists. split.
  { unfold CreateMatchCompleteReplacement.
    rewrite bind_eq, Hinit. simpl. rewrite bind_eq. simpl.
    unfold NotifyPrerenderCreatedMatchCompleteReplacement.
    rewrite !bind_eq. simpl. rewrite for_each_call. simpl.
    by rewrite <- app_assoc. }
  by repeat split.
Qed.

End MoreLifecycleTheorems.

Section LifecycleTheorems.

Context {T : Type} `{!PrerenderTracker T}.
Local Abbreviation M := (@M T).
Local Abbreviation ensures := (@ensures T).
Local Abbreviation moves := (@moves T).
Implicit Types (s : St T) (env : Env) (p : PrerenderContents).

(** X1. Aliases are append-only.  Whatever calls are made into the
    object, in any order, when they return the alias list of before is a
    prefix of the alias list of after, so the first alias stays first;
    and whatever [Matches] accepted before it still accepts. *)
Theorem aliases_append_only env cs s s' :
  run_calls env cs s = Ok (tt, s') →
  alias_urls_ (this s) `prefix_of` alias_urls_ (this s')
  ∧ (∀ first, head (alias_urls_ (this s)) = Some first →
              head (alias_urls_ (this s')) = Some first)
  ∧ (∀ url ns, Matches (this s) url ns = true → Matches (this s') url ns = true).
Proof.
  intros Hrun. apply run_calls_moves in Hrun.
  pose proof (moves_alias_prefix env _ _ Hrun) as [suffix Hsuffix].
  pose proof (moves_same_identity env _ _ Hrun) as (_ & _ & _ & _ & _ & _ & Hns & _).
  split; [by exists suffix|]. split.
  - intros first. rewrite Hsuffix. by destruct (alias_urls_ (this s)).
  - intros url ns. apply Matches_of_aliases; [done|].
    rewrite Hsuffix, elem_of_app. by left.
Qed.

(** X2. No call changes who the record is: its URL, referrer, origin,
    experiment id, the (child id, route id) pair, the session storage
    namespace id, whether it has started and which hidden session it
    owns are the same after any returning sequence of calls, so a pair
    once assigned stays assigned to the same process and route. *)
Theorem identity_is_stable env cs s s' :
  run_calls env cs s = Ok (tt, s') →
  same_identity (this s) (this s')
  ∧ pair_assigned (this s') = pair_assigned (this s).
Proof.
  intros Hrun. apply run_calls_moves in Hrun.
  pose proof (moves_same_identity env _ _ Hrun) as Hid. split; [done|].
  destruct Hid as (_ & _ & _ & _ & Hc & Hr & _). unfold pair_assigned.
  by rewrite Hc, Hr.
Qed.

(** X3. The manager's bookkeeping happens exactly once per record.
    From a record that is not cancelled and has made no bookkeeping
    call, after any returning sequence of calls the calls made contain
    exactly one AddToHistory and one MoveEntryToPendingDelete if the
    record is now cancelled, and none if it is not; in general the
    counts keep matching the cancelled flag. *)
Theorem bookkeeping_exactly_once env cs s s' :
  run_calls env cs s = Ok (tt, s') →
  bookkept s →
  bookkept s'
  ∧ (count_calls is_AddToHistory (calls s') ≤ 1)%nat
  ∧ (count_calls is_MoveEntryToPendingDelete (calls s') ≤ 1)%nat.
Proof.
  intros Hrun Hb. apply run_calls_moves in Hrun.
  assert (bookkept s') as Hb'.
  { eapply (moves_invariant env bookkept); [apply step_bookkept | done..]. }
  split; [done|]. destruct Hb' as [-> ->].
  destruct (prerendering_has_been_cancelled_ (this s')); lia.
Qed.

(** X4. The alias list only ever holds URLs that pass the scheme and
    https checks: if that is so before, it is so after any returning
    sequence of calls, and then [Matches] accepts no other URL. *)
Theorem aliases_keep_supported_schemes env cs s s' :
  run_calls env cs s = Ok (tt, s') →
  Forall (passes_scheme_checks env) (alias_urls_ (this s)) →
  Forall (passes_scheme_checks env) (alias_urls_ (this s'))
  ∧ ∀ url ns, Matches (this s') url ns = true → passes_scheme_checks env url.
Proof.
  intros Hrun Hall. apply run_calls_moves in Hrun.
  assert (Forall (passes_scheme_checks env) (alias_urls_ (this s'))) as Hall'.
  { eapply (moves_invariant env
              (λ s0, Forall (passes_scheme_checks env) (alias_urls_ (this s0))));
      [apply step_alias_schemes | done..]. }
  split; [done|]. intros url ns Hin%Matches_alias.
  by eapply Forall_forall in Hall'.
Qed.

(** X25. A cancelled record has a final status.  If that is so before
    a returning sequence of calls (as on every record that is not yet
    cancelled), it is so after it: no call sets the cancelled flag
    without a final status being written, and none resets the status. *)
Theorem cancelled_has_final_status env cs s s' :
  run_calls env cs s = Ok (tt, s') →
  (prerendering_has_been_cancelled_ (this s) = true →
   final_status_ (this s) ≠ FINAL_STATUS_MAX) →
  prerendering_has_been_cancelled_ (this s') = true →
  final_status_ (this s') ≠ FINAL_STATUS_MAX.
Proof.
  intros Hrun%run_calls_moves.
  apply (moves_invariant env
           (λ s0, prerendering_has_been_cancelled_ (this s0) = true →
                  final_status_ (this s0) ≠ FINAL_STATUS_MAX)); [|done].
  intros s1 s2 Hstep. by apply (step_cancelled_has_status env).
Qed.

Lemma CheckURL_accepted env url s :
  CheckURL_verdict env (this s) url = true → CheckURL env url s = Ok (true, s).
Proof.
  intros Hv. rewrite CheckURL_eq.
  unfold CheckURL_verdict in Hv. simpl in *.
  destruct (negb (SchemeIs url kHttpScheme) && negb (SchemeIs url kHttpsScheme));
    [done|].
  destruct (SchemeIs url kHttpsScheme && negb (config_https_allowed env)); [done|].
  simpl in Hv. apply negb_true_iff in Hv.
  assert (bool_decide (match_complete_status_ (this s)
                       ≠ MATCH_COMPLETE_REPLACEMENT_PENDING)
          = negb (bool_decide (match_complete_status_ (this s)
                               = MATCH_COMPLETE_REPLACEMENT_PENDING))) as Hneg
    by (by repeat case_bool_decide).
  rewrite Hneg in Hv. by rewrite Hv.
Qed.

(** X5. [AddAliasURL] answers what the three checks of [CheckURL] say of
    the URL, the match-complete status and the manager's recent visits,
    and nothing else: when they accept, it returns true on every record,
    cancelled or not, appends the URL as the last alias and broadcasts
    it to every render process host in order, changing nothing else;
    when it returns false the aliases are as before, nothing was
    broadcast and the record is cancelled. *)
Theorem AddAliasURL_accepts env url s :
  (CheckURL_verdict env (this s) url = true →
   AddAliasURL env url s
   = Ok (true,
         mkSt (set_alias_urls_ (alias_urls_ (this s) ++ [url]) (this s)) (tracker s)
           (calls s ++ map (λ host, Host_Send_OnPrerenderAddAlias host url)
                           (AllHosts env))))
  ∧ (∀ b s', AddAliasURL env url s = Ok (b, s') →
       b = CheckURL_verdict env (this s) url
       ∧ (b = false →
          prerendering_has_been_cancelled_ (this s') = true
          ∧ alias_urls_ (this s') = alias_urls_ (this s)
          ∧ filter is_add_alias (calls s') = filter is_add_alias (calls s))).
Proof.
  split.
  - intros Hv. by rewrite AddAliasURL_eq, CheckURL_accepted.
  - intros b s' [Hv Hcase]%AddAliasURL_cases. split; [done|].
    intros ->. destruct Hcase as [fs Hd]. by eapply Destroy_keeps_aliases.
Qed.

(** X6. A redirect of a subresource changes nothing, whatever the URL.
    A redirect of the main-frame resource is checked by [CheckURL] but
    never added as an alias nor broadcast: an accepted URL leaves the
    object exactly as it was, a rejected one leaves it cancelled. *)
Theorem resource_redirect_adds_no_alias env url s :
  DidGetRedirectForResourceRequest env false url s = Ok (tt, s)
  ∧ (CheckURL_verdict env (this s) url = true →
     DidGetRedirectForResourceRequest env true url s = Ok (tt, s))
  ∧ (∀ s', DidGetRedirectForResourceRequest env true url s = Ok (tt, s') →
       alias_urls_ (this s') = alias_urls_ (this s)
       ∧ filter is_add_alias (calls s') = filter is_add_alias (calls s)
       ∧ (CheckURL_verdict env (this s) url = false →
          prerendering_has_been_cancelled_ (this s') = true)).
Proof.
  split; [done|]. split.
  - intros Hv. unfold DidGetRedirectForResourceRequest. simpl.
    by rewrite bind_eq, CheckURL_accepted.
  - intros s'. unfold DidGetRedirectForResourceRequest. simpl.
    intros (b & s1 & [Hv Hcase]%CheckURL_cases & [= <-])%bind_Ok.
    destruct b.
    + subst s1. repeat split; try done. by rewrite <- Hv.
    + destruct Hcase as [fs Hd].
      destruct (Destroy_keeps_aliases env fs s s1 Hd) as (? & ? & ?). done.
Qed.

(** X7. The loading flags.  [DidStopLoading] sets the stopped flag,
    keeps the finished flag and tells every observer, in registration
    order; [DidFinishLoad] sets the finished flag for the main frame and
    does nothing for another frame.  A provisional load of a subframe
    changes nothing; a provisional load of the main frame with an
    accepted URL clears both flags and changes nothing else; with a
    rejected URL it leaves both flags as they were and the record
    cancelled. *)
Theorem loading_flags env url s :
  DidStopLoading s
  = Ok (tt, mkSt (set_loading_flags_ true (has_finished_loading_ (this s)) (this s))
              (tracker s)
              (calls s ++ map Observer_OnPrerenderStopLoading
                              (observer_list_ (this s))))
  ∧ DidFinishLoad true s
    = Ok (tt, mkSt (set_loading_flags_ (has_stopped_loading_ (this s)) true (this s))
                (tracker s) (calls s))
  ∧ DidFinishLoad false s = Ok (tt, s)
  ∧ DidStartProvisionalLoadForFrame env false url s = Ok (tt, s)
  ∧ (CheckURL_verdict env (this s) url = true →
     DidStartProvisionalLoadForFrame env true url s
     = Ok (tt, mkSt (set_loading_flags_ false false (this s)) (tracker s) (calls s)))
  ∧ (CheckURL_verdict env (this s) url = false →
     ∀ s', DidStartProvisionalLoadForFrame env true url s = Ok (tt, s') →
           has_stopped_loading_ (this s') = has_stopped_loading_ (this s)
           ∧ has_finished_loading_ (this s') = has_finished_loading_ (this s)
           ∧ prerendering_has_been_cancelled_ (this s') = true).
Proof.
  split; [|split; [done|split; [done|split; [done|split]]]].
  - unfold DidStopLoading, NotifyPrerenderStopLoading.
    rewrite bind_eq. simpl. rewrite bind_eq. simpl. by rewrite for_each_call.
  - intros Hv. unfold DidStartProvisionalLoadForFrame.
    by rewrite bind_eq, CheckURL_accepted.
  - intros Hv s'. unfold DidStartProvisionalLoadForFrame.
    intros (b & s1 & [Hb Hcase]%CheckURL_cases & Hrest)%bind_Ok.
    rewrite Hv in Hb. subst b. simpl in Hrest. injection Hrest as <-.
    destruct Hcase as [fs Hd].
    apply Destroy_inv in Hd as [_ [[Hc ->]|(_ & _ & st & tc & t' & _ & _ & _ & ->)]];
      [done|].
    unfold Destroy_finished. simpl. by destruct (negb _ && _).
Qed.

End LifecycleTheorems.

(* ===================================================================== *)
(** * Start, use and deletion                                              *)
(* ===================================================================== *)

Section WholeObjectFacts.

Context {T : Type} `{!PrerenderTracker T}.
Local Abbreviation M := (@M T).
Local Abbreviation W := (@W T).
Implicit Types (w : Whole T) (env : Env) (browser : Browser).


Lemma W_bind_eq {A B} (m : W A) (f : A → W B) w :
  (m ≫= f) w = match m w with Ok (a, w') => f a w' | Crash e => Crash e end.
Proof. done. Qed.


Lemma Whole_eta w : mkWhole (object w) (members w) (whole_tracker w) (log w) = w.
Proof. by destruct w. Qed.

Lemma for_all_send {A} (f : A → Call) (l : list A) w :
  for_all l (λ x, send (f x)) w
  = Ok (tt, mkWhole (object w) (members w) (whole_tracker w) (log w ++ map f l)).
Proof.
  revert w. induction l as [|x l IH]; intros w; simpl.
  - by rewrite app_nil_r, Whole_eta.
  - rewrite W_bind_eq. simpl. rewrite IH. simpl. by rewrite <- app_assoc.
Qed.

Lemma this_eq w : this_ w = Ok (object w, w).
Proof. unfold this_, lift. simpl. by rewrite app_nil_r, Whole_eta. Qed.

Lemma assign_eq (f : PrerenderContents → PrerenderContents) w :
  assign f w = Ok (tt, mkWhole (f (object w)) (members w) (whole_tracker w) (log w)).
Proof. unfold assign, lift. simpl. by rewrite app_nil_r. Qed.

Lemma dcheck_eq c (b : bool) w :
  dcheck c b w = if b then Ok (tt, w) else Crash (DCHECK_failed c).
Proof.
  unfold dcheck, lift. destruct b; simpl; [|done]. by rewrite app_nil_r, Whole_eta.
Qed.

Lemma lift_CHECK_eq c (b : bool) w :
  lift (CHECK c b) w = if b then Ok (tt, w) else Crash (CHECK_failed c).
Proof.
  unfold lift. destruct b; simpl; [|done]. by rewrite app_nil_r, Whole_eta.
Qed.

Lemma lift_deref_eq {A} (o : option A) w :
  lift (deref o) w
  = match o with
    | Some x => Ok (x, w)
    | None => Crash (undefined_behaviour "null pointer dereference")
    end.
Proof.
  unfold lift. destruct o; simpl; [|done]. by rewrite app_nil_r, Whole_eta.
Qed.

Lemma get_members_eq w : (get_members : W _) w = Ok (members w, w).
Proof. done. Qed.

Lemma modify_members_eq (f : Members → Members) w :
  (modify_members f : W _) w
  = Ok (tt, mkWhole (object w) (f (members w)) (whole_tracker w) (log w)).
Proof. done. Qed.

Lemma send_eq c w :
  (send c : W _) w
  = Ok (tt, mkWhole (object w) (members w) (whole_tracker w) (log w ++ [c])).
Proof. done. Qed.

Lemma W_ret_eq {A} (a : A) w : (mret a : W A) w = Ok (a, w).
Proof. done. Qed.

(** What a lifted method does, in terms of the method. *)
Lemma lift_Ok {A} (m : M A) w a w' :
  lift m w = Ok (a, w') →
  ∃ s', m (mkSt (object w) (whole_tracker w) []) = Ok (a, s')
        ∧ w' = mkWhole (this s') (members w) (tracker s')
                 (log w ++ map Earlier (calls s')).
Proof.
  unfold lift. destruct (m _) as [[a' s']|]; [|done]. intros [= <- <-]. by exists s'.
Qed.

Lemma lift_eq {A} (m : M A) w a s' :
  m (mkSt (object w) (whole_tracker w) []) = Ok (a, s') →
  lift m w = Ok (a, mkWhole (this s') (members w) (tracker s')
                      (log w ++ map Earlier (calls s'))).
Proof. unfold lift. by intros ->. Qed.

Lemma lift_AddObserver_eq (o : Observer) w :
  lift (AddObserver o) w
  = if bool_decide (FINAL_STATUS_MAX = final_status_ (object w))
    then Ok (tt, mkWhole
                   (set_observer_list_ (observer_list_ (object w) ++ [o]) (object w))
                   (members w) (whole_tracker w) (log w))
    else Crash (DCHECK_failed "FINAL_STATUS_MAX == final_status_").
Proof.
  unfold lift, AddObserver. rewrite bind_eq. simpl. rewrite bind_eq.
  destruct (bool_decide _); simpl; [|done]. by rewrite app_nil_r.
Qed.

Lemma NotifyPrerenderStart_eq w :
  NotifyPrerenderStart w
  = if bool_decide (FINAL_STATUS_MAX = final_status_ (object w))
    then Ok (tt, mkWhole (object w) (members w) (whole_tracker w)
                   (log w ++ map Observer_OnPrerenderStart
                                 (observer_list_ (object w))))
    else Crash (DCHECK_failed "FINAL_STATUS_MAX == final_status_").
Proof.
  unfold NotifyPrerenderStart.
  rewrite W_bind_eq, this_eq, W_bind_eq, dcheck_eq.
  destruct (bool_decide _); [|done]. by rewrite for_all_send.
Qed.

Ltac step_W :=
  repeat first
    [ rewrite W_bind_eq
    | rewrite this_eq
    | rewrite assign_eq
    | rewrite dcheck_eq
    | rewrite lift_CHECK_eq
    | rewrite get_members_eq
    | rewrite modify_members_eq
    | rewrite send_eq
    | rewrite lift_deref_eq
    | rewrite lift_AddObserver_eq
    | rewrite NotifyPrerenderStart_eq
    | rewrite for_all_send
    | rewrite W_ret_eq
    | progress simpl ].

Lemma cookie_status_bound (status k : Z) :
  0 ≤ status < 16 → 0 ≤ k < 4 → 0 ≤ Z.lor status (Z.shiftl 1 k) < 16.
Proof.
  intros Hs Hk.
  assert (k = 0 ∨ k = 1 ∨ k = 2 ∨ k = 3) as Hk' by lia.
  assert (status = 0 ∨ status = 1 ∨ status = 2 ∨ status = 3 ∨ status = 4
          ∨ status = 5 ∨ status = 6 ∨ status = 7 ∨ status = 8 ∨ status = 9
          ∨ status = 10 ∨ status = 11 ∨ status = 12 ∨ status = 13
          ∨ status = 14 ∨ status = 15) as Hs' by lia.
  destruct_or!; subst; by vm_compute.
Qed.

Lemma cookie_status_bit (status k n : Z) :
  0 ≤ k →
  Z.testbit (Z.lor status (Z.shiftl 1 k)) n = Z.testbit status n || bool_decide (n = k).
Proof.
  intros Hk. rewrite Z.lor_spec, Z.shiftl_1_l, Z.pow2_bits_eqb by done.
  f_equal. case_bool_decide; [by apply Z.eqb_eq | by apply Z.eqb_neq].
Qed.

(** [RecordCookieEvent] on a status in range, in one equation. *)
Lemma RecordCookieEvent_eq (event : CookieEvent)
    (is_main_frame_http_request : bool) (earliest_create_date : Z) w :
  0 ≤ cookie_status_ (object w) < kNumCookieStatuses →
  RecordCookieEvent event is_main_frame_http_request earliest_create_date w
  = Ok (tt, mkWhole
              (set_cookie_status_
                 (if bool_decide (event = COOKIE_EVENT_SEND)
                     && bool_decide (earliest_create_date > start_time_ (members w))
                  then cookie_status_ (object w)
                  else Z.lor (cookie_status_ (object w))
                         (Z.shiftl 1
                            ((if is_main_frame_http_request then 0 else 2)
                             + (if bool_decide (event = COOKIE_EVENT_SEND)
                                then 0 else 1))))
                 (object w))
              (members w) (whole_tracker w) (log w)).
Proof.
  intros Hrange. change kNumCookieStatuses with 16 in *.
  unfold RecordCookieEvent. rewrite W_bind_eq. simpl.
  destruct (bool_decide (event = COOKIE_EVENT_SEND)
            && bool_decide (earliest_create_date > start_time_ (members w))).
  { by destruct w as [[] ? ? ?]. }
  set (k := (if is_main_frame_http_request then 0 else 2)
            + (if bool_decide (event = COOKIE_EVENT_SEND) then 0 else 1)).
  assert (0 ≤ k < 4) as Hk.
  { subst k. destruct is_main_frame_http_request; case_bool_decide; lia. }
  pose proof (cookie_status_bound _ k Hrange Hk) as Hb. subst k.
  destruct is_main_frame_http_request, (bool_decide (event = COOKIE_EVENT_SEND));
    simpl in *; unfold dcheck, assign, this_, lift; simpl;
    rewrite !W_bind_eq; simpl.
  all: change (0 + 0) with 0 in *; change (0 + 1) with 1 in *;
    change (2 + 0) with 2 in *; change (2 + 1) with 3 in *;
    change kNumCookieStatuses with 16;
    rewrite (bool_decide_eq_true_2 (_ >= 0)) by lia; simpl;
    rewrite (bool_decide_eq_true_2 (_ < 16)) by lia; simpl;
    by rewrite !app_nil_r.
Qed.

(** X12. [RecordCookieEvent] keeps [cookie_status_] a set of four bits.
    A sent cookie created after the prerender started is ignored (one
    created exactly at the start is not).  Any other event on a status
    within [0, kNumCookieStatuses) passes all four assertions, keeps
    the status in that range, leaves every bit that was set and sets
    the bit of its kind: 0 main-frame send, 1 main-frame change, 2
    other send, 3 other change.  Nothing but [cookie_status_]
    changes. *)
Theorem RecordCookieEvent_sets_one_bit (event : CookieEvent)
    (is_main_frame_http_request : bool) (earliest_create_date : Z) w :
  0 ≤ cookie_status_ (object w) < kNumCookieStatuses →
  let ignored :=
    bool_decide (event = COOKIE_EVENT_SEND)
    && bool_decide (earliest_create_date > start_time_ (members w)) in
  let bit :=
    (if is_main_frame_http_request then 0 else 2)
    + (if bool_decide (event = COOKIE_EVENT_SEND) then 0 else 1) in
  ∃ status,
    RecordCookieEvent event is_main_frame_http_request earliest_create_date w
    = Ok (tt, mkWhole (set_cookie_status_ status (object w)) (members w)
                (whole_tracker w) (log w))
    ∧ 0 ≤ status < kNumCookieStatuses
    ∧ (∀ n, Z.testbit status n
            = Z.testbit (cookie_status_ (object w)) n
              || (negb ignored && bool_decide (n = bit))).
Proof.
  intros Hrange ignored bit.
  eexists. split; [by apply RecordCookieEvent_eq|].
  assert (0 ≤ bit < 4) as Hbit.
  { subst bit. destruct is_main_frame_http_request; case_bool_decide; lia. }
  fold ignored. fold bit. destruct ignored; simpl.
  - split; [done|]. intros n. by rewrite orb_false_r.
  - split; [by apply cookie_status_bound|].
    intros n. apply cookie_status_bit. lia.
Qed.

(** The assertions and the two assignments before the control-group
    test. *)
Lemma StartPrerendering_asserts_pass env browser c size ns w :
  StartPrerendering_asserts size w →
  in_control_cohort env browser (object w) = true →
  StartPrerendering env browser c size ns w
  = Ok (tt, mkWhole
              (set_load_start_time_ (TimeTicks_Now browser)
                 (set_session_storage_namespace_id_ (ns_id ns)
                    (set_creator_child_id_ c (object w))))
              (set_start_time_ (Time_Now browser) (set_size_ size (members w)))
              (whole_tracker w) (log w)).
Proof.
  intros (Hp & Hs & Hst & Hwc & Hc & Hsz & Hal & Hl) Hctl.
  unfold StartPrerendering.
  step_W. rewrite (bool_decide_eq_true_2 _ Hp). step_W. rewrite Hs. step_W.
  rewrite Hst. step_W. rewrite Hwc. step_W. rewrite Hc. step_W.
  rewrite Hsz. step_W. rewrite Hal. step_W. rewrite Hl. step_W.
  unfold in_control_cohort in Hctl.
  destruct (IsControlGroup env _); step_W; [done|].
  simpl in Hctl. rewrite Hctl. by step_W.
Qed.

(** X17. Start in the control cohort.  When the assertions of
    [StartPrerendering] hold and the record belongs to the control group
    (or comes from the local predictor while its always-control mode is
    on), the call returns having recorded the creator, the namespace id,
    the size and the two times, and nothing else: the record does not
    count as started, has no [WebContents], keeps its (child id, route
    id) pair and its observers as they were, and no call leaves the
    object. *)
Theorem StartPrerendering_control_cohort env browser c size ns w :
  StartPrerendering_asserts size w →
  in_control_cohort env browser (object w) = true →
  ∃ w',
    StartPrerendering env browser c size ns w = Ok (tt, w')
    ∧ log w' = log w
    ∧ whole_tracker w' = whole_tracker w
    ∧ prerendering_has_started_ (object w') = false
    ∧ prerender_contents_ (object w') = None
    ∧ child_id_ (object w') = child_id_ (object w)
    ∧ route_id_ (object w') = route_id_ (object w)
    ∧ observer_list_ (object w') = observer_list_ (object w)
    ∧ alias_urls_ (object w') = alias_urls_ (object w)
    ∧ final_status_ (object w') = final_status_ (object w)
    ∧ creator_child_id_ (object w') = c
    ∧ session_storage_namespace_id_ (object w') = ns_id ns
    ∧ load_start_time_ (object w') = TimeTicks_Now browser
    ∧ size_ (members w') = size
    ∧ start_time_ (members w') = Time_Now browser.
Proof.
  intros Hpre Hctl. eexists. split.
  { by apply StartPrerendering_asserts_pass. }
  destruct Hpre as (_ & _ & Hst & Hwc & _). simpl. by repeat split.
Qed.

(** X18. A real start.  When the assertions hold, the record is not in
    the control cohort, no final status is set, and the created
    [WebContents] has a render view host with a process,
    [StartPrerendering] returns with the record started, owning the
    created [WebContents], and holding the process id and the routing id
    of its render view host as its pair.  The tracker is registered
    after the observers already there, every observer including the
    tracker is then told OnPrerenderStart once, in order, and the last
    call loads the prerender URL with the record's referrer, as a typed
    transition exactly for the omnibox and instant origins.  The
    delegate then answers the size given to the start for a new render
    view. *)
Theorem StartPrerendering_real_start env browser c size ns w
    render_view_host process :
  let web_contents :=
    WebContents_CreateWithSessionStorage browser (profile_ (members w))
      (<[EmptyString := CreateAlias browser ns]> ∅) in
  StartPrerendering_asserts size w →
  in_control_cohort env browser (object w) = false →
  final_status_ (object w) = FINAL_STATUS_MAX →
  WebContents_GetRenderViewHost browser web_contents = Some render_view_host →
  GetProcess render_view_host = Some process →
  ∃ w',
    StartPrerendering env browser c size ns w = Ok (tt, w')
    ∧ prerendering_has_started_ (object w') = true
    ∧ prerender_contents_ (object w') = Some web_contents
    ∧ child_id_ (object w') = GetID process
    ∧ route_id_ (object w') = GetRoutingID render_view_host
    ∧ observer_list_ (object w')
      = observer_list_ (object w) ++ [prerender_tracker browser]
    ∧ alias_urls_ (object w') = alias_urls_ (object w)
    ∧ final_status_ (object w') = FINAL_STATUS_MAX
    ∧ prerendering_has_been_cancelled_ (object w')
      = prerendering_has_been_cancelled_ (object w)
    ∧ whole_tracker w' = whole_tracker w
    ∧ alias_session_storage_namespace (members w') = Some (CreateAlias browser ns)
    ∧ GetSizeForNewRenderView w' = Ok (size, w')
    ∧ log w'
      = log w
        ++ [BrowserTabContents_AttachTabHelpers web_contents]
        ++ (if OS_ANDROID browser
            then [FaviconTabHelper_set_should_fetch_icons web_contents false]
            else [])
        ++ [WebContentsObserver_Observe (Some web_contents);
            WebContents_SetDelegate web_contents true;
            WebContents_SizeContents web_contents size;
            Namespace_AddTransactionLogProcessId (CreateAlias browser ns)
              (GetID process)]
        ++ map Observer_OnPrerenderStart
             (observer_list_ (object w) ++ [prerender_tracker browser])
        ++ [Registrar_Add NOTIFICATION_APP_TERMINATING AllSources;
            Registrar_Add NOTIFICATION_PROFILE_DESTROYED
              (Source_Profile (profile_ (members w)));
            Registrar_Add NOTIFICATION_WEB_CONTENTS_RENDER_VIEW_HOST_CREATED
              (Source_WebContents web_contents);
            WebContents_SetUserAgentOverride web_contents
              (config_user_agent_override browser);
            Controller_LoadURLWithParams web_contents
              {| load_url := prerender_url_ (object w);
                 load_referrer := referrer_ (object w);
                 transition_type :=
                   if bool_decide (origin_ (object w) = ORIGIN_OMNIBOX)
                      || bool_decide (origin_ (object w) = ORIGIN_INSTANT)
                   then PAGE_TRANSITION_TYPED else PAGE_TRANSITION_LINK;
                 override_user_agent :=
                   if config_is_overriding_user_agent browser
                   then UA_OVERRIDE_TRUE else UA_OVERRIDE_FALSE |}].
Proof.
  intros web_contents (Hp & Hs & Hst & Hwc & Hc & Hsz & Hal & Hl) Hctl Hf Hrvh Hproc.
  subst web_contents.
  unfold in_control_cohort in Hctl. apply orb_false_iff in Hctl as [Hcg Hlp].
  unfold StartPrerendering, CreateWebContents, GetRenderViewHost.
  step_W. rewrite (bool_decide_eq_true_2 _ Hp). step_W. rewrite Hs. step_W.
  rewrite Hst. step_W. rewrite Hwc. step_W. rewrite Hc. step_W.
  rewrite Hsz. step_W. rewrite Hal. step_W. rewrite Hl. step_W.
  rewrite Hcg. step_W. rewrite Hlp. step_W.
  destruct (OS_ANDROID browser); step_W; rewrite Hrvh; step_W; rewrite Hproc;
    step_W; rewrite Hrvh; step_W; rewrite (bool_decide_eq_true_2 _ (eq_sym Hf));
    step_W; rewrite (bool_decide_eq_true_2 _ (eq_sym Hf)); step_W.
  all: eexists; split; [reflexivity|]; simpl.
  all: repeat (split; [done|]).
  all: by rewrite <- !app_assoc.
Qed.

(** Whenever [StartPrerendering] returns, its assertions held and the
    size it was given is the one the object holds. *)
Lemma StartPrerendering_Ok env browser c size ns w w' :
  StartPrerendering env browser c size ns w = Ok (tt, w') →
  StartPrerendering_asserts size w ∧ size_ (members w') = size.
Proof.
  unfold StartPrerendering, StartPrerendering_asserts, CreateWebContents,
    GetRenderViewHost.
  step_W. case_bool_decide as E1; [|done]. step_W.
  destruct (IsEmpty size) eqn:E2; [done|]. step_W.
  destruct (prerendering_has_started_ (object w)) eqn:E3; [done|]. step_W.
  case_bool_decide as E4; [|done]. step_W.
  case_bool_decide as E5; [|done]. step_W.
  destruct (IsEmpty (size_ (members w))) eqn:E6; [|done]. step_W.
  case_bool_decide as E7; [|done]. step_W.
  case_bool_decide as E8; [|done]. step_W.
  intros Hrest. split; [by repeat split|].
  revert Hrest.
  destruct (IsControlGroup env _); step_W; [by intros [= <-]|].
  destruct (_ && _); step_W; [by intros [= <-]|].
  destruct (OS_ANDROID browser); step_W.
  all: destruct (WebContents_GetRenderViewHost browser _) as [rvh|] eqn:Hrvh;
    step_W; [|done].
  all: destruct (GetProcess rvh); step_W; [|done].
  all: rewrite Hrvh; step_W.
  all: case_bool_decide; step_W; [|done].
  all: case_bool_decide; step_W; [|done].
  all: by intros [= <-].
Qed.

(** X19. A record is started at most once.  After a [StartPrerendering]
    that returned, in the control cohort or not, and any returning
    sequence of calls of the interface above, every further
    [StartPrerendering] stops at an assertion, whatever its arguments
    and whatever the manager and the browser answer. *)
Theorem StartPrerendering_at_most_once env browser c size ns w w1 cs w2
    env' browser' c' size' ns' :
  StartPrerendering env browser c size ns w = Ok (tt, w1) →
  lift (run_calls env cs) w1 = Ok (tt, w2) →
  ∃ failed, StartPrerendering env' browser' c' size' ns' w2 = Crash failed.
Proof.
  intros [(_ & Hs & _) Hsize]%StartPrerendering_Ok (s' & _ & ->)%lift_Ok.
  unfold StartPrerendering. step_W.
  repeat match goal with
         | |- context [if ?b then Ok (tt, ?x) else Crash _] =>
             destruct b eqn:?; step_W; [|by eexists]
         end.
  all: try by eexists.
  all: exfalso; congruence.
Qed.

(** The destructor, case by case. *)
Lemma PrerenderContents_delete_eq env w :
  PrerenderContents_delete env w
  = if bool_decide (FINAL_STATUS_MAX ≠ final_status_ (object w)) then
      if prerendering_has_been_cancelled_ (object w)
         || bool_decide (final_status_ (object w) = FINAL_STATUS_USED) then
        if bool_decide (ORIGIN_MAX ≠ origin_ (object w)) then
          Ok (tt, mkWhole (set_prerender_contents_ None (object w)) (members w)
                    (whole_tracker w)
                    (log w ++ delete_calls env (object w) (members w)))
        else Crash (DCHECK_failed "ORIGIN_MAX != origin()")
      else Crash (DCHECK_failed
        "prerendering_has_been_cancelled() || final_status() == FINAL_STATUS_USED")
    else Crash (DCHECK_failed "FINAL_STATUS_MAX != final_status()").
Proof.
  unfold PrerenderContents_delete, ReleasePrerenderContents, delete_calls.
  step_W. destruct (bool_decide (_ ≠ _)); step_W; [|done].
  destruct (_ || _); step_W; [|done].
  destruct (bool_decide (ORIGIN_MAX ≠ _)); step_W; [|done].
  destruct (prerendering_has_started_ (object w) && _); step_W.
  all: destruct (prerender_contents_ (object w)) eqn:Hwc; step_W.
  all: try rewrite Hwc; step_W.
  all: try (destruct (alias_session_storage_namespace (members w)); step_W).
  all: rewrite <- ?app_assoc; simpl; rewrite ?app_nil_r.
  all: try done.
  all: do 2 f_equal; destruct w as [[] ? ? ?]; simpl in *; by subst.
Qed.

(** X15. What deleting the object does.  The destructor returns exactly
    when a final status is set, the record is cancelled or was used, and
    the origin is a real one; otherwise it stops at an assertion.  When
    it returns it has told the manager the final status exactly once
    (with the origin, the experiment id and the match-complete status),
    before that the cookie status exactly when the record had started
    and ended used, timed out or cancelled, then sent every render
    process host the complete alias list for removal, and if the record
    still owned its [WebContents], detached the delegate and the
    observer, removed the process from the namespace's transaction log
    and deleted it; the object is left without a [WebContents]. *)
Theorem PrerenderContents_delete_reports env w :
  ((∃ w', PrerenderContents_delete env w = Ok (tt, w'))
   ↔ final_status_ (object w) ≠ FINAL_STATUS_MAX
     ∧ (prerendering_has_been_cancelled_ (object w) = true
        ∨ final_status_ (object w) = FINAL_STATUS_USED)
     ∧ origin_ (object w) ≠ ORIGIN_MAX)
  ∧ (∀ w', PrerenderContents_delete env w = Ok (tt, w') →
       w' = mkWhole (set_prerender_contents_ None (object w)) (members w)
              (whole_tracker w) (log w ++ delete_calls env (object w) (members w))).
Proof.
  rewrite PrerenderContents_delete_eq. split.
  - split.
    + intros [w' Hd].
      case_bool_decide as Hf; [|done].
      destruct (prerendering_has_been_cancelled_ (object w)) eqn:Hc;
        simpl in Hd.
      * case_bool_decide as Ho; [|done].
        split; [congruence|]. split; [by left | congruence].
      * case_bool_decide as Hu; [|done].
        case_bool_decide as Ho; [|done].
        split; [congruence|]. split; [by right | congruence].
    + intros (Hf & Hc & Ho).
      rewrite bool_decide_eq_true_2 by congruence.
      rewrite (bool_decide_eq_true_2 (ORIGIN_MAX ≠ _)) by congruence.
      destruct Hc as [-> | ->]; simpl; [by eexists|].
      rewrite orb_true_r. by eexists.
  - intros w'. destruct (bool_decide (FINAL_STATUS_MAX ≠ _)); [|done].
    destruct (_ || _); [|done].
    destruct (bool_decide (ORIGIN_MAX ≠ _)); [|done]. by intros [= <-].
Qed.

(** X16. A cancelled record can always be deleted, and the manager is
    told the status the cancellation settled on.  After a [Destroy] that
    returned on a live record with a real origin, and any returning
    sequence of calls of the interface above, the destructor returns,
    and the final status it reports to the manager, with the record's
    origin and experiment id, is the one that [Destroy] left. *)
Theorem delete_after_Destroy env fs cs w w1 w2 :
  prerendering_has_been_cancelled_ (object w) = false →
  origin_ (object w) ≠ ORIGIN_MAX →
  lift (Destroy env fs) w = Ok (tt, w1) →
  lift (run_calls env cs) w1 = Ok (tt, w2) →
  final_status_ (object w1) ≠ FINAL_STATUS_MAX
  ∧ ∃ w3,
      PrerenderContents_delete env w2 = Ok (tt, w3)
      ∧ log w3 = log w2 ++ delete_calls env (object w2) (members w2)
      ∧ Manager_RecordFinalStatusWithMatchCompleteStatus
          (origin_ (object w)) (experiment_id_ (object w))
          (match_complete_status_ (object w2)) (final_status_ (object w1))
        ∈ delete_calls env (object w2) (members w2).
Proof.
  intros Hc Ho (s1 & Hd & ->)%lift_Ok (s2 & Hrun & ->)%lift_Ok.
  cbn [object whole_tracker log members] in *.
  assert (final_status_ (this s1) ≠ FINAL_STATUS_MAX
          ∧ prerendering_has_been_cancelled_ (this s1) = true
          ∧ origin_ (this s1) = origin_ (object w)
          ∧ experiment_id_ (this s1) = experiment_id_ (object w))
    as (Hf1 & Hc1 & Ho1 & He1).
  { apply Destroy_inv in Hd
      as [_ [[Hc' _]|(_ & _ & st & tc & t' & _ & Hst & _ & ->)]];
      [simpl in *; congruence|].
    unfold Destroy_finished. simpl. by destruct (negb _ && _). }
  pose proof (keeps_run_calls env cs _ _ _ Hrun) as [Hkeep1 Hkeep2].
  apply run_calls_moves, moves_same_identity in Hrun
    as (_ & _ & Horigin & Hexp & _).
  cbn [this] in *. specialize (Hkeep1 Hf1). specialize (Hkeep2 Hc1).
  split; [done|].
  rewrite PrerenderContents_delete_eq. cbn [object whole_tracker log members].
  rewrite Hkeep1, Hkeep2, Horigin, Ho1.
  rewrite (bool_decide_eq_true_2 (FINAL_STATUS_MAX ≠ _)) by congruence.
  rewrite (bool_decide_eq_true_2 (ORIGIN_MAX ≠ _)) by congruence. simpl.
  eexists. split; [reflexivity|]. split; [done|].
  unfold delete_calls. rewrite Hkeep1, Horigin, Ho1, Hexp, He1.
  apply elem_of_app. right. apply elem_of_app. left. apply list_elem_of_singleton.
  done.
Qed.

Lemma std_set_insert_elem (x y : RenderFrameHost) (l : list RenderFrameHost) :
  y ∈ std_set_insert x l ↔ y = x ∨ y ∈ l.
Proof.
  induction l as [|z l IH]; simpl.
  - rewrite list_elem_of_singleton. split; [by left|]. intros [|?%elem_of_nil]; done.
  - repeat case_bool_decide; subst.
    + by rewrite elem_of_cons.
    + rewrite elem_of_cons. split; [by right|]. by intros [->|]; [left|].
    + rewrite !elem_of_cons, IH. tauto.
Qed.

Lemma std_set_insert_sorted (x : RenderFrameHost) (l : list RenderFrameHost) :
  ascending l → ascending (std_set_insert x l).
Proof.
  induction l as [|z l IH]; simpl; [done|]. intros [Hz Hl].
  repeat case_bool_decide; simpl.
  - split; [|done]. constructor; [done|].
    eapply Forall_impl; [exact Hz|]. simpl. lia.
  - done.
  - split; [|by apply IH]. apply Forall_forall.
    intros y [->|Hy]%std_set_insert_elem; [lia|].
    by eapply Forall_forall in Hz.
Qed.

Lemma std_set_erase_elem (x y : RenderFrameHost) (l : list RenderFrameHost) :
  y ∈ std_set_erase x l ↔ y ≠ x ∧ y ∈ l.
Proof. unfold std_set_erase. by rewrite list_elem_of_filter. Qed.

Lemma std_set_erase_sorted (x : RenderFrameHost) (l : list RenderFrameHost) :
  ascending l → ascending (std_set_erase x l).
Proof.
  unfold std_set_erase. induction l as [|z l IH]; [done|]. intros [Hz Hl].
  destruct (decide (z ≠ x)).
  - rewrite filter_cons_True by done. split; [|by apply IH].
    apply Forall_forall. intros y [_ Hy]%list_elem_of_filter.
    by eapply Forall_forall in Hz.
  - rewrite filter_cons_False by done. by apply IH.
Qed.

(** The messages [RenderFrameCreated] sends in a sequence of frame
    calls. *)
Lemma run_frame_calls_eq browser cs w :
  ascending (render_frame_hosts_ (members w)) →
  ∃ frames,
    run_frame_calls browser cs w
    = Ok (tt, mkWhole (object w) (set_render_frame_hosts_ frames (members w))
                (whole_tracker w)
                (log w ++ (c ← cs;
                           match c with
                           | Frame_created f =>
                               [Frame_Send_SetIsPrerendering f
                                  (Frame_GetRoutingID browser f) true]
                           | Frame_deleted _ => []
                           end)))
    ∧ ascending frames
    ∧ ∀ f, f ∈ frames
           ↔ tracked_after f cs
               (bool_decide (f ∈ render_frame_hosts_ (members w))) = true.
Proof.
  revert w. induction cs as [|c cs IH]; intros w Hsorted.
  - exists (render_frame_hosts_ (members w)). simpl.
    rewrite app_nil_r. split; [by destruct w as [? [] ? ?]|]. split; [done|].
    intros f. by rewrite bool_decide_eq_true.
  - unfold run_frame_calls. simpl. rewrite W_bind_eq.
    destruct c as [g|g]; simpl; unfold RenderFrameCreated, RenderFrameDeleted;
      step_W.
    + edestruct (IH (mkWhole (object w)
                       (set_render_frame_hosts_
                          (std_set_insert g (render_frame_hosts_ (members w)))
                          (members w))
                       (whole_tracker w)
                       (log w ++ [Frame_Send_SetIsPrerendering g
                                    (Frame_GetRoutingID browser g) true])))
        as (frames & Heq & Hs & Hin).
      { simpl. by apply std_set_insert_sorted. }
      exists frames. unfold run_frame_calls in Heq. rewrite Heq. simpl.
      rewrite <- app_assoc. split; [done|]. split; [done|].
      intros f. rewrite Hin. simpl.
      replace (bool_decide (f ∈ std_set_insert g (render_frame_hosts_ (members w))))
        with (if bool_decide (g = f) then true
              else bool_decide (f ∈ render_frame_hosts_ (members w))); [done|].
      case_bool_decide; subst; symmetry.
      * apply bool_decide_eq_true. apply std_set_insert_elem. by left.
      * apply bool_decide_ext. rewrite std_set_insert_elem.
        split; [by intros [->|] | by right].
    + edestruct (IH (mkWhole (object w)
                       (set_render_frame_hosts_
                          (std_set_erase g (render_frame_hosts_ (members w)))
                          (members w))
                       (whole_tracker w) (log w)))
        as (frames & Heq & Hs & Hin).
      { simpl. by apply std_set_erase_sorted. }
      exists frames. unfold run_frame_calls in Heq. rewrite Heq. simpl.
      split; [done|]. split; [done|].
      intros f. rewrite Hin. simpl.
      replace (bool_decide (f ∈ std_set_erase g (render_frame_hosts_ (members w))))
        with (if bool_decide (g = f) then false
              else bool_decide (f ∈ render_frame_hosts_ (members w))); [done|].
      case_bool_decide; subst; symmetry.
      * apply bool_decide_eq_false. rewrite std_set_erase_elem. by intros [? _].
      * apply bool_decide_ext. rewrite std_set_erase_elem.
        split; [by intros [_ ?] | intros; split; [congruence | done]].
Qed.

Lemma lift_NotifyPrerenderStop_eq w :
  lift NotifyPrerenderStop w
  = if bool_decide (FINAL_STATUS_MAX ≠ final_status_ (object w))
    then Ok (tt, mkWhole (set_observer_list_ [] (object w)) (members w)
                   (whole_tracker w)
                   (log w ++ map Earlier
                              (map Observer_OnPrerenderStop
                                 (observer_list_ (object w)))))
    else Crash (DCHECK_failed "FINAL_STATUS_MAX != final_status_").
Proof.
  unfold lift. rewrite NotifyPrerenderStop_eq. simpl.
  by destruct (bool_decide _).
Qed.

(** X20. Frames at swap-in.  Starting with no frame tracked and a final
    status set, after any sequence of frame creations and deletions
    [PrepareForUse] returns.  Every creation was answered with
    SetIsPrerendering(true).  [PrepareForUse] sends
    SetIsPrerendering(false) exactly once to every frame that was
    created and not deleted since, in ascending order of address, and to
    no other; then tells every observer OnPrerenderStop, then hands the
    pending prerenders to the manager in one call.  Afterwards no frame
    is tracked, no prerender is pending and no observer is left. *)
Theorem PrepareForUse_releases_frames browser cs w :
  render_frame_hosts_ (members w) = [] →
  final_status_ (object w) ≠ FINAL_STATUS_MAX →
  ∃ frames w',
    (run_frame_calls browser cs ;; PrepareForUse browser) w = Ok (tt, w')
    ∧ ascending frames
    ∧ (∀ f, f ∈ frames ↔ tracked_after f cs false = true)
    ∧ log w'
      = log w
        ++ (c ← cs;
            match c with
            | Frame_created f =>
                [Frame_Send_SetIsPrerendering f (Frame_GetRoutingID browser f) true]
            | Frame_deleted _ => []
            end)
        ++ map (λ f, Frame_Send_SetIsPrerendering f
                       (Frame_GetRoutingID browser f) false) frames
        ++ map (λ o, Earlier (Observer_OnPrerenderStop o))
               (observer_list_ (object w))
        ++ [Manager_StartPendingPrerenders (child_id_ (object w))
              (pending_prerenders_ (members w))
              (match prerender_contents_ (object w) with
               | Some web_contents =>
                   GetDefaultSessionStorageNamespace browser web_contents
               | None => None
               end)]
    ∧ render_frame_hosts_ (members w') = []
    ∧ pending_prerenders_ (members w') = []
    ∧ observer_list_ (object w') = []
    ∧ whole_tracker w' = whole_tracker w.
Proof.
  intros Hempty Hf.
  destruct (run_frame_calls_eq browser cs w) as (frames & Heq & Hs & Hin).
  { by rewrite Hempty. }
  exists frames. rewrite W_bind_eq, Heq. unfold PrepareForUse. step_W.
  rewrite lift_NotifyPrerenderStop_eq. simpl.
  rewrite bool_decide_eq_true_2 by congruence. step_W.
  eexists. split; [reflexivity|]. split; [done|]. split.
  { intros f. rewrite Hin, Hempty. by rewrite bool_decide_eq_false_2 by apply not_elem_of_nil. }
  simpl. split; [|done]. rewrite <- !app_assoc. by rewrite map_map.
Qed.

(** Every trigger is [Destroy] with its reason, followed by the
    trigger's own call. *)
Lemma run_trigger_eq env t w :
  run_trigger env t w
  = match lift (Destroy env (Trigger_reason t)) w with
    | Ok (_, w') =>
        Ok (tt, mkWhole (object w') (members w') (whole_tracker w')
                  (log w' ++ Trigger_calls t))
    | Crash failed => Crash failed
    end.
Proof.
  destruct t; simpl;
    unfold OpenURLFromTab, CanDownload, JSOutOfMemory, ShouldSuppressDialogs,
      RegisterProtocolHandler, OnMessageReceived, OnCancelPrerenderForPrinting,
      RenderProcessGone;
    rewrite ?W_bind_eq;
    destruct (lift (Destroy env _) w) as [[[] w']|]; simpl;
    rewrite ?W_bind_eq; simpl; rewrite ?app_nil_r, ?Whole_eta; done.
Qed.

Lemma Trigger_reason_real t :
  Trigger_reason t ≠ FINAL_STATUS_USED ∧ Trigger_reason t ≠ FINAL_STATUS_MAX.
Proof. by destruct t. Qed.

Lemma lift_Destroy_cancelled env fs w :
  fs ≠ FINAL_STATUS_USED →
  prerendering_has_been_cancelled_ (object w) = true →
  lift (Destroy env fs) w = Ok (tt, w).
Proof.
  intros Hu Hc. unfold lift. rewrite Destroy_eq. simpl.
  rewrite (bool_decide_eq_true_2 _ Hu), Hc. simpl.
  by rewrite app_nil_r, Whole_eta.
Qed.

Lemma later_triggers env (later : list Trigger) w :
  prerendering_has_been_cancelled_ (object w) = true →
  for_all later (run_trigger env) w
  = Ok (tt, mkWhole (object w) (members w) (whole_tracker w)
              (log w ++ (t ← later; Trigger_calls t))).
Proof.
  revert w. induction later as [|t later IH]; intros w Hc; simpl.
  - by rewrite app_nil_r, Whole_eta.
  - rewrite W_bind_eq, run_trigger_eq.
    rewrite lift_Destroy_cancelled by (done || apply Trigger_reason_real).
    rewrite IH by done. simpl. by rewrite <- app_assoc.
Qed.

(** X21. The first trigger wins.  On a live record with no final status
    and no (child id, route id) pair, each of the cancelling entry
    points (the delegate's OpenURLFromTab, CanDownload, JSOutOfMemory,
    ShouldSuppressDialogs and RegisterProtocolHandler, the
    profile-destroyed and app-terminating notifications, the
    cancel-for-printing message, a renderer crash) returns and leaves
    the record cancelled with its own reason, and no two of them share
    a reason.  Any triggers that follow return and change neither the
    object nor the tracker; the only call they make is the refusal
    Run(false) of each CanDownload.  A history-offset navigation
    ([OnGoToEntryOffset]) is refused without cancelling anything. *)
Theorem first_trigger_wins env t (later : list Trigger) w :
  prerendering_has_been_cancelled_ (object w) = false →
  final_status_ (object w) = FINAL_STATUS_MAX →
  pair_assigned (object w) = false →
  (∀ t', Trigger_reason t' = Trigger_reason t →
         Trigger_calls t' = Trigger_calls t
         ∧ run_trigger env t' w = run_trigger env t w)
  ∧ (∀ offset, OnGoToEntryOffset offset w = Ok (false, w))
  ∧ ∃ w1,
      run_trigger env t w = Ok (tt, w1)
      ∧ prerendering_has_been_cancelled_ (object w1) = true
      ∧ final_status_ (object w1) = Trigger_reason t
      ∧ for_all later (run_trigger env) w1
        = Ok (tt, mkWhole (object w1) (members w1) (whole_tracker w1)
                    (log w1 ++ (t' ← later; Trigger_calls t'))).
Proof.
  intros Hc Hf Hp. split.
  { intros t' Heq. rewrite !run_trigger_eq, Heq.
    by destruct t, t'. }
  split; [done|].
  destruct (Trigger_reason_real t) as [Hu Hm].
  destruct (Destroy_cancels env (Trigger_reason t)
              (mkSt (object w) (whole_tracker w) []) (Trigger_reason t))
    as (s' & Hd & Hc' & Hf' & _); try done.
  { by apply Destroy_status_no_pair. }
  rewrite run_trigger_eq, (lift_eq _ _ _ _ Hd).
  eexists. split; [reflexivity|]. split; [done|]. split; [done|].
  by apply later_triggers.
Qed.

Lemma for_all_AddPendingPrerender (infos : list PendingPrerenderInfo) w :
  for_all infos AddPendingPrerender w
  = Ok (tt, mkWhole (object w)
              (set_pending_prerenders_ (pending_prerenders_ (members w) ++ infos)
                 (members w))
              (whole_tracker w) (log w)).
Proof.
  revert w. induction infos as [|info infos IH]; intros w; simpl.
  - rewrite app_nil_r. by destruct w as [? [] ? ?].
  - unfold AddPendingPrerender at 1. step_W. rewrite IH. simpl.
    by rewrite <- app_assoc.
Qed.

(** X24. Pending prerenders are handed over once, in the order they
    came.  After any number of [AddPendingPrerender] calls
    [pending_prerender_count] answers how many are held; on a record
    with a final status [PrepareForUse] hands them all to the manager
    in one StartPendingPrerenders call, in the order they were added,
    with the record's child id, after which none is held; a second
    [PrepareForUse] tells no frame and no observer and hands over an
    empty list. *)
Theorem pending_prerenders_handed_over_once browser
    (infos : list PendingPrerenderInfo) w :
  final_status_ (object w) ≠ FINAL_STATUS_MAX →
  let session_storage_namespace :=
    match prerender_contents_ (object w) with
    | Some web_contents => GetDefaultSessionStorageNamespace browser web_contents
    | None => None
    end in
  ∃ w1 w2 w3,
    for_all infos AddPendingPrerender w = Ok (tt, w1)
    ∧ pending_prerender_count w1
      = Ok ((length (pending_prerenders_ (members w)) + length infos)%nat, w1)
    ∧ PrepareForUse browser w1 = Ok (tt, w2)
    ∧ log w2
      = log w
        ++ map (λ f, Frame_Send_SetIsPrerendering f
                       (Frame_GetRoutingID browser f) false)
               (render_frame_hosts_ (members w))
        ++ map (λ o, Earlier (Observer_OnPrerenderStop o))
               (observer_list_ (object w))
        ++ [Manager_StartPendingPrerenders (child_id_ (object w))
              (pending_prerenders_ (members w) ++ infos)
              session_storage_namespace]
    ∧ pending_prerender_count w2 = Ok (0%nat, w2)
    ∧ PrepareForUse browser w2 = Ok (tt, w3)
    ∧ log w3
      = log w2
        ++ [Manager_StartPendingPrerenders (child_id_ (object w)) []
              session_storage_namespace].
Proof.
  intros Hf ns. subst ns. eexists _, _, _.
  split; [apply for_all_AddPendingPrerender|].
  split; [unfold pending_prerender_count; step_W; by rewrite length_app|].
  unfold PrepareForUse. step_W. rewrite lift_NotifyPrerenderStop_eq. simpl.
  rewrite bool_decide_eq_true_2 by congruence. step_W.
  split; [reflexivity|]. simpl.
  split; [by rewrite <- !app_assoc, map_map|].
  split; [unfold pending_prerender_count; by step_W|].
  rewrite lift_NotifyPrerenderStop_eq. simpl.
  rewrite bool_decide_eq_true_2 by congruence. step_W.
  split; [reflexivity|]. simpl. by rewrite !app_nil_r.
Qed.

(** X13. [cookie_status_] is the set of the kinds of events recorded.
    From a status within [0, kNumCookieStatuses), as the constructor
    leaves it, any sequence of cookie events is recorded without a
    failed assertion and changes nothing but [cookie_status_]; the
    status stays in that range, and bit [n] is set afterwards exactly
    when it was set before or some event of the sequence that is not
    ignored (a sent cookie created after the start) has kind [n].  So
    the outcome depends neither on the order of the events nor on
    repetitions. *)
Theorem RecordCookieEvents_collects_kinds (events : list (CookieEvent * bool * Z)) w :
  0 ≤ cookie_status_ (object w) < kNumCookieStatuses →
  ∃ status,
    RecordCookieEvents events w
    = Ok (tt, mkWhole (set_cookie_status_ status (object w)) (members w)
                (whole_tracker w) (log w))
    ∧ 0 ≤ status < kNumCookieStatuses
    ∧ ∀ n, Z.testbit status n = true
           ↔ Z.testbit (cookie_status_ (object w)) n = true
             ∨ ∃ event (is_main_frame_http_request : bool) earliest_create_date,
                 (event, is_main_frame_http_request, earliest_create_date) ∈ events
                 ∧ ¬ (event = COOKIE_EVENT_SEND
                      ∧ earliest_create_date > start_time_ (members w))
                 ∧ n = (if is_main_frame_http_request then 0 else 2)
                       + (if bool_decide (event = COOKIE_EVENT_SEND) then 0 else 1).
Proof.
  revert w. induction events as [|[[event is_main] date] events IH]; intros w Hr.
  - exists (cookie_status_ (object w)). simpl. split; [|split; [done|]].
    + by destruct w as [[] ? ? ?].
    + intros n. split; [by left|]. intros [|(? & ? & ? & ?%elem_of_nil & _)]; done.
  - pose proof (RecordCookieEvent_eq event is_main date w Hr) as Heq1.
    set (st1 := if bool_decide (event = COOKIE_EVENT_SEND)
                   && bool_decide (date > start_time_ (members w))
                then cookie_status_ (object w)
                else Z.lor (cookie_status_ (object w))
                       (Z.shiftl 1
                          ((if is_main then 0 else 2)
                           + (if bool_decide (event = COOKIE_EVENT_SEND)
                              then 0 else 1)))) in *.
    assert (0 ≤ (if is_main then 0 else 2)
                + (if bool_decide (event = COOKIE_EVENT_SEND) then 0 else 1) < 4)
      as Hbit by (destruct is_main; case_bool_decide; lia).
    assert (0 ≤ st1 < kNumCookieStatuses) as Hr1.
    { subst st1. destruct (_ && _); [done|]. by apply cookie_status_bound. }
    assert (∀ n, Z.testbit st1 n
                 = Z.testbit (cookie_status_ (object w)) n
                   || (negb (bool_decide (event = COOKIE_EVENT_SEND)
                             && bool_decide (date > start_time_ (members w)))
                       && bool_decide
                            (n = (if is_main then 0 else 2)
                                 + (if bool_decide (event = COOKIE_EVENT_SEND)
                                    then 0 else 1)))) as Hbits1.
    { intros n. subst st1. destruct (_ && _); simpl.
      - by rewrite orb_false_r.
      - apply cookie_status_bit. lia. }
    clearbody st1.
    unfold RecordCookieEvents. simpl. rewrite W_bind_eq, Heq1.
    destruct (IH (mkWhole (set_cookie_status_ st1 (object w)) (members w)
                    (whole_tracker w) (log w)) Hr1)
      as (st2 & Heq2 & Hr2 & Hbits2).
    unfold RecordCookieEvents in Heq2. rewrite Heq2. simpl in *.
    exists st2. split; [done|]. split; [done|].
    intros n. rewrite Hbits2, Hbits1, orb_true_iff, andb_true_iff, negb_true_iff,
      andb_false_iff, !bool_decide_eq_true, !bool_decide_eq_false.
    split.
    + intros [[?|[Hcount ->]]|(e & m & d & Hin & Hcount & ->)].
      * by left.
      * right. exists event, is_main, date. split; [by left|].
        split; [|done]. intros [? ?]. by destruct Hcount.
      * right. exists e, m, d. split; [by right|]. done.
    + intros [?|(e & m & d & [[= -> -> ->]|Hin]%elem_of_cons & Hcount & ->)].
      * by left; left.
      * left; right. split; [|done].
        destruct (decide (event = COOKIE_EVENT_SEND)); [|by left].
        right. intros ?. by apply Hcount.
      * right. by exists e, m, d.
Qed.

Lemma for_until_favicon (urls : list FaviconURL) w :
  for_until urls
    (λ it,
       if bool_decide (icon_type it = FAVICON) then
         modify_members (set_icon_url_ (icon_url it)) ;;
         mret false
       else mret true) w
  = Ok (tt, mkWhole (object w)
              (set_icon_url_
                 (match find (λ it, bool_decide (icon_type it = FAVICON)) urls with
                  | Some it => icon_url it
                  | None => icon_url_ (members w)
                  end) (members w))
              (whole_tracker w) (log w)).
Proof.
  induction urls as [|it urls IH]; simpl.
  - by destruct w as [? [] ? ?].
  - rewrite W_bind_eq. destruct (bool_decide (icon_type it = FAVICON)); simpl.
    + done.
    + rewrite IH. done.
Qed.

(** X14. The favicon is the first FAVICON entry of the latest update
    that has one.  [DidUpdateFaviconURL] sets [icon_url_] to the URL of
    the first entry of type FAVICON, whatever follows it in the list,
    and leaves it as it was when the list has none; nothing else
    changes.  A later update with a FAVICON entry replaces the URL an
    earlier one has set. *)
Theorem DidUpdateFaviconURL_first_favicon page_id (urls : list FaviconURL) w :
  DidUpdateFaviconURL page_id urls w
  = Ok (tt, mkWhole (object w)
              (set_icon_url_
                 (match find (λ it, bool_decide (icon_type it = FAVICON)) urls with
                  | Some it => icon_url it
                  | None => icon_url_ (members w)
                  end) (members w))
              (whole_tracker w) (log w))
  ∧ ∀ page_id' before it after,
      Forall (λ it', icon_type it' ≠ FAVICON) before →
      icon_type it = FAVICON →
      ∃ w',
        (DidUpdateFaviconURL page_id urls ;;
         DidUpdateFaviconURL page_id' (before ++ it :: after)) w = Ok (tt, w')
        ∧ icon_url_ (members w') = icon_url it.
Proof.
  split; [apply for_until_favicon|].
  intros page_id' before it after Hbefore Hit.
  unfold DidUpdateFaviconURL. rewrite W_bind_eq, for_until_favicon. simpl.
  rewrite for_until_favicon. eexists. split; [reflexivity|]. simpl.
  induction Hbefore as [|it' before Hit' _ IH]; simpl.
  - by rewrite bool_decide_eq_true_2.
  - by rewrite bool_decide_eq_false_2.
Qed.




End WholeObjectFacts.

(* ===================================================================== *)
(** ** The properties above on concrete records                            *)
(* ===================================================================== *)

(** A started record takes a redirect as alias, is cancelled, and is
    then offered one more URL. *)
Lemma aliases_append_only_witness :
  ∃ s',
    run_calls Sample.env
      [Call_AddAliasURL Sample.https_a; Call_Destroy FINAL_STATUS_CANCELLED;
       Call_AddAliasURL Sample.https_a_redirected]
      (Sample.started_idle 1) = Ok (tt, s')
    ∧ alias_urls_ (this s')
      = [Sample.http_a; Sample.https_a; Sample.https_a_redirected]
    ∧ alias_urls_ (this (Sample.started_idle 1)) `prefix_of` alias_urls_ (this s')
    ∧ head (alias_urls_ (this s')) = Some Sample.http_a
    ∧ Matches (this s') Sample.http_a None = true.
Proof.
  eexists. split; [vm_compute; reflexivity|]. split; [reflexivity|].
  destruct (@aliases_append_only _ TrackerMap Sample.env
              [Call_AddAliasURL Sample.https_a; Call_Destroy FINAL_STATUS_CANCELLED;
               Call_AddAliasURL Sample.https_a_redirected]
              (Sample.started_idle 1) _ ltac:(vm_compute; reflexivity))
    as (Hprefix & Hhead & Hmatches).
  split; [exact Hprefix|]. split; [by apply Hhead|]. by apply Hmatches.
Defined.

Lemma identity_is_stable_witness :
  ∃ s',
    run_calls Sample.env
      [Call_DidStopLoading; Call_Destroy FINAL_STATUS_TIMED_OUT;
       Call_DidNavigate Sample.http_a]
      (Sample.started_idle 1) = Ok (tt, s')
    ∧ same_identity (this (Sample.started_idle 1)) (this s')
    ∧ pair_assigned (this s') = true.
Proof.
  eexists. split; [vm_compute; reflexivity|].
  apply (identity_is_stable Sample.env
           [Call_DidStopLoading; Call_Destroy FINAL_STATUS_TIMED_OUT;
            Call_DidNavigate Sample.http_a]
           (Sample.started_idle 1)).
  vm_compute; reflexivity.
Defined.

(** Three cancellations in a row: the manager is called once. *)
Lemma bookkeeping_exactly_once_witness :
  bookkept (Sample.started_idle 1)
  ∧ ∃ s',
      run_calls Sample.env
        [Call_Destroy FINAL_STATUS_TIMED_OUT; Call_RenderProcessGone;
         Call_AddAliasURL Sample.ftp_x]
        (Sample.started_idle 1) = Ok (tt, s')
      ∧ bookkept s'
      ∧ prerendering_has_been_cancelled_ (this s') = true
      ∧ (count_calls is_AddToHistory (calls s') ≤ 1)%nat
      ∧ (count_calls is_MoveEntryToPendingDelete (calls s') ≤ 1)%nat.
Proof.
  assert (bookkept (Sample.started_idle 1)) as Hb by (split; reflexivity).
  split; [exact Hb|]. eexists. split; [vm_compute; reflexivity|].
  destruct (@bookkeeping_exactly_once _ TrackerMap Sample.env
              [Call_Destroy FINAL_STATUS_TIMED_OUT; Call_RenderProcessGone;
               Call_AddAliasURL Sample.ftp_x]
              (Sample.started_idle 1) _ ltac:(vm_compute; reflexivity) Hb)
    as (Hb' & Hh & Hm).
  split; [exact Hb'|]. split; [reflexivity|]. split; [exact Hh | exact Hm].
Defined.

Lemma aliases_keep_supported_schemes_witness :
  Forall (passes_scheme_checks Sample.env) (alias_urls_ (this (Sample.started_idle 1)))
  ∧ ∃ s',
      run_calls Sample.env
        [Call_AddAliasURL Sample.https_a; Call_AddAliasURL Sample.ftp_x]
        (Sample.started_idle 1) = Ok (tt, s')
      ∧ Forall (passes_scheme_checks Sample.env) (alias_urls_ (this s'))
      ∧ Matches (this s') Sample.ftp_x None = false.
Proof.
  assert (Forall (passes_scheme_checks Sample.env)
            (alias_urls_ (this (Sample.started_idle 1)))) as Hall.
  { constructor; [left; reflexivity | constructor]. }
  split; [exact Hall|]. eexists. split; [vm_compute; reflexivity|].
  destruct (@aliases_keep_supported_schemes _ TrackerMap Sample.env
              [Call_AddAliasURL Sample.https_a; Call_AddAliasURL Sample.ftp_x]
              (Sample.started_idle 1) _ ltac:(vm_compute; reflexivity) Hall)
    as [Hall' _].
  split; [exact Hall' | reflexivity].
Defined.

(** A started record is offered an ftp URL as alias. *)
Lemma cancelled_has_final_status_witness :
  (prerendering_has_been_cancelled_ (this (Sample.started_idle 1)) = true →
   final_status_ (this (Sample.started_idle 1)) ≠ FINAL_STATUS_MAX)
  ∧ ∃ s',
      run_calls Sample.env [Call_AddAliasURL Sample.ftp_x] (Sample.started_idle 1)
      = Ok (tt, s')
      ∧ prerendering_has_been_cancelled_ (this s') = true
      ∧ final_status_ (this s') ≠ FINAL_STATUS_MAX.
Proof.
  assert (prerendering_has_been_cancelled_ (this (Sample.started_idle 1)) = true →
          final_status_ (this (Sample.started_idle 1)) ≠ FINAL_STATUS_MAX)
    as Hlive by (simpl; discriminate).
  split; [exact Hlive|]. eexists. split; [vm_compute; reflexivity|].
  split; [reflexivity|].
  apply (@cancelled_has_final_status _ TrackerMap Sample.env
           [Call_AddAliasURL Sample.ftp_x] (Sample.started_idle 1) _
           ltac:(vm_compute; reflexivity) Hlive).
  reflexivity.
Defined.

(** A started record with two observers and its pair in the tracker is
    cancelled, and the manager leaves it as it is: the tracker is asked,
    the manager is told, both observers are told to stop. *)
Lemma Destroy_notification_order_witness :
  prerendering_has_been_cancelled_ (this (Sample.started_idle 1)) = false
  ∧ ∃ s',
      Destroy Sample.env FINAL_STATUS_TIMED_OUT (Sample.started_idle 1) = Ok (tt, s')
      ∧ match_complete_status_ (this s')
        = match_complete_status_ (this (Sample.started_idle 1))
      ∧ final_status_ (this s') = FINAL_STATUS_TIMED_OUT
      ∧ calls s'
        = [Tracker_TryCancel 7 3 FINAL_STATUS_TIMED_OUT; Tracker_GetFinalStatus 7 3;
           Manager_AddToHistory;
           Manager_MoveEntryToPendingDelete FINAL_STATUS_TIMED_OUT;
           Observer_OnPrerenderStop 0%nat; Observer_OnPrerenderStop 1%nat]
      ∧ observer_list_ (this s') = [].
Proof.
  split; [reflexivity|]. eexists. split; [vm_compute; reflexivity|].
  split; [reflexivity|]. split; [reflexivity|].
  destruct (@Destroy_notification_order _ TrackerMap Sample.env
              FINAL_STATUS_TIMED_OUT (Sample.started_idle 1) _
              ltac:(vm_compute; reflexivity) ltac:(reflexivity)
              ltac:(reflexivity))
    as (_ & _ & Hcalls & Hobservers).
  split; [exact Hcalls | exact Hobservers].
Defined.

(** After the stop notification of [Sample.after_alert], loading stops,
    a replacement is made and history is committed: no observer hears
    of it. *)
Lemma observers_silent_after_stop_witness :
  final_status_ (this (Sample.after_alert 1)) ≠ FINAL_STATUS_MAX
  ∧ observer_list_ (this (Sample.after_alert 1)) = []
  ∧ ∃ s',
      run_calls Sample.env
        [Call_DidStopLoading; Call_CreateMatchCompleteReplacement;
         Call_DidNavigate Sample.http_a; Call_CommitHistory 4%nat]
        (Sample.after_alert 1) = Ok (tt, s')
      ∧ observer_list_ (this s') = []
      ∧ filter is_observer_call (calls s')
        = [Observer_OnPrerenderStop 0%nat; Observer_OnPrerenderStop 1%nat].
Proof.
  split; [discriminate|]. split; [reflexivity|].
  eexists. split; [vm_compute; reflexivity|].
  destruct (@observers_silent_after_stop _ TrackerMap Sample.env
              [Call_DidStopLoading; Call_CreateMatchCompleteReplacement;
               Call_DidNavigate Sample.http_a; Call_CommitHistory 4%nat]
              (Sample.after_alert 1) _
              ltac:(vm_compute; reflexivity) ltac:(discriminate) ltac:(reflexivity))
    as [Hlist Hcalls].
  split; [exact Hlist|]. etrans; [exact Hcalls | reflexivity].
Defined.

(** A commit with the chain https, ftp, https on a started record: the
    first URL becomes an alias, the second cancels, the third is never
    looked at. *)
Lemma DidNavigateMainFrame_adds_accepted_prefix_witness :
  prerender_contents_ (this (Sample.started_idle 1)) = Some (mkWebContents 1)
  ∧ GetEntryCount (mkWebContents 1) ≤ 1
  ∧ accepted_prefix Sample.env (this (Sample.started_idle 1))
      [Sample.https_a; Sample.ftp_x; Sample.https_a_redirected]
    = [Sample.https_a]
  ∧ ∃ s',
      DidNavigateMainFrame Sample.env
        (mkFrameNavigateParams
           [Sample.https_a; Sample.ftp_x; Sample.https_a_redirected])
        (Sample.started_idle 1) = Ok (tt, s')
      ∧ alias_urls_ (this s') = [Sample.http_a; Sample.https_a]
      ∧ prerendering_has_been_cancelled_ (this s') = true.
Proof.
  split; [reflexivity|]. split; [simpl; lia|]. split; [reflexivity|].
  eexists. split; [vm_compute; reflexivity|].
  destruct (@DidNavigateMainFrame_adds_accepted_prefix _ TrackerMap Sample.env
              (mkFrameNavigateParams
                 [Sample.https_a; Sample.ftp_x; Sample.https_a_redirected])
              (Sample.started_idle 1) (mkWebContents 1) _
              ltac:(reflexivity) ltac:(simpl; lia) ltac:(vm_compute; reflexivity))
    as (Haliases & _ & _ & Hcancelled).
  split; [exact Haliases|]. apply Hcancelled. discriminate.
Defined.

(** The replacement of a record that has collected a redirect. *)
Lemma replacement_stands_in_witness :
  alias_urls_ (this Sample.with_redirect)
  = prerender_url_ (this Sample.with_redirect) :: [Sample.https_a_redirected]
  ∧ passes_scheme_checks Sample.env (prerender_url_ (this Sample.with_redirect))
  ∧ ∃ clone s',
      CreateMatchCompleteReplacement Sample.env Sample.with_redirect = Ok (clone, s')
      ∧ Matches clone Sample.https_a_redirected (Some (mkNamespace 5)) = true
      ∧ (∀ url ns, Matches clone url ns = Matches (this Sample.with_redirect) url ns)
      ∧ prerendering_has_started_ clone = false
      ∧ pair_assigned clone = false.
Proof.
  assert (passes_scheme_checks Sample.env (prerender_url_ (this Sample.with_redirect)))
    as Hok by (right; split; reflexivity).
  split; [reflexivity|]. split; [exact Hok|].
  destruct (@replacement_stands_in _ TrackerMap Sample.env Sample.with_redirect
              [Sample.https_a_redirected] ltac:(reflexivity) Hok)
    as (clone & Hrun & Hmatches & Hstarted & _ & _ & Hpair & _).
  exists clone. eexists. split; [exact Hrun|].
  split; [by rewrite Hmatches|]. split; [exact Hmatches|].
  split; [exact Hstarted | exact Hpair].
Defined.

(** A cookie change on a subresource request, recorded on a started
    record: bit 3. *)
Lemma RecordCookieEvent_sets_one_bit_witness :
  0 ≤ cookie_status_ (object Scenario.running) < kNumCookieStatuses
  ∧ ∃ status,
      RecordCookieEvent COOKIE_EVENT_CHANGE false 6000 Scenario.running
      = Ok (tt, mkWhole (set_cookie_status_ status (object Scenario.running))
                  (members Scenario.running) (whole_tracker Scenario.running)
                  (log Scenario.running))
      ∧ status = 8.
Proof.
  assert (0 ≤ cookie_status_ (object Scenario.running) < kNumCookieStatuses)
    as Hrange by (vm_compute; split; [discriminate | reflexivity]).
  split; [exact Hrange|].
  destruct (RecordCookieEvent_sets_one_bit (T:=gmap (Z * Z) FinalStatus)
              COOKIE_EVENT_CHANGE false
              6000 Scenario.running Hrange) as (status & Hrun & _ & Hbits).
  exists status. split; [exact Hrun|].
  vm_compute in Hrun. by injection Hrun as <-.
Defined.

(** A main-frame send of an old cookie, a send of a cookie created
    after the start (ignored), and two changes on other requests. *)
Lemma RecordCookieEvents_collects_kinds_witness :
  0 ≤ cookie_status_ (object Scenario.running) < kNumCookieStatuses
  ∧ ∃ status,
      RecordCookieEvents
        [(COOKIE_EVENT_SEND, true, 4000); (COOKIE_EVENT_SEND, false, 6000);
         (COOKIE_EVENT_CHANGE, false, 6000); (COOKIE_EVENT_CHANGE, false, 7000)]
        Scenario.running
      = Ok (tt, mkWhole (set_cookie_status_ status (object Scenario.running))
                  (members Scenario.running) (whole_tracker Scenario.running)
                  (log Scenario.running))
      ∧ status = 9
      ∧ 0 ≤ status < kNumCookieStatuses.
Proof.
  assert (0 ≤ cookie_status_ (object Scenario.running) < kNumCookieStatuses)
    as Hrange by (vm_compute; split; [discriminate | reflexivity]).
  split; [exact Hrange|].
  destruct (RecordCookieEvents_collects_kinds (T:=gmap (Z * Z) FinalStatus)
              [(COOKIE_EVENT_SEND, true, 4000); (COOKIE_EVENT_SEND, false, 6000);
               (COOKIE_EVENT_CHANGE, false, 6000); (COOKIE_EVENT_CHANGE, false, 7000)]
              Scenario.running Hrange) as (status & Hrun & Hr & _).
  exists status. split; [exact Hrun|]. split; [|exact Hr].
  vm_compute in Hrun. by injection Hrun as <-.
Defined.

(** A started record times out, stops loading, and is deleted. *)
Lemma delete_after_Destroy_witness :
  prerendering_has_been_cancelled_ (object Scenario.running) = false
  ∧ origin_ (object Scenario.running) ≠ ORIGIN_MAX
  ∧ ∃ w1 w2 w3,
      lift (Destroy Sample.env FINAL_STATUS_TIMED_OUT) Scenario.running = Ok (tt, w1)
      ∧ lift (run_calls Sample.env [Call_DidStopLoading]) w1 = Ok (tt, w2)
      ∧ PrerenderContents_delete Sample.env w2 = Ok (tt, w3)
      ∧ final_status_ (object w1) = FINAL_STATUS_TIMED_OUT
      ∧ Manager_RecordFinalStatusWithMatchCompleteStatus ORIGIN_OMNIBOX 0
          MATCH_COMPLETE_DEFAULT FINAL_STATUS_TIMED_OUT
        ∈ delete_calls Sample.env (object w2) (members w2).
Proof.
  split; [reflexivity|]. split; [discriminate|].
  eexists _, _. 
  destruct (@delete_after_Destroy _ TrackerMap Sample.env FINAL_STATUS_TIMED_OUT
              [Call_DidStopLoading] Scenario.running _ _
              ltac:(reflexivity) ltac:(discriminate)
              ltac:(vm_compute; reflexivity) ltac:(vm_compute; reflexivity))
    as (_ & w3 & Hdelete & _ & Hin).
  exists w3. split; [vm_compute; reflexivity|]. split; [vm_compute; reflexivity|].
  split; [exact Hdelete|]. split; [reflexivity | exact Hin].
Defined.

(** The created record is started in a manager whose experiments are
    all control group. *)
Lemma StartPrerendering_control_cohort_witness :
  StartPrerendering_asserts (mkSize false (800, 600)) Scenario.created
  ∧ in_control_cohort Scenario.control_env Scenario.browser (object Scenario.created)
    = true
  ∧ ∃ w',
      StartPrerendering Scenario.control_env Scenario.browser 2
        (mkSize false (800, 600)) (mkNamespace 5) Scenario.created = Ok (tt, w')
      ∧ log w' = []
      ∧ prerendering_has_started_ (object w') = false
      ∧ prerender_contents_ (object w') = None
      ∧ pair_assigned (object w') = false.
Proof.
  assert (StartPrerendering_asserts (mkSize false (800, 600)) Scenario.created)
    as Hasserts by (repeat split; (discriminate || reflexivity)).
  split; [exact Hasserts|]. split; [reflexivity|].
  destruct (StartPrerendering_control_cohort (T:=gmap (Z * Z) FinalStatus)
              Scenario.control_env Scenario.browser 2 (mkSize false (800, 600))
              (mkNamespace 5) Scenario.created Hasserts ltac:(reflexivity))
    as (w' & Hrun & Hlog & _ & Hstarted & Hwc & Hchild & Hroute & _).
  exists w'. split; [exact Hrun|]. split; [exact Hlog|].
  split; [exact Hstarted|]. split; [exact Hwc|].
  unfold pair_assigned. rewrite Hchild, Hroute. reflexivity.
Defined.

(** The created record is really started: pair (7, 3), the tracker
    (observer 0) registered after the handle (observer 1), both told of
    the start. *)
Lemma StartPrerendering_real_start_witness :
  StartPrerendering_asserts (mkSize false (800, 600)) Scenario.created
  ∧ in_control_cohort Sample.env Scenario.browser (object Scenario.created) = false
  ∧ final_status_ (object Scenario.created) = FINAL_STATUS_MAX
  ∧ ∃ w',
      StartPrerendering Sample.env Scenario.browser 2 (mkSize false (800, 600))
        (mkNamespace 5) Scenario.created = Ok (tt, w')
      ∧ prerendering_has_started_ (object w') = true
      ∧ child_id_ (object w') = 7
      ∧ route_id_ (object w') = 3
      ∧ observer_list_ (object w') = [1%nat; 0%nat]
      ∧ session_storage_namespace_id_ (object w') = 5.
Proof.
  assert (StartPrerendering_asserts (mkSize false (800, 600)) Scenario.created)
    as Hasserts by (repeat split; (discriminate || reflexivity)).
  split; [exact Hasserts|]. split; [reflexivity|]. split; [reflexivity|].
  destruct (StartPrerendering_real_start (T:=gmap (Z * Z) FinalStatus)
              Sample.env Scenario.browser 2 (mkSize false (800, 600))
              (mkNamespace 5) Scenario.created
              (mkRenderViewHost (Some (mkRenderProcessHost 7 (Some 4242))) 3)
              (mkRenderProcessHost 7 (Some 4242))
              Hasserts ltac:(reflexivity) ltac:(reflexivity) ltac:(reflexivity)
              ltac:(reflexivity))
    as (w' & Hrun & Hstarted & _ & Hchild & Hroute & Hobservers & _).
  exists w'. split; [exact Hrun|]. split; [exact Hstarted|].
  split; [exact Hchild|]. split; [exact Hroute|]. split; [exact Hobservers|].
  vm_compute in Hrun. by injection Hrun as <-.
Defined.

(** The started record of the previous lemma stops loading and is asked
    to start again. *)
Lemma StartPrerendering_at_most_once_witness :
  ∃ w1 w2 failed,
    StartPrerendering Sample.env Scenario.browser 2 (mkSize false (800, 600))
      (mkNamespace 5) Scenario.created = Ok (tt, w1)
    ∧ lift (run_calls Sample.env [Call_DidStopLoading]) w1 = Ok (tt, w2)
    ∧ StartPrerendering Sample.env Scenario.browser 2 (mkSize false (800, 600))
        (mkNamespace 5) w2 = Crash failed.
Proof.
  eexists _, _.
  destruct (StartPrerendering_at_most_once (T:=gmap (Z * Z) FinalStatus)
              Sample.env Scenario.browser 2 (mkSize false (800, 600))
              (mkNamespace 5) Scenario.created _ [Call_DidStopLoading] _
              Sample.env Scenario.browser 2 (mkSize false (800, 600))
              (mkNamespace 5)
              ltac:(vm_compute; reflexivity) ltac:(vm_compute; reflexivity))
    as [failed Hcrash].
  exists failed. split; [vm_compute; reflexivity|].
  split; [vm_compute; reflexivity | exact Hcrash].
Defined.

(** Frames 30 and 10 are created, 30 is deleted, 20 is created, 10 is
    created again; the used record is then prepared for use. *)
Lemma PrepareForUse_releases_frames_witness :
  final_status_
    (object (mkWhole (object Scenario.used) (Members_new (Some 1%nat))
               (whole_tracker Scenario.used) []))
  ≠ FINAL_STATUS_MAX
  ∧ ∃ w',
      (run_frame_calls Scenario.browser
         [Frame_created 30; Frame_created 10; Frame_deleted 30;
          Frame_created 20; Frame_created 10] ;;
       PrepareForUse Scenario.browser)
        (mkWhole (object Scenario.used) (Members_new (Some 1%nat))
           (whole_tracker Scenario.used) [])
      = Ok (tt, w')
      ∧ log w'
        = [Frame_Send_SetIsPrerendering 30 130 true;
           Frame_Send_SetIsPrerendering 10 110 true;
           Frame_Send_SetIsPrerendering 20 120 true;
           Frame_Send_SetIsPrerendering 10 110 true;
           Frame_Send_SetIsPrerendering 10 110 false;
           Frame_Send_SetIsPrerendering 20 120 false;
           Earlier (Observer_OnPrerenderStop 0%nat);
           Earlier (Observer_OnPrerenderStop 1%nat);
           Manager_StartPendingPrerenders 7 [] (Some (mkNamespace 5))]
      ∧ render_frame_hosts_ (members w') = [].
Proof.
  split; [discriminate|].
  destruct (PrepareForUse_releases_frames (T:=gmap (Z * Z) FinalStatus)
              Scenario.browser
              [Frame_created 30; Frame_created 10; Frame_deleted 30;
               Frame_created 20; Frame_created 10]
              (mkWhole (object Scenario.used) (Members_new (Some 1%nat))
                 (whole_tracker Scenario.used) [])
              ltac:(reflexivity) ltac:(discriminate))
    as (frames & w' & Hrun & _ & _ & _ & Hframes & _).
  exists w'. split; [exact Hrun|]. split; [|exact Hframes].
  vm_compute in Hrun. injection Hrun as <-. reflexivity.
Defined.

(** A download attempt on the created record, then a dialog, a second
    download attempt and a renderer crash. *)
Lemma first_trigger_wins_witness :
  prerendering_has_been_cancelled_ (object Scenario.created) = false
  ∧ final_status_ (object Scenario.created) = FINAL_STATUS_MAX
  ∧ pair_assigned (object Scenario.created) = false
  ∧ ∃ w1,
      run_trigger Sample.env Trigger_CanDownload Scenario.created = Ok (tt, w1)
      ∧ final_status_ (object w1) = FINAL_STATUS_DOWNLOAD
      ∧ for_all
          [Trigger_ShouldSuppressDialogs; Trigger_CanDownload;
           Trigger_RenderProcessGone]
          (run_trigger Sample.env) w1
        = Ok (tt, mkWhole (object w1) (members w1) (whole_tracker w1)
                    (log w1 ++ [Callback_Run false])).
Proof.
  split; [reflexivity|]. split; [reflexivity|]. split; [reflexivity|].
  destruct (first_trigger_wins (T:=gmap (Z * Z) FinalStatus) Sample.env
              Trigger_CanDownload
              [Trigger_ShouldSuppressDialogs; Trigger_CanDownload;
               Trigger_RenderProcessGone]
              Scenario.created ltac:(reflexivity) ltac:(reflexivity)
              ltac:(reflexivity))
    as (_ & _ & w1 & Hrun & _ & Hstatus & Hlater).
  exists w1. split; [exact Hrun|]. split; [exact Hstatus | exact Hlater].
Defined.

(** The used record, holding one pending prerender, is given another
    and prepared for use twice. *)
Lemma pending_prerenders_handed_over_once_witness :
  final_status_ (object Scenario.used) ≠ FINAL_STATUS_MAX
  ∧ ∃ w1 w2 w3,
      for_all [Scenario.pending] AddPendingPrerender Scenario.used = Ok (tt, w1)
      ∧ pending_prerender_count w1 = Ok (2%nat, w1)
      ∧ PrepareForUse Scenario.browser w1 = Ok (tt, w2)
      ∧ pending_prerender_count w2 = Ok (0%nat, w2)
      ∧ PrepareForUse Scenario.browser w2 = Ok (tt, w3)
      ∧ log w3
        = [Frame_Send_SetIsPrerendering 10 110 false;
           Frame_Send_SetIsPrerendering 20 120 false;
           Earlier (Observer_OnPrerenderStop 0%nat);
           Earlier (Observer_OnPrerenderStop 1%nat);
           Manager_StartPendingPrerenders 7 [Scenario.pending; Scenario.pending]
             (Some (mkNamespace 5));
           Manager_StartPendingPrerenders 7 [] (Some (mkNamespace 5))].
Proof.
  split; [discriminate|].
  destruct (pending_prerenders_handed_over_once (T:=gmap (Z * Z) FinalStatus)
              Scenario.browser [Scenario.pending] Scenario.used
              ltac:(discriminate))
    as (w1 & w2 & w3 & Hadd & Hcount & Huse & Hlog2 & Hcount2 & Huse2 & Hlog3).
  exists w1, w2, w3. split; [exact Hadd|]. split; [exact Hcount|].
  split; [exact Huse|]. split; [exact Hcount2|]. split; [exact Huse2|].
  rewrite Hlog3, Hlog2. reflexivity.
Defined.

(** An https URL is accepted on a started record, also after it has been
    cancelled; a recently visited URL is not. *)
Lemma AddAliasURL_accepts_witness :
  CheckURL_verdict Sample.env (this (Sample.after_alert 1)) Sample.https_a = true
  ∧ AddAliasURL Sample.env Sample.https_a (Sample.after_alert 1)
    = Ok (true,
          mkSt (set_alias_urls_ [Sample.http_a; Sample.https_a]
                  (this (Sample.after_alert 1)))
            (tracker (Sample.after_alert 1))
            (calls (Sample.after_alert 1)
             ++ [Host_Send_OnPrerenderAddAlias 1%nat Sample.https_a;
                 Host_Send_OnPrerenderAddAlias 2%nat Sample.https_a]))
  ∧ ∃ s',
      AddAliasURL Sample.env Sample.http_visited (Sample.started_idle 1)
      = Ok (false, s')
      ∧ prerendering_has_been_cancelled_ (this s') = true
      ∧ alias_urls_ (this s') = [Sample.http_a].
Proof.
  destruct (@AddAliasURL_accepts _ TrackerMap Sample.env Sample.https_a
              (Sample.after_alert 1)) as [Haccept _].
  destruct (@AddAliasURL_accepts _ TrackerMap Sample.env Sample.http_visited
              (Sample.started_idle 1)) as [_ Hreject].
  split; [reflexivity|]. split; [exact (Haccept eq_refl)|].
  eexists. split; [vm_compute; reflexivity|].
  destruct (Hreject false _ ltac:(vm_compute; reflexivity))
    as (_ & Hfalse).
  destruct (Hfalse eq_refl) as (Hcancelled & Haliases & _).
  split; [exact Hcancelled | exact Haliases].
Defined.

(** A main-frame resource is redirected to an ftp URL on a started
    record. *)
Lemma resource_redirect_adds_no_alias_witness :
  CheckURL_verdict Sample.env (this (Sample.started_idle 1)) Sample.ftp_x = false
  ∧ ∃ s',
      DidGetRedirectForResourceRequest Sample.env true Sample.ftp_x
        (Sample.started_idle 1) = Ok (tt, s')
      ∧ alias_urls_ (this s') = [Sample.http_a]
      ∧ prerendering_has_been_cancelled_ (this s') = true.
Proof.
  split; [reflexivity|]. eexists. split; [vm_compute; reflexivity|].
  destruct (@resource_redirect_adds_no_alias _ TrackerMap Sample.env Sample.ftp_x
              (Sample.started_idle 1)) as (_ & _ & Hmain).
  destruct (Hmain _ ltac:(vm_compute; reflexivity)) as (Haliases & _ & Hcancelled).
  split; [exact Haliases | exact (Hcancelled eq_refl)].
Defined.

(** A provisional load of the main frame towards a recently visited
    URL. *)
Lemma loading_flags_witness :
  CheckURL_verdict Sample.env (this (Sample.started_idle 1)) Sample.http_visited
  = false
  ∧ ∃ s',
      DidStartProvisionalLoadForFrame Sample.env true Sample.http_visited
        (Sample.started_idle 1) = Ok (tt, s')
      ∧ has_stopped_loading_ (this s') = false
      ∧ prerendering_has_been_cancelled_ (this s') = true.
Proof.
  split; [reflexivity|]. eexists. split; [vm_compute; reflexivity|].
  destruct (@loading_flags _ TrackerMap Sample.env Sample.http_visited
              (Sample.started_idle 1)) as (_ & _ & _ & _ & _ & Hrejected).
  destruct (Hrejected eq_refl _ ltac:(vm_compute; reflexivity))
    as (Hstopped & _ & Hcancelled).
  split; [exact Hstopped | exact Hcancelled].
Defined.

(** Deleting the used record, and trying to delete the running one. *)
Lemma PrerenderContents_delete_reports_witness :
  (∃ w', PrerenderContents_delete Sample.env Scenario.used = Ok (tt, w')
         ∧ log w'
           = [Manager_RecordCookieStatus ORIGIN_OMNIBOX 0 0;
              Manager_RecordFinalStatusWithMatchCompleteStatus ORIGIN_OMNIBOX 0
                MATCH_COMPLETE_DEFAULT FINAL_STATUS_USED;
              Host_Send_OnPrerenderRemoveAliases 1%nat [Sample.http_a];
              Host_Send_OnPrerenderRemoveAliases 2%nat [Sample.http_a];
              WebContents_SetDelegate (mkWebContents 1) false;
              WebContentsObserver_Observe None;
              Namespace_RemoveTransactionLogProcessId (mkNamespace 6) 7;
              WebContents_delete (mkWebContents 1)])
  ∧ ¬ ∃ w', PrerenderContents_delete Sample.env Scenario.running = Ok (tt, w').
Proof.
  destruct (PrerenderContents_delete_reports (T:=gmap (Z * Z) FinalStatus)
              Sample.env Scenario.used) as [[_ Hreturns] Hstate].
  destruct (PrerenderContents_delete_reports (T:=gmap (Z * Z) FinalStatus)
              Sample.env Scenario.running) as [[Hneeds _] _].
  split.
  - destruct Hreturns as [w' Hrun].
    { split; [discriminate|]. split; [right; reflexivity | discriminate]. }
    exists w'. split; [exact Hrun|]. rewrite (Hstate w' Hrun). reflexivity.
  - intros Hruns. destruct (Hneeds Hruns) as [Hstatus _]. by apply Hstatus.
Defined.

(** Two favicon updates: the first FAVICON entry of the later one is
    kept. *)
Lemma DidUpdateFaviconURL_first_favicon_witness :
  ∃ w',
    (DidUpdateFaviconURL 1
       [mkFaviconURL Sample.http_a (IconType_other 2);
        mkFaviconURL Sample.https_a FAVICON;
        mkFaviconURL Sample.ftp_x FAVICON] ;;
     DidUpdateFaviconURL 1
       ([mkFaviconURL Sample.http_a (IconType_other 2)]
        ++ mkFaviconURL Sample.https_a_redirected FAVICON
           :: [mkFaviconURL Sample.ftp_x FAVICON])) Scenario.running
    = Ok (tt, w')
    ∧ icon_url_ (members w') = Sample.https_a_redirected.
Proof.
  destruct (DidUpdateFaviconURL_first_favicon (T:=gmap (Z * Z) FinalStatus) 1
              [mkFaviconURL Sample.http_a (IconType_other 2);
               mkFaviconURL Sample.https_a FAVICON;
               mkFaviconURL Sample.ftp_x FAVICON] Scenario.running)
    as [_ Hlater].
  apply (Hlater 1 [mkFaviconURL Sample.http_a (IconType_other 2)]
           (mkFaviconURL Sample.https_a_redirected FAVICON)
           [mkFaviconURL Sample.ftp_x FAVICON]).
  - constructor; [discriminate | constructor].
  - reflexivity.
Defined.


